(** * pyROSe: the command chain, the topics and the scheduler

    A shallow embedding of [architecture/architecture_relationships.py] and
    [architecture/scheduler.py].  Python objects live in a heap of attribute
    dictionaries, so that an attribute a constructor never set is absent, and
    two references to one object alias.  Methods are state transformers that
    return a value, raise a Python exception, or run out of fuel. *)

From stdpp Require Import base gmap strings list.
From Stdlib Require Import ZArith Lia.

Set Warnings "-register-all,-clear-no-such-hyp".
Local Open Scope string_scope.

(** ** Values *)

(** [time.time()] returns a Python float.  The code subtracts and compares
    such readings and prints one into a file name; these operations are kept
    abstract, so nothing below depends on how floats round. *)
Class PyFloat := {
  pyfloat : Type;
  fsub : pyfloat -> pyfloat -> pyfloat;      (* a - b *)
  fge : pyfloat -> pyfloat -> bool;          (* a >= b *)
  fnonzero : pyfloat -> bool;                (* bool(a) *)
  fzero : pyfloat;                           (* 0.0 *)
  log_file_name : pyfloat -> string          (* "log_" + str(int(a)) + ".csv" *)
}.

Definition addr := nat.

(** Keys of the dictionaries the code builds: strings (attribute-like keys,
    topic names) and callables (the boolean suppliers of a DynamicCommand,
    hashed by identity). *)
Inductive dkey := KStr (s : string) | KFun (c : nat).

#[global] Instance dkey_eq_dec : EqDecision dkey.
Proof. solve_decision. Defined.

#[global] Instance dkey_countable : Countable dkey.
Proof.
  refine (inj_countable'
            (fun k => match k with KStr s => inl s | KFun c => inr c end)
            (fun x => match x with inl s => KStr s | inr c => KFun c end) _).
  by intros [].
Defined.

(** [type(d)] of a dictionary value: [dict] itself, or a subclass of [dict]
    such as [collections.OrderedDict]. *)
Inductive dict_type := ExactDict | DictSubclass.

Inductive val `{PyFloat} :=
| VNone
| VBool (b : bool)
| VNum (x : pyfloat)
| VStr (s : string)
| VRef (a : addr)                              (* an object on the heap *)
| VFun (c : nat)                               (* a callable *)
| VList (l : list val)
| VDict (ty : dict_type) (m : gmap dkey val)
| VMessage (message : val) (time_stamp : val).      (* an instance of Message *)

(** The classes of heap objects.  A user class is known by a number that
    selects its overridden methods. *)
Inductive pyclass :=
| UserCommand (k : nat)          (* class K(Command) *)
| UserDynamicCommand (k : nat)   (* class K(DynamicCommand) *)
| ParallelCommand
| DelayCommand
| UserTopic (k : nat)            (* class K(Topic) *)
| SystemTimeTopic
| UserSubscriber (k : nat)       (* class K(Subscriber) *)
| OtherObject.                   (* an object of no class of this module *)

Inductive runtime_error :=
| HardwareFailed (name : string)
| TopicsSameName (name : string)
| TopicSubscriberSameName (name : string).

Inductive exn :=
| TypeError (what : string)
| AttributeError (attribute : string)
| KeyError (key : dkey)
| IndexError
| RuntimeError (why : runtime_error)
| TopicCircularDependency
| Exception (why : string)
| FileNotFoundError
| DanglingReference.             (* a reference outside the heap: never in Python *)

Inductive event :=
| FirstRunBehavior (a : addr)
| Periodic (a : addr)
| IsComplete (a : addr)
| Called (c : nat)
| Generate (a : addr)
| SubscriberPeriodic (a : addr) (sim : bool)
| InitializeHardware (a : addr)
| Print (text : string).

Section Core.
Context `{PyFloat}.

Record obj := Obj { cls : pyclass; attrs : gmap string val }.

(** One line of a log file: the header, or one tick with, per topic name,
    the message body, the topic's time and its delta.  The code formats the
    three into one string per topic; they are kept apart here. *)
Inductive log_line :=
| LogHeader
| LogTick (present_time : pyfloat) (stored_messages : gmap dkey (val * val * val)).

(** The overridden methods of the user's classes act on a world [W] of their
    own; the collaborators that are imported but not part of these two files
    ([pyros_math.graph_theory], [architecture.topicLogUtil]) are fields too. *)
Class UserCode := {
  W : Type;
  first_run_behavior_u : nat -> W -> W;
  periodic_u : nat -> W -> W;
  is_complete_u : nat -> W -> bool * W;
  call_u : nat -> W -> bool * W;
  generate_messages_periodic_u : nat -> val -> W -> val * W;
  subscriber_periodic_u : nat -> val -> W -> W;
  subscriber_periodic_sim_u : nat -> option (val -> W -> W);   (* None: not overridden *)
  initialize_hardware_u : nat -> W -> bool * W;
  log_index : Type;
  dependecy_sort : gmap addr obj -> list val -> list val;
  cycle_is_present_in_any : gmap addr obj -> list val -> bool;
  dump_file_contents : list log_line -> list pyfloat * list log_line;
  construct_dictionary_of_messages_vs_time : list pyfloat -> list log_line -> log_index;
  get_message_at_time : pyfloat -> log_index -> gmap dkey (val * val * val);
  other_eq : val -> val -> bool          (* [a == b] when not both are strings *)
}.
Context `{UserCode}.

(** ** The scheduler object and the machine state *)

Record Scheduler := {
  topics : list val;
  subscribers : list val;
  is_sim : bool;
  throw_exception_on_init_failure : bool;
  root_command : val;
  writing_file_name : option string;
  file_reading_name : option string;
  read_topics : option log_index;
  time_stamps : option (list pyfloat)
}.

Definition with_topics (x : list val) (c : Scheduler) : Scheduler :=
  {| topics := x; subscribers := subscribers c; is_sim := is_sim c;
     throw_exception_on_init_failure := throw_exception_on_init_failure c;
     root_command := root_command c; writing_file_name := writing_file_name c;
     file_reading_name := file_reading_name c; read_topics := read_topics c;
     time_stamps := time_stamps c |}.
Definition with_subscribers (x : list val) (c : Scheduler) : Scheduler :=
  {| topics := topics c; subscribers := x; is_sim := is_sim c;
     throw_exception_on_init_failure := throw_exception_on_init_failure c;
     root_command := root_command c; writing_file_name := writing_file_name c;
     file_reading_name := file_reading_name c; read_topics := read_topics c;
     time_stamps := time_stamps c |}.
Definition with_root_command (x : val) (c : Scheduler) : Scheduler :=
  {| topics := topics c; subscribers := subscribers c; is_sim := is_sim c;
     throw_exception_on_init_failure := throw_exception_on_init_failure c;
     root_command := x; writing_file_name := writing_file_name c;
     file_reading_name := file_reading_name c; read_topics := read_topics c;
     time_stamps := time_stamps c |}.
Definition with_writing_file_name (x : option string) (c : Scheduler) : Scheduler :=
  {| topics := topics c; subscribers := subscribers c; is_sim := is_sim c;
     throw_exception_on_init_failure := throw_exception_on_init_failure c;
     root_command := root_command c; writing_file_name := x;
     file_reading_name := file_reading_name c; read_topics := read_topics c;
     time_stamps := time_stamps c |}.
Definition with_read_topics (x : option log_index) (c : Scheduler) : Scheduler :=
  {| topics := topics c; subscribers := subscribers c; is_sim := is_sim c;
     throw_exception_on_init_failure := throw_exception_on_init_failure c;
     root_command := root_command c; writing_file_name := writing_file_name c;
     file_reading_name := file_reading_name c; read_topics := x;
     time_stamps := time_stamps c |}.
Definition with_time_stamps (x : option (list pyfloat)) (c : Scheduler) : Scheduler :=
  {| topics := topics c; subscribers := subscribers c; is_sim := is_sim c;
     throw_exception_on_init_failure := throw_exception_on_init_failure c;
     root_command := root_command c; writing_file_name := writing_file_name c;
     file_reading_name := file_reading_name c; read_topics := read_topics c;
     time_stamps := x |}.

Record state := {
  scheduler : Scheduler;
  heap : gmap addr obj;
  next_addr : addr;                       (* the allocator *)
  world : W;
  clock : nat -> pyfloat;                 (* the successive readings of time.time() *)
  reads : nat;                            (* how many readings were taken *)
  files : gmap string (list log_line);
  trace : list event
}.

Definition set_scheduler (x : Scheduler) (s : state) : state :=
  {| scheduler := x; heap := heap s; next_addr := next_addr s; world := world s;
     clock := clock s; reads := reads s; files := files s; trace := trace s |}.
Definition set_heap (x : gmap addr obj) (s : state) : state :=
  {| scheduler := scheduler s; heap := x; next_addr := next_addr s; world := world s;
     clock := clock s; reads := reads s; files := files s; trace := trace s |}.
Definition set_next_addr (x : addr) (s : state) : state :=
  {| scheduler := scheduler s; heap := heap s; next_addr := x; world := world s;
     clock := clock s; reads := reads s; files := files s; trace := trace s |}.
Definition set_world (x : W) (s : state) : state :=
  {| scheduler := scheduler s; heap := heap s; next_addr := next_addr s; world := x;
     clock := clock s; reads := reads s; files := files s; trace := trace s |}.
Definition set_reads (x : nat) (s : state) : state :=
  {| scheduler := scheduler s; heap := heap s; next_addr := next_addr s; world := world s;
     clock := clock s; reads := x; files := files s; trace := trace s |}.
Definition set_files (x : gmap string (list log_line)) (s : state) : state :=
  {| scheduler := scheduler s; heap := heap s; next_addr := next_addr s; world := world s;
     clock := clock s; reads := reads s; files := x; trace := trace s |}.
Definition set_trace (x : list event) (s : state) : state :=
  {| scheduler := scheduler s; heap := heap s; next_addr := next_addr s; world := world s;
     clock := clock s; reads := reads s; files := files s; trace := x |}.

(** ** Computations *)

Inductive outcome (A : Type) :=
| Ret (x : A) (s : state)
| Raise (e : exn) (s : state)
| NoFuel.
Arguments Ret {A} x s.
Arguments Raise {A} e s.
Arguments NoFuel {A}.

Definition M (A : Type) := state -> outcome A.

Definition ret {A} (x : A) : M A := fun s => Ret x s.
Definition raise {A} (e : exn) : M A := fun s => Raise e s.
Definition bind {A B} (m : M A) (k : A -> M B) : M B :=
  fun s => match m s with
           | Ret x s' => k x s'
           | Raise e s' => Raise e s'
           | NoFuel => NoFuel
           end.
Definition out_of_fuel {A} : M A := fun _ => NoFuel.

End Core.

Arguments Ret {_ _ A} x s.
Arguments Raise {_ _ A} e s.
Arguments NoFuel {_ _ A}.

Notation "x <- m ;; k" := (bind m (fun x => k))
  (at level 100, m at next level, right associativity).
Notation "m ;;; k" := (bind m (fun _ => k))
  (at level 100, right associativity).

Section Methods.
Context `{PF : PyFloat} `{UC : !UserCode}.

Definition emit (e : event) : M unit :=
  fun s => Ret tt (set_trace (trace s ++ [e]) s).

Definition print (text : string) : M unit := emit (Print text).

(** [time.time()] *)
Definition time_time : M pyfloat :=
  fun s => Ret (clock s (reads s)) (set_reads (S (reads s)) s).

Definition in_world {A} (f : W -> A * W) : M A :=
  fun s => let (x, w) := f (world s) in Ret x (set_world w s).

(** ** Python's object protocol *)

Definition truthy (v : val) : bool :=
  match v with
  | VNone => false
  | VBool b => b
  | VNum x => fnonzero x
  | VStr s => negb (String.eqb s "")
  | VRef _ | VFun _ | VMessage _ _ => true
  | VList l => match l with [] => false | _ => true end
  | VDict _ m => negb (bool_decide (m = ∅))
  end.

Definition is_None (v : val) : bool :=
  match v with VNone => true | _ => false end.

Definition attr (s : state) (a : addr) (f : string) : option val :=
  o ← heap s !! a; attrs o !! f.

Definition class_of (s : state) (v : val) : option pyclass :=
  match v with
  | VRef a => cls <$> heap s !! a
  | _ => None
  end.

(** [v.f] *)
Definition getattr (v : val) (f : string) : M val :=
  fun s => match v with
           | VRef a =>
               match heap s !! a with
               | Some o => match attrs o !! f with
                           | Some x => Ret x s
                           | None => Raise (AttributeError f) s
                           end
               | None => Raise DanglingReference s
               end
           | VMessage m t =>
               if String.eqb f "message" then Ret m s
               else if String.eqb f "time_stamp" then Ret t s
               else Raise (AttributeError f) s
           | _ => Raise (AttributeError f) s
           end.

(** [v.f = x] *)
Definition setattr (v : val) (f : string) (x : val) : M unit :=
  fun s => match v with
           | VRef a =>
               match heap s !! a with
               | Some o => Ret tt (set_heap (<[a := Obj (cls o) (<[f := x]> (attrs o))]> (heap s)) s)
               | None => Raise DanglingReference s
               end
           | _ => Raise (AttributeError f) s
           end.

(** Allocation of a fresh object of class [c] with no attribute yet. *)
Definition new (c : pyclass) : M val :=
  fun s => Ret (VRef (next_addr s))
               (set_next_addr (S (next_addr s))
                  (set_heap (<[next_addr s := Obj c ∅]> (heap s)) s)).

Definition is_Command_class (c : pyclass) : bool :=
  match c with
  | UserCommand _ | UserDynamicCommand _ | ParallelCommand | DelayCommand => true
  | _ => false
  end.

Definition is_Subscriber_class (c : pyclass) : bool :=
  match c with
  | UserTopic _ | SystemTimeTopic | UserSubscriber _ => true
  | _ => false
  end.

Definition is_Topic_class (c : pyclass) : bool :=
  match c with
  | UserTopic _ | SystemTimeTopic => true
  | _ => false
  end.

(** [isinstance(v, Command)] *)
Definition isinstance_Command (v : val) : M bool :=
  fun s => Ret (match class_of s v with
                | Some c => is_Command_class c
                | None => false
                end) s.

Definition as_key (v : val) : M dkey :=
  match v with
  | VStr k => ret (KStr k)
  | VFun c => ret (KFun c)
  | _ => raise (TypeError "unhashable key")
  end.

(** [d[k]] *)
Definition getitem (d : val) (k : val) : M val :=
  match d with
  | VDict _ m => key <- as_key k ;;
                 match m !! key with
                 | Some x => ret x
                 | None => raise (KeyError key)
                 end
  | _ => raise (TypeError "not subscriptable")
  end.

(** [d[k] = x], as the dictionary that results *)
Definition setitem (d : val) (k : val) (x : val) : M val :=
  match d with
  | VDict ty m => key <- as_key k ;; ret (VDict ty (<[key := x]> m))
  | _ => raise (TypeError "no item assignment")
  end.

(** [for x in v]: the elements iterated over *)
Definition iterate (v : val) : M (list val) :=
  match v with
  | VList l => ret l
  | _ => raise (TypeError "not iterable")
  end.

Fixpoint for_each {A} (l : list A) (body : A -> M unit) : M unit :=
  match l with
  | [] => ret tt
  | x :: rest => body x ;;; for_each rest body
  end.

(** ** Message *)

Definition type_is_dict (v : val) : bool :=
  match v with VDict ExactDict _ => true | _ => false end.

(** [isinstance(v, collections.abc.Mapping)] for the values modelled here *)
Definition is_mapping (v : val) : bool :=
  match v with VDict _ _ => true | _ => false end.

(** [Message.__init__]: the check is [type(message) != dict]. *)
Definition Message (message : val) : M val :=
  if negb (type_is_dict message)
  then raise (TypeError "Message must be a dictionary")
  else t <- time_time ;; ret (VMessage message (VNum t)).

(** ** Method lookup and arithmetic *)

(** [v.name(...)] resolves when [v] is an object whose class has the
    method; otherwise Python raises AttributeError. *)
Definition method_of (has : pyclass -> bool) (name : string) (v : val) : M pyclass :=
  fun s => match class_of s v with
           | Some c => if has c then Ret c s else Raise (AttributeError name) s
           | None => Raise (AttributeError name) s
           end.

Definition emit_at (mk : addr -> event) (self : val) : M unit :=
  match self with
  | VRef a => emit (mk a)
  | _ => ret tt
  end.

(** [f()] for a boolean supplier *)
Definition call (f : val) : M bool :=
  match f with
  | VFun c => emit (Called c) ;;; in_world (call_u c)
  | _ => raise (TypeError "not callable")
  end.

(** [a - b] *)
Definition py_sub (a b : val) : M val :=
  match a, b with
  | VNum x, VNum y => ret (VNum (fsub x y))
  | _, _ => raise (TypeError "unsupported operand type(s) for -")
  end.

(** [a >= b] *)
Definition py_ge (a b : val) : M bool :=
  match a, b with
  | VNum x, VNum y => ret (fge x y)
  | _, _ => raise (TypeError ">= not supported")
  end.

(** [self.f[i] = x] on a list attribute *)
Definition list_setitem (self : val) (f : string) (i : nat) (x : val) : M unit :=
  v <- getattr self f ;;
  match v with
  | VList l => if bool_decide (i < length l)
               then setattr self f (VList (<[i := x]> l))
               else raise IndexError
  | _ => raise (TypeError "no item assignment")
  end.

(** [self.f[i]] on a list attribute *)
Definition list_getitem (self : val) (f : string) (i : nat) : M val :=
  v <- getattr self f ;;
  match v with
  | VList l => match l !! i with
               | Some x => ret x
               | None => raise IndexError
               end
  | _ => raise (TypeError "not subscriptable")
  end.

(** ** Command *)

(** [Command.__init__] *)
Definition Command_init (self subscribers : val) : M unit :=
  setattr self "dependent_subscribers" subscribers ;;;
  setattr self "next_command" VNone ;;;
  setattr self "first_run_occurred" (VBool false).

(** The [while] loop of [Command.setNext]: walk to the command whose
    [next_command] is None and link [next_command] there. *)
Fixpoint setNext_walk (fuel : nat) (last_command next_command : val) : M unit :=
  match fuel with
  | O => out_of_fuel
  | S n =>
      nc <- getattr last_command "next_command" ;;
      if is_None nc then setattr last_command "next_command" next_command
      else setNext_walk n nc next_command
  end.

(** [Command.setNext] *)
Definition Command_setNext (fuel : nat) (self next_command : val) : M val :=
  ok <- isinstance_Command next_command ;;
  if negb ok then raise (TypeError "next_command must be an instance of Command")
  else
    nc <- getattr self "next_command" ;;
    (if is_None nc then setattr self "next_command" next_command
     else setNext_walk fuel nc next_command) ;;;
    ret self.

(** ** DynamicCommand *)

Definition DynamicCommand_init (self subscribers : val) : M unit :=
  Command_init self subscribers ;;;
  setattr self "conditions" (VList []) ;;;
  setattr self "command_condition_pairs" (VDict ExactDict ∅).

Definition DynamicCommand_setNextOption (self nextCommand boolean_supplier : val) : M unit :=
  conditions <- getattr self "conditions" ;;
  l <- iterate conditions ;;
  setattr self "conditions" (VList (l ++ [boolean_supplier])) ;;;
  pairs <- getattr self "command_condition_pairs" ;;
  pairs' <- setitem pairs boolean_supplier nextCommand ;;
  setattr self "command_condition_pairs" pairs'.

(** The [for] loop of [DynamicCommand.is_complete] *)
Fixpoint DynamicCommand_conditions (fuel : nat) (self : val) (conditions : list val) : M bool :=
  match conditions with
  | [] => ret false
  | condition :: rest =>
      b <- call condition ;;
      if b then
        pairs <- getattr self "command_condition_pairs" ;;
        chosen <- getitem pairs condition ;;
        Command_setNext fuel self chosen ;;;
        ret true
      else DynamicCommand_conditions fuel self rest
  end.

Definition DynamicCommand_is_complete (fuel : nat) (self : val) : M bool :=
  conditions <- getattr self "conditions" ;;
  l <- iterate conditions ;;
  DynamicCommand_conditions fuel self l.

(** ** ParallelCommand *)

(** [ParallelCommand.__init__]: it does not call [Command.__init__]. *)
Definition ParallelCommand_init (self commands name : val) : M unit :=
  setattr self "commands" commands ;;;
  setattr self "name" name ;;;
  setattr self "first_run_occurred" (VBool false).

Definition ParallelCommand_first_run_behavior (first_run : val -> M unit) (self : val) : M unit :=
  commands <- getattr self "commands" ;;
  l <- iterate commands ;;
  for_each l first_run ;;;
  setattr self "first_run_occurred" (VBool true).

(** The body of the loop of [ParallelCommand.periodic] for the child
    [command] at index [i] *)
Definition ParallelCommand_step (is_complete : val -> M bool) (first_run periodic : val -> M unit)
    (self : val) (i : nat) (command : val) : M unit :=
  complete <- is_complete command ;;
  nc <- (if complete then getattr command "next_command" else ret VNone) ;;
  if complete && truthy nc then
    list_setitem self "commands" i nc ;;;
    replaced <- list_getitem self "commands" i ;;
    first_run replaced
  else periodic command.

Fixpoint ParallelCommand_loop (is_complete : val -> M bool) (first_run periodic : val -> M unit)
    (self : val) (i : nat) (l : list val) : M unit :=
  match l with
  | [] => ret tt
  | command :: rest =>
      ParallelCommand_step is_complete first_run periodic self i command ;;;
      ParallelCommand_loop is_complete first_run periodic self (S i) rest
  end.

Definition ParallelCommand_periodic (is_complete : val -> M bool) (first_run periodic : val -> M unit)
    (self : val) : M unit :=
  commands <- getattr self "commands" ;;
  l <- iterate commands ;;
  ParallelCommand_loop is_complete first_run periodic self 0 l.

(** [all(command.is_complete() for command in commands)] *)
Fixpoint all_complete (is_complete : val -> M bool) (l : list val) : M bool :=
  match l with
  | [] => ret true
  | command :: rest =>
      b <- is_complete command ;;
      if b then all_complete is_complete rest else ret false
  end.

Definition ParallelCommand_is_complete (is_complete : val -> M bool) (self : val) : M bool :=
  commands <- getattr self "commands" ;;
  l <- iterate commands ;;
  all_complete is_complete l.

(** ** DelayCommand *)

Definition DelayCommand_init (self delay_time_s timer name : val) : M unit :=
  Command_init self (VList [timer]) ;;;
  setattr self "start_time" VNone ;;;
  setattr self "delay_time" delay_time_s ;;;
  setattr self "name" name ;;;
  setattr self "first_run_occurred" (VBool false) ;;;
  setattr self "timer_subsystem" timer.

Definition DelayCommand_first_run_behavior (self : val) : M unit :=
  timer <- getattr self "timer_subsystem" ;;
  message <- getattr timer "message" ;;
  unix <- getitem message (VStr "Unix") ;;
  setattr self "start_time" unix ;;;
  setattr self "first_run_occurred" (VBool true).

Definition DelayCommand_periodic (self : val) : M unit := ret tt.

Definition DelayCommand_is_complete (self : val) : M bool :=
  timer <- getattr self "timer_subsystem" ;;
  message <- getattr timer "message" ;;
  unix <- getitem message (VStr "Unix") ;;
  start_time <- getattr self "start_time" ;;
  elapsed <- py_sub unix start_time ;;
  delay_time <- getattr self "delay_time" ;;
  py_ge elapsed delay_time.

(** ** Calling the methods of a command *)

(** [command.is_complete()] *)
Fixpoint Command_is_complete (fuel : nat) (self : val) : M bool :=
  match fuel with
  | O => out_of_fuel
  | S n =>
      c <- method_of is_Command_class "is_complete" self ;;
      match c with
      | UserCommand k => emit_at IsComplete self ;;; in_world (is_complete_u k)
      | UserDynamicCommand _ => DynamicCommand_is_complete n self
      | ParallelCommand => ParallelCommand_is_complete (Command_is_complete n) self
      | DelayCommand => DelayCommand_is_complete self
      | _ => ret false
      end
  end.

(** [command.first_run()], which is [Command.first_run] for every class *)
Fixpoint Command_first_run (fuel : nat) (self : val) : M unit :=
  match fuel with
  | O => out_of_fuel
  | S n =>
      c <- method_of is_Command_class "first_run" self ;;
      occurred <- getattr self "first_run_occurred" ;;
      if negb (truthy occurred) then
        match c with
        | UserCommand k | UserDynamicCommand k =>
            emit_at FirstRunBehavior self ;;;
            in_world (fun w => (tt, first_run_behavior_u k w))
        | ParallelCommand => ParallelCommand_first_run_behavior (Command_first_run n) self
        | DelayCommand => DelayCommand_first_run_behavior self
        | _ => ret tt
        end ;;;
        setattr self "first_run_occurred" (VBool true)
      else ret tt
  end.

(** [command.periodic()] *)
Fixpoint Command_periodic (fuel : nat) (self : val) : M unit :=
  match fuel with
  | O => out_of_fuel
  | S n =>
      c <- method_of is_Command_class "periodic" self ;;
      match c with
      | UserCommand k | UserDynamicCommand k =>
          emit_at Periodic self ;;;
          in_world (fun w => (tt, periodic_u k w))
      | ParallelCommand =>
          ParallelCommand_periodic (Command_is_complete n) (Command_first_run n)
            (Command_periodic n) self
      | DelayCommand => DelayCommand_periodic self
      | _ => ret tt
      end
  end.

(** ** Subscriber *)

Definition str_of (v : val) : string :=
  match v with VStr x => x | _ => "<object>" end.

(** [a == b] *)
Definition py_eq (a b : val) : bool :=
  match a, b with
  | VStr x, VStr y => String.eqb x y
  | _, _ => other_eq a b
  end.

(** [Subscriber.__init__] *)
Definition Subscriber_init (self : val) (is_sim subscriber_name : val) : M unit :=
  setattr self "messages" (VDict ExactDict ∅) ;;;
  setattr self "is_sim" is_sim ;;;
  setattr self "name" subscriber_name.

(** [sub.subscriber_periodic()]: the user's method, or [pass] in a Topic *)
Definition Subscriber_subscriber_periodic (c : pyclass) (self : val) : M unit :=
  match c with
  | UserSubscriber k =>
      emit_at (fun a => SubscriberPeriodic a false) self ;;;
      messages <- getattr self "messages" ;;
      in_world (fun w => (tt, subscriber_periodic_u k messages w))
  | _ => ret tt
  end.

(** [sub.subscriber_periodic_sim()] *)
Definition Subscriber_subscriber_periodic_sim (c : pyclass) (self : val) : M unit :=
  match c with
  | UserSubscriber k =>
      match subscriber_periodic_sim_u k with
      | Some f =>
          emit_at (fun a => SubscriberPeriodic a true) self ;;;
          messages <- getattr self "messages" ;;
          in_world (fun w => (tt, f messages w))
      | None => Subscriber_subscriber_periodic c self
      end
  | _ => Subscriber_subscriber_periodic c self
  end.

(** [Subscriber.periodic] *)
Definition Subscriber_periodic (self : val) : M unit :=
  c <- method_of is_Subscriber_class "periodic" self ;;
  sim <- getattr self "is_sim" ;;
  if truthy sim then Subscriber_subscriber_periodic_sim c self
  else Subscriber_subscriber_periodic c self.

(** [Subscriber.store_messages] *)
Definition Subscriber_store_messages (self topic_name message : val) : M unit :=
  method_of is_Subscriber_class "store_messages" self ;;;
  messages <- getattr self "messages" ;;
  messages' <- setitem messages topic_name message ;;
  setattr self "messages" messages'.

(** [sub.initialize_hardware()]: True unless the user overrides it *)
Definition Subscriber_initialize_hardware (self : val) : M bool :=
  c <- method_of is_Subscriber_class "initialize_hardware" self ;;
  match c with
  | UserSubscriber k => emit_at InitializeHardware self ;;; in_world (initialize_hardware_u k)
  | _ => ret true
  end.

(** ** Topic *)

(** [Topic.__init__] *)
Definition Topic_init (self : val) (name is_sim : val) : M unit :=
  Subscriber_init self is_sim name ;;;
  setattr self "subscribers" (VList []) ;;;
  setattr self "message_body" (VDict ExactDict ∅) ;;;
  t1 <- time_time ;;
  setattr self "_Topic__current_time" (VNum t1) ;;;
  t2 <- time_time ;;
  setattr self "_Topic__previous_time" (VNum t2) ;;;
  setattr self "delta_time_seconds" (VNum (fsub t1 t2)) ;;;
  setattr self "replace_message_with_log" (VBool false).

(** [SystemTimeTopic.__init__] *)
Definition SystemTimeTopic_init (self : val) (topic_name is_sim : val) : M unit :=
  Topic_init self topic_name is_sim ;;;
  setattr self "replace_message_with_log" (VBool true) ;;;
  t1 <- time_time ;;
  setattr self "message"
    (VDict ExactDict (<[KStr "Unix" := VNum t1]> (<[KStr "DeltaTimeSeconds" := VNum fzero]> ∅))) ;;;
  t2 <- time_time ;;
  setattr self "previous_time" (VNum t2) ;;;
  setattr self "has_periodic_call_occurred" (VBool false).

(** [SystemTimeTopic.generate_messages_periodic] *)
Definition SystemTimeTopic_generate_messages_periodic (self : val) : M val :=
  occurred <- getattr self "has_periodic_call_occurred" ;;
  (if negb (truthy occurred) then
     setattr self "has_periodic_call_occurred" (VBool true) ;;;
     t <- time_time ;;
     setattr self "previous_time" (VNum t)
   else ret tt) ;;;
  current_time <- time_time ;;
  message <- getattr self "message" ;;
  message1 <- setitem message (VStr "Unix") (VNum current_time) ;;
  setattr self "message" message1 ;;;
  previous_time <- getattr self "previous_time" ;;
  delta <- py_sub (VNum current_time) previous_time ;;
  message2 <- getattr self "message" ;;
  message3 <- setitem message2 (VStr "DeltaTimeSeconds") delta ;;
  setattr self "message" message3 ;;;
  setattr self "previous_time" (VNum current_time) ;;;
  getattr self "message".

(** [topic.generate_messages_periodic()] *)
Definition Topic_generate_messages_periodic (self : val) : M val :=
  c <- method_of is_Topic_class "generate_messages_periodic" self ;;
  match c with
  | UserTopic k =>
      emit_at Generate self ;;;
      messages <- getattr self "messages" ;;
      in_world (generate_messages_periodic_u k messages)
  | _ => SystemTimeTopic_generate_messages_periodic self
  end.

(** [Topic.notify_subscribers] *)
Definition Topic_notify_subscribers (self msg : val) : M unit :=
  subscribers <- getattr self "subscribers" ;;
  l <- iterate subscribers ;;
  for_each l (fun sub =>
    name <- getattr self "name" ;;
    Subscriber_store_messages sub name msg).

(** [Topic.add_subscriber] *)
Definition Topic_add_subscriber (self sub : val) : M unit :=
  subscribers <- getattr self "subscribers" ;;
  l <- iterate subscribers ;;
  setattr self "subscribers" (VList (l ++ [sub])).

(** [Topic.publish_periodic] *)
Definition Topic_publish_periodic (self : val) : M (val * val * val) :=
  method_of is_Topic_class "publish_periodic" self ;;;
  now <- time_time ;;
  setattr self "_Topic__current_time" (VNum now) ;;;
  previous <- getattr self "_Topic__previous_time" ;;
  delta <- py_sub (VNum now) previous ;;
  setattr self "delta_time_seconds" delta ;;;
  body <- Topic_generate_messages_periodic self ;;
  setattr self "message_body" body ;;;
  current <- getattr self "_Topic__current_time" ;;
  setattr self "_Topic__previous_time" current ;;;
  body' <- getattr self "message_body" ;;
  msg <- Message body' ;;
  Topic_notify_subscribers self msg ;;;
  current' <- getattr self "_Topic__current_time" ;;
  delta' <- getattr self "delta_time_seconds" ;;
  ret (msg, current', delta').

(** [Topic.publish_periodic_from_log] *)
Definition Topic_publish_periodic_from_log (self message_from_log current_time delta_time_seconds : val)
    : M (val * val * val) :=
  method_of is_Topic_class "publish_periodic_from_log" self ;;;
  setattr self "_Topic__current_time" current_time ;;;
  setattr self "delta_time_seconds" delta_time_seconds ;;;
  current <- getattr self "_Topic__current_time" ;;
  setattr self "_Topic__previous_time" current ;;;
  Topic_notify_subscribers self message_from_log ;;;
  current' <- getattr self "_Topic__current_time" ;;
  delta' <- getattr self "delta_time_seconds" ;;
  ret (message_from_log, current', delta').

(** ** Scheduler *)

Definition get_scheduler : M Scheduler := fun s => Ret (scheduler s) s.

Definition modify_scheduler (f : Scheduler -> Scheduler) : M unit :=
  fun s => Ret tt (set_scheduler (f (scheduler s)) s).

Definition get_heap : M (gmap addr obj) := fun s => Ret (heap s) s.

(** [open(name, 'w')] followed by one [write] *)
Definition write_file (name : string) (line : log_line) : M unit :=
  fun s => Ret tt (set_files (<[name := [line]]> (files s)) s).

(** [open(name, 'a+')] followed by one [write] *)
Definition append_file (name : string) (line : log_line) : M unit :=
  fun s => Ret tt (set_files (<[name := (default [] (files s !! name) ++ [line])%list]> (files s)) s).

Definition read_file (name : string) : M (list log_line) :=
  fun s => match files s !! name with
           | Some lines => Ret lines s
           | None => Raise FileNotFoundError s
           end.

(** [Scheduler.__init__] *)
Definition Scheduler_init (sim : bool) (reading : option string) : Scheduler :=
  {| topics := []; subscribers := []; is_sim := sim;
     throw_exception_on_init_failure := true; root_command := VNone;
     writing_file_name := None; file_reading_name := reading;
     read_topics := None; time_stamps := None |}.

Definition Scheduler_set_command_group (head : val) : M unit :=
  modify_scheduler (with_root_command head).

Definition Scheduler_add_topics (args : list val) : M unit :=
  for_each args (fun topic =>
    modify_scheduler (fun c => with_topics (topics c ++ [topic]) c)).

Definition Scheduler_add_subscribers (args : list val) : M unit :=
  for_each args (fun sub =>
    modify_scheduler (fun c => with_subscribers (subscribers c ++ [sub]) c)).

(** [Scheduler.begin_log] *)
Definition Scheduler_begin_log : M unit :=
  c <- get_scheduler ;;
  if negb (is_sim c) then
    t <- time_time ;;
    modify_scheduler (with_writing_file_name (Some (log_file_name t))) ;;;
    write_file (log_file_name t) LogHeader
  else ret tt.

(** [Scheduler.init_hardware] *)
Definition Scheduler_init_hardware : M unit :=
  c <- get_scheduler ;;
  for_each (subscribers c) (fun sub =>
    success <- Subscriber_initialize_hardware sub ;;
    (if throw_exception_on_init_failure c && negb success then
       name <- getattr sub "name" ;;
       raise (RuntimeError (HardwareFailed (str_of name)))
     else ret tt) ;;;
    setattr sub "is_sim" (VBool (is_sim c))).

(** The inner loops of [Scheduler.check_topic_name_collision] *)
Definition collides_with_visited (topic : val) (visited : list val) : M unit :=
  for_each visited (fun topic_other =>
    name <- getattr topic "name" ;;
    name_other <- getattr topic_other "name" ;;
    if py_eq name name_other
    then name' <- getattr topic "name" ;; raise (RuntimeError (TopicsSameName (str_of name')))
    else ret tt).

Definition collides_with_subscribers (topic : val) (subs : list val) : M unit :=
  for_each subs (fun sub =>
    name <- getattr topic "name" ;;
    name_sub <- getattr sub "name" ;;
    if py_eq name name_sub
    then name' <- getattr topic "name" ;; raise (RuntimeError (TopicSubscriberSameName (str_of name')))
    else ret tt).

Fixpoint check_collision_loop (subs : list val) (visited_topics : list val) (l : list val) : M unit :=
  match l with
  | [] => ret tt
  | topic :: rest =>
      collides_with_visited topic visited_topics ;;;
      collides_with_subscribers topic subs ;;;
      check_collision_loop subs (visited_topics ++ [topic]) rest
  end.

(** [Scheduler.check_topic_name_collision] *)
Definition Scheduler_check_topic_name_collision : M unit :=
  c <- get_scheduler ;;
  check_collision_loop (subscribers c) [] (topics c).

(** [Scheduler.initialize] *)
Definition Scheduler_initialize : M unit :=
  c <- get_scheduler ;;
  h <- get_heap ;;
  modify_scheduler (with_topics (dependecy_sort h (topics c))) ;;;
  c1 <- get_scheduler ;;
  (if cycle_is_present_in_any h (topics c1)
   then raise TopicCircularDependency
   else ret tt) ;;;
  for_each (topics c1) (fun topic =>
    name <- getattr topic "name" ;;
    print ("Topic name: " ++ str_of name)) ;;;
  Scheduler_begin_log ;;;
  Scheduler_init_hardware ;;;
  Scheduler_check_topic_name_collision ;;;
  if is_sim c1 then
    match file_reading_name c1 with
    | None => raise (Exception "Must provide file name to read from in simulation mode.")
    | Some name =>
        lines <- read_file name ;;
        let (stamps, contents) := dump_file_contents lines in
        modify_scheduler (with_time_stamps (Some stamps)) ;;;
        modify_scheduler
          (with_read_topics (Some (construct_dictionary_of_messages_vs_time stamps contents)))
    end
  else ret tt.

(** [Scheduler.advance_command] *)
Definition Scheduler_advance_command (fuel : nat) : M unit :=
  c <- get_scheduler ;;
  complete <- (if truthy (root_command c)
               then Command_is_complete fuel (root_command c)
               else ret false) ;;
  if complete then
    c1 <- get_scheduler ;;
    nc <- getattr (root_command c1) "next_command" ;;
    modify_scheduler (with_root_command nc)
  else ret tt.

(** [self.time_stamps.pop(0)] *)
Definition pop_time_stamp : M pyfloat :=
  c <- get_scheduler ;;
  match time_stamps c with
  | None => raise (AttributeError "pop")
  | Some [] => raise IndexError
  | Some (t :: rest) => modify_scheduler (with_time_stamps (Some rest)) ;;; ret t
  end.

(** The body of the loop over the topics in [Scheduler.periodic] *)
Definition Scheduler_publish (all_logged_messages : option (gmap dkey (val * val * val)))
    (topic : val) (stored_messages : gmap dkey (val * val * val))
    : M (gmap dkey (val * val * val)) :=
  c <- get_scheduler ;;
  replace <- (if is_sim c then getattr topic "replace_message_with_log" else ret (VBool false)) ;;
  if is_sim c && truthy replace then
    name <- getattr topic "name" ;;
    key <- as_key name ;;
    match all_logged_messages with
    | None => raise (TypeError "'NoneType' object is not subscriptable")
    | Some logged =>
        match logged !! key with
        | None => raise (KeyError key)
        | Some (message_dictionary, current_time_seconds, delta_time_seconds) =>
            message <- Message message_dictionary ;;
            body <- getattr message "message" ;;
            let message' := VMessage body current_time_seconds in
            Topic_publish_periodic_from_log topic message' current_time_seconds
              delta_time_seconds ;;;
            name' <- getattr topic "name" ;;
            key' <- as_key name' ;;
            ret (<[key' := (body, current_time_seconds, delta_time_seconds)]> stored_messages)
        end
    end
  else
    published <- Topic_publish_periodic topic ;;
    let '(message, current_time_seconds, delta_time_seconds) := published in
    name <- getattr topic "name" ;;
    key <- as_key name ;;
    body <- getattr message "message" ;;
    ret (<[key := (body, current_time_seconds, delta_time_seconds)]> stored_messages).

Fixpoint Scheduler_publish_all (all_logged_messages : option (gmap dkey (val * val * val)))
    (l : list val) (stored_messages : gmap dkey (val * val * val))
    : M (gmap dkey (val * val * val)) :=
  match l with
  | [] => ret stored_messages
  | topic :: rest =>
      stored <- Scheduler_publish all_logged_messages topic stored_messages ;;
      Scheduler_publish_all all_logged_messages rest stored
  end.

(** [Scheduler.periodic] *)
Definition Scheduler_periodic (fuel : nat) : M unit :=
  now <- time_time ;;
  c <- get_scheduler ;;
  present_time <- (if is_sim c then pop_time_stamp else ret now) ;;
  (if negb (is_None (root_command c)) then
     occured <- getattr (root_command c) "first_run_occured" ;;
     if negb (truthy occured) then Command_first_run fuel (root_command c) else ret tt
   else ret tt) ;;;
  Scheduler_advance_command fuel ;;;
  c1 <- get_scheduler ;;
  (if negb (is_None (root_command c1))
   then Command_periodic fuel (root_command c1)
   else print "No further command to execute") ;;;
  all_logged_messages <-
    (if is_sim c1 then
       match read_topics c1 with
       | Some index => ret (Some (get_message_at_time present_time index))
       | None => raise (TypeError "read_topics is None")
       end
     else ret None) ;;
  stored_messages <- Scheduler_publish_all all_logged_messages (topics c1) ∅ ;;
  (if negb (is_sim c1) && negb (bool_decide (stored_messages = ∅)) then
     match writing_file_name c1 with
     | Some name => append_file name (LogTick present_time stored_messages)
     | None => raise (TypeError "expected str, not NoneType")
     end
   else ret tt) ;;;
  for_each (subscribers c1) Subscriber_periodic ;;;
  for_each (topics c1) Subscriber_periodic.

(** ** Notions used to state the properties *)

(** The state after [a.f = x] *)
Definition update_attr (a : addr) (f : string) (x : val) (s : state) : state :=
  match heap s !! a with
  | Some o => set_heap (<[a := Obj (cls o) (<[f := x]> (attrs o))]> (heap s)) s
  | None => s
  end.

(** The commands reached from [a] along [next_command], up to the one whose
    [next_command] is None; nothing if that takes more than [fuel] links or
    some command on the way has no such attribute. *)
Fixpoint chain (fuel : nat) (s : state) (a : addr) : option (list addr) :=
  match attr s a "next_command" with
  | Some VNone => Some [a]
  | Some (VRef b) =>
      match fuel with
      | O => None
      | S n => cons a <$> chain n s b
      end
  | _ => None
  end.

(** The world after the suppliers [cs] were called in turn and each
    returned false; nothing if one of them returned true. *)
Fixpoint calls_false (cs : list nat) (w : W) : option W :=
  match cs with
  | [] => Some w
  | c :: rest => let (b, w') := call_u c w in
                 if b then None else calls_false rest w'
  end.

(** The name of the object [v] refers to, when it is a string *)
Definition name_of (s : state) (v : val) : option string :=
  match v with
  | VRef a => match attr s a "name" with
              | Some (VStr n) => Some n
              | _ => None
              end
  | _ => None
  end.

(** What [check_topic_name_collision] finds on the names [lns] of the topics
    still to visit, [vns] of those visited and [sns] of the subscribers *)
Fixpoint first_collision (sns vns lns : list string) : option runtime_error :=
  match lns with
  | [] => None
  | n :: rest =>
      if bool_decide (n ∈ vns) then Some (TopicsSameName n)
      else if bool_decide (n ∈ sns) then Some (TopicSubscriberSameName n)
      else first_collision sns (vns ++ [n])%list rest
  end.

Definition is_collision (e : runtime_error) : bool :=
  match e with
  | TopicsSameName _ | TopicSubscriberSameName _ => true
  | HardwareFailed _ => false
  end.

(** A subscriber whose [initialize_hardware()] returns True *)
Definition hardware_ready (s : state) (v : val) : Prop :=
  exists c, class_of s v = Some c /\ is_Subscriber_class c = true /\
            forall k, c = UserSubscriber k -> forall w, (initialize_hardware_u k w).1 = true.

(** [s'] differs from [s] in nothing that the name check reads. *)
Definition steady (s s' : state) : Prop :=
  (forall a f, f <> "is_sim" -> attr s' a f = attr s a f) /\
  (forall v, class_of s' v = class_of s v) /\
  topics (scheduler s') = topics (scheduler s) /\
  subscribers (scheduler s') = subscribers (scheduler s).

(** An object whose [store_messages] works: a Subscriber (or Topic) whose
    [messages] is a dictionary *)
Definition can_store (s : state) (v : val) : bool :=
  match v with
  | VRef a =>
      match class_of s v, attr s a "messages" with
      | Some c, Some (VDict _ _) => is_Subscriber_class c
      | _, _ => false
      end
  | _ => false
  end.

(** [v.messages[n]] *)
Definition stored_message (s : state) (v : val) (n : string) : option val :=
  match v with
  | VRef a =>
      match attr s a "messages" with
      | Some (VDict _ m) => m !! KStr n
      | _ => None
      end
  | _ => None
  end.

(** [s'] differs from [s] at most in the [messages] of some objects. *)
Definition same_but_messages (s s' : state) : Prop :=
  (forall a f, f <> "messages" -> attr s' a f = attr s a f) /\
  (forall v, class_of s' v = class_of s v) /\
  (forall v, can_store s v = true -> can_store s' v = true) /\
  scheduler s' = scheduler s /\ world s' = world s /\ reads s' = reads s /\
  files s' = files s /\ trace s' = trace s.

(** The attributes [publish_periodic_from_log] may write *)
Definition replay_writes : list string :=
  ["messages"; "_Topic__current_time"; "delta_time_seconds"; "_Topic__previous_time"].

(** Every command of [l], asked in turn, reported complete, which led from
    [s] to [s']. *)
Inductive reports_all (is_complete : val -> M bool) : list val -> state -> state -> Prop :=
| reports_none s : reports_all is_complete [] s s
| reports_more v l s s1 s' :
    is_complete v s = Ret true s1 -> reports_all is_complete l s1 s' ->
    reports_all is_complete (v :: l) s s'.

(** The state after the suppliers [cs] were called, leaving the world [w] *)
Definition called (cs : list nat) (w : W) (s : state) : state :=
  set_world w (set_trace (trace s ++ map Called cs) s).

Definition is_Command (s : state) (v : val) : bool :=
  match class_of s v with
  | Some c => is_Command_class c
  | None => false
  end.

End Methods.

(** ** Notions used to state further properties *)

Section Frames.
Context `{PF : PyFloat} `{UC : !UserCode}.

(** The number that selects the user's [first_run_behavior] and [periodic]
    of a command class, for the classes that leave them to the user *)
Definition behavior_of (c : pyclass) : option nat :=
  match c with
  | UserCommand k | UserDynamicCommand k => Some k
  | _ => None
  end.

(** [s'] has the log files, the clock and the configuration of the
    scheduler that [s] has: the two may differ in the heap, the world, the
    number of clock readings, the trace, the root command and what is left
    of the replayed log. *)
Definition same_log (s s' : state) : Prop :=
  files s' = files s /\ clock s' = clock s /\
  topics (scheduler s') = topics (scheduler s) /\
  subscribers (scheduler s') = subscribers (scheduler s) /\
  is_sim (scheduler s') = is_sim (scheduler s) /\
  writing_file_name (scheduler s') = writing_file_name (scheduler s) /\
  read_topics (scheduler s') = read_topics (scheduler s).

(** A computation that, run from [s], ends (normally or with an exception)
    in a state with the same log *)
Definition keeps_at {A} (m : M A) (s : state) : Prop :=
  match m s with
  | Ret _ s' | Raise _ s' => same_log s s'
  | NoFuel => True
  end.

Definition keeps {A} (m : M A) : Prop := forall s, keeps_at m s.

(** A computation whose result, when it returns one, satisfies [P] *)
Definition returns_only {A} (P : A -> Prop) (m : M A) : Prop :=
  forall s x s', m s = Ret x s' -> P x.

End Frames.

(** ** A concrete instance, for running the code *)

Module Demo.

(** Clock readings in whole seconds. *)
#[export] Instance seconds : PyFloat := {|
  pyfloat := Z;
  fsub := Z.sub;
  fge := Z.geb;
  fnonzero := fun x => negb (Z.eqb x 0);
  fzero := 0%Z;
  log_file_name := fun _ => "log.csv"
|}.

Definition mem (k : nat) (w : list nat) : bool := bool_decide (k ∈ w).

(** Modelled from the spec: [cycle_is_present_in_any] of
    [pyros_math.graph_theory] is imported by the scheduler and is not among
    the sources; the collaborator "exposes a boolean cycle check" on the
    graph of the topics.  Here a topic depends on the topics it is subscribed
    to: does following [subscribers] links from [v] lead to [target]? *)
Fixpoint reaches (fuel : nat) (h : gmap addr obj) (target : addr) (v : val) : bool :=
  match fuel with
  | O => false
  | S n =>
      match v with
      | VRef a =>
          match o ← h !! a; attrs o !! "subscribers" with
          | Some (VList subs) =>
              existsb (fun sub =>
                         match sub with
                         | VRef b => bool_decide (b = target) || reaches n h target sub
                         | _ => false
                         end) subs
          | _ => false
          end
      | _ => false
      end
  end.

(** Modelled from the spec: [dump_file_contents] of [architecture.topicLogUtil]
    is not among the sources; "load(path) -> (ordered timestamps, raw per-tick
    contents)". *)
Definition tick_times (lines : list log_line) : list Z :=
  omap (fun line => match line with LogTick t _ => Some t | LogHeader => None end) lines.

(** Modelled from the spec: [get_message_at_time] of
    [architecture.topicLogUtil] is not among the sources; "lookup(time, index)
    -> mapping topic-name -> (message, time, delta)". *)
Fixpoint lookup_tick (t : Z) (lines : list log_line) : gmap dkey (val * val * val) :=
  match lines with
  | [] => ∅
  | LogHeader :: rest => lookup_tick t rest
  | LogTick t' stored :: rest => if Z.eqb t t' then stored else lookup_tick t rest
  end.

(** The world of the user's code is the list of the numbers that "hold":
    command [k] is complete and supplier [c] returns true exactly when the
    number is in the list.  A user command's [periodic] marks itself
    complete.  The hardware of subscriber class 13 fails to initialise. *)
#[export] Instance user : UserCode := {|
  W := list nat;
  first_run_behavior_u := fun _ w => w;
  periodic_u := fun k w => k :: w;
  is_complete_u := fun k w => (mem k w, w);
  call_u := fun c w => (mem c w, w);
  generate_messages_periodic_u :=
    fun k _ w => (VDict ExactDict (<[KStr "value" := VNum (Z.of_nat k)]> ∅), w);
  subscriber_periodic_u := fun _ _ w => w;
  subscriber_periodic_sim_u := fun _ => None;
  initialize_hardware_u := fun k w => (negb (Nat.eqb k 13), w);
  log_index := list log_line;
  dependecy_sort := fun _ l => l;
  cycle_is_present_in_any :=
    fun h l => existsb (fun t => match t with
                                 | VRef a => reaches (size h) h a t
                                 | _ => false
                                 end) l;
  dump_file_contents := fun lines => (tick_times lines, lines);
  construct_dictionary_of_messages_vs_time := fun _ contents => contents;
  get_message_at_time := lookup_tick;
  other_eq := fun _ _ => false
|}.

(** The machine before anything ran: an empty heap, a scheduler just
    constructed, and a clock that advances one second per reading. *)
Definition boot (sim : bool) (reading : option string) (w : list nat)
    (fs : gmap string (list log_line)) : state :=
  {| scheduler := Scheduler_init sim reading; heap := ∅; next_addr := 0; world := w;
     clock := fun n => (100 + Z.of_nat n)%Z; reads := 0; files := fs; trace := [] |}.

(** Run [m] and continue from the state it leaves, whatever it returned. *)
Definition state_of {A} (r : outcome A) (s0 : state) : state :=
  match r with
  | Ret _ s => s
  | Raise _ s => s
  | NoFuel => s0
  end.

Definition value_of {A} (r : outcome A) : option A :=
  match r with
  | Ret x _ => Some x
  | _ => None
  end.

Definition error_of {A} (r : outcome A) : option exn :=
  match r with
  | Raise e _ => Some e
  | _ => None
  end.

(** [K()] for a user command class [K(Command)] *)
Definition new_UserCommand (k : nat) : M val :=
  self <- new (UserCommand k) ;;
  Command_init self (VList []) ;;;
  ret self.

(** [K()] for a user class [K(DynamicCommand)] *)
Definition new_UserDynamicCommand (k : nat) : M val :=
  self <- new (UserDynamicCommand k) ;;
  DynamicCommand_init self (VList []) ;;;
  ret self.

Definition new_ParallelCommand (commands : list val) : M val :=
  self <- new ParallelCommand ;;
  ParallelCommand_init self (VList commands) (VStr "Parallel Command") ;;;
  ret self.

Definition new_DelayCommand (delay_time_s : Z) (timer : val) : M val :=
  self <- new DelayCommand ;;
  DelayCommand_init self (VNum delay_time_s) timer (VStr "Delay Command") ;;;
  ret self.

Definition new_SystemTimeTopic (sim : bool) : M val :=
  self <- new SystemTimeTopic ;;
  SystemTimeTopic_init self (VStr "SystemTime") (VBool sim) ;;;
  ret self.

Definition new_UserTopic (k : nat) (name : string) : M val :=
  self <- new (UserTopic k) ;;
  Topic_init self (VStr name) (VBool false) ;;;
  ret self.

Definition new_UserSubscriber (k : nat) (name : string) : M val :=
  self <- new (UserSubscriber k) ;;
  Subscriber_init self (VBool false) (VStr name) ;;;
  ret self.

(** *** Inputs *)

Definition live_boot : state := boot false None [] ∅.

(** A chain A -> B -> C of user commands, A installed as the root command *)
Definition chain_ABC : M unit :=
  a <- new_UserCommand 0 ;;
  b <- new_UserCommand 1 ;;
  c <- new_UserCommand 2 ;;
  Command_setNext 9 a b ;;;
  Command_setNext 9 a c ;;;
  Scheduler_set_command_group a.

Definition chain_ABC_state : state := state_of (chain_ABC live_boot) live_boot.

(** [ParallelCommand([ParallelCommand([A])])], after its first run; the
    world says that A is complete. *)
Definition nested_parallel : M val :=
  a <- new_UserCommand 0 ;;
  inner <- new_ParallelCommand [a] ;;
  outer <- new_ParallelCommand [inner] ;;
  Command_first_run 9 outer ;;;
  ret outer.

Definition nested_parallel_state : state :=
  state_of (nested_parallel (boot false None [0] ∅)) live_boot.

(** [ParallelCommand([A, B])] where A is complete and has the successor A2,
    and B is not complete *)
Definition parallel_AB : M val :=
  a <- new_UserCommand 0 ;;
  b <- new_UserCommand 1 ;;
  a2 <- new_UserCommand 2 ;;
  Command_setNext 9 a a2 ;;;
  p <- new_ParallelCommand [a; b] ;;
  Command_first_run 9 p ;;;
  ret p.

Definition parallel_AB_state : state :=
  state_of (parallel_AB (boot false None [0] ∅)) live_boot.

(** A scheduler with the time topic and one subscriber to it, initialised; a
    DelayCommand of 2 seconds on that topic, started; one tick; then the
    command is asked whether it is complete, and the subscriber what it
    stored for the topic. *)
Definition timed_run (sim : bool) : M (bool * option val * val) :=
  timer <- new_SystemTimeTopic sim ;;
  sub <- new_UserSubscriber 7 "display" ;;
  Topic_add_subscriber timer sub ;;;
  Scheduler_add_topics [timer] ;;;
  Scheduler_add_subscribers [sub] ;;;
  Scheduler_initialize ;;;
  d <- new_DelayCommand 2 timer ;;
  Command_first_run 5 d ;;;
  Scheduler_periodic 5 ;;;
  complete <- Command_is_complete 5 d ;;
  message <- getattr timer "message" ;;
  unix <- getitem message (VStr "Unix") ;;
  fun s => Ret (complete, stored_message s sub "SystemTime", unix) s.

Definition live_run : outcome (bool * option val * val) := timed_run false live_boot.

(** The replay reads the log the live run wrote. *)
Definition replay_boot : state :=
  boot true (Some "log.csv") [] (files (state_of live_run live_boot)).

Definition replay_run : outcome (bool * option val * val) := timed_run true replay_boot.

(** A DynamicCommand on which the same supplier, which returns true, was
    registered twice: first with A, then with B *)
Definition dynamic_twice : M val :=
  d <- new_UserDynamicCommand 0 ;;
  a <- new_UserCommand 1 ;;
  b <- new_UserCommand 2 ;;
  DynamicCommand_setNextOption d a (VFun 5) ;;;
  DynamicCommand_setNextOption d b (VFun 5) ;;;
  ret d.

Definition dynamic_twice_state : state :=
  state_of (dynamic_twice (boot false None [5] ∅)) live_boot.

(** A DynamicCommand with three suppliers, of which the second and the third
    return true *)
Definition dynamic_three : M val :=
  d <- new_UserDynamicCommand 0 ;;
  a <- new_UserCommand 1 ;;
  b <- new_UserCommand 2 ;;
  c <- new_UserCommand 3 ;;
  DynamicCommand_setNextOption d a (VFun 11) ;;;
  DynamicCommand_setNextOption d b (VFun 12) ;;;
  DynamicCommand_setNextOption d c (VFun 13) ;;;
  ret d.

Definition dynamic_three_state : state :=
  state_of (dynamic_three (boot false None [12; 13] ∅)) live_boot.

Definition dynamic_three_table : gmap dkey val :=
  <[KFun 13 := VRef 3]> (<[KFun 12 := VRef 2]> (<[KFun 11 := VRef 1]> ∅)).

(** Two topics named "imu", and a subscriber; the subscriber's class says
    whether its hardware initialises (class 13 does not). *)
Definition same_names (subscriber_class : nat) : M unit :=
  t1 <- new_UserTopic 0 "imu" ;;
  t2 <- new_UserTopic 1 "imu" ;;
  sub <- new_UserSubscriber subscriber_class "display" ;;
  Scheduler_add_topics [t1; t2] ;;;
  Scheduler_add_subscribers [sub].

Definition same_names_state (subscriber_class : nat) : state :=
  state_of (same_names subscriber_class live_boot) live_boot.

(** Two topics that subscribe to each other *)
Definition cyclic_topics : M unit :=
  t1 <- new_UserTopic 0 "odometry" ;;
  t2 <- new_UserTopic 1 "drive" ;;
  Topic_add_subscriber t1 t2 ;;;
  Topic_add_subscriber t2 t1 ;;;
  Scheduler_add_topics [t1; t2].

Definition cyclic_topics_state : state := state_of (cyclic_topics live_boot) live_boot.

(** A command made its own successor by [c.setNext(c)], and another one *)
Definition self_successor : M unit :=
  c <- new_UserCommand 0 ;;
  x <- new_UserCommand 1 ;;
  Command_setNext 9 c c ;;;
  ret tt.

Definition self_successor_state : state := state_of (self_successor live_boot) live_boot.

(** A -> B built by [A.setNext(B)], and a third command C *)
Definition chain_AB : M unit :=
  a <- new_UserCommand 0 ;;
  b <- new_UserCommand 1 ;;
  c <- new_UserCommand 2 ;;
  Command_setNext 9 a b ;;;
  ret tt.

Definition chain_AB_state : state := state_of (chain_AB live_boot) live_boot.

(** A DynamicCommand with one supplier, which returns true, and its
    successor X *)
Definition dynamic_one : M val :=
  d <- new_UserDynamicCommand 0 ;;
  x <- new_UserCommand 1 ;;
  DynamicCommand_setNextOption d x (VFun 5) ;;;
  ret d.

Definition dynamic_one_state : state :=
  state_of (dynamic_one (boot false None [5] ∅)) live_boot.

(** The time topic with one subscriber, in simulation mode, before a tick *)
Definition replay_ready : M unit :=
  timer <- new_SystemTimeTopic true ;;
  sub <- new_UserSubscriber 7 "display" ;;
  Topic_add_subscriber timer sub.

Definition replay_ready_state : state :=
  state_of (replay_ready (boot true (Some "log.csv") [] ∅)) live_boot.

Definition a_logged_tick : gmap dkey (val * val * val) :=
  {[ KStr "SystemTime" :=
       (VDict ExactDict {[ KStr "Unix" := VNum 500%Z ]}, VNum 499%Z, VNum 1%Z) ]}.

(** [collections.OrderedDict()] *)
Definition an_OrderedDict : val := VDict DictSubclass ∅.

(** What a timed run observed *)
Definition completed (r : outcome (bool * option val * val)) : option bool :=
  match r with Ret (b, _, _) _ => Some b | _ => None end.

Definition delivered (r : outcome (bool * option val * val)) : option val :=
  match r with Ret (_, m, _) _ => m | _ => None end.

Definition reading (r : outcome (bool * option val * val)) : option val :=
  match r with Ret (_, _, u) _ => Some u | _ => None end.

Definition time_body (unix delta : Z) : val :=
  VDict ExactDict (<[KStr "DeltaTimeSeconds" := VNum delta]> {[ KStr "Unix" := VNum unix ]}).

End Demo.

(** ** More inputs *)

(** User code whose topics forget to return their message:
    [generate_messages_periodic] returns None. *)
Module Forgetful.

#[local] Existing Instance Demo.seconds.

#[local] Instance forgetful : UserCode := {|
  W := list nat;
  first_run_behavior_u := fun _ w => w;
  periodic_u := fun k w => k :: w;
  is_complete_u := fun k w => (Demo.mem k w, w);
  call_u := fun c w => (Demo.mem c w, w);
  generate_messages_periodic_u := fun _ _ w => (VNone, w);
  subscriber_periodic_u := fun _ _ w => w;
  subscriber_periodic_sim_u := fun _ => None;
  initialize_hardware_u := fun _ w => (true, w);
  log_index := list log_line;
  dependecy_sort := fun _ l => l;
  cycle_is_present_in_any := fun _ _ => false;
  dump_file_contents := fun lines => (Demo.tick_times lines, lines);
  construct_dictionary_of_messages_vs_time := fun _ contents => contents;
  get_message_at_time := Demo.lookup_tick;
  other_eq := fun _ _ => false
|}.

Definition empty_machine : state :=
  {| scheduler := Scheduler_init false None; heap := ∅; next_addr := 0; world := [];
     clock := fun n => (100 + Z.of_nat n)%Z; reads := 0; files := ∅; trace := [] |}.

(** A topic "imu" of that user *)
Definition topic_state : state :=
  match (self <- new (UserTopic 0) ;; Topic_init self (VStr "imu") (VBool false)) empty_machine with
  | Ret _ s => s
  | _ => empty_machine
  end.

End Forgetful.

Module Cases.
Import Demo.

(** A DynamicCommand without options yet, and a command X; the supplier 5
    returns true. *)
Definition dynamic_fresh : M unit :=
  d <- new_UserDynamicCommand 0 ;;
  x <- new_UserCommand 1 ;;
  ret tt.

Definition dynamic_fresh_state : state :=
  state_of (dynamic_fresh (boot false None [5] ∅)) live_boot.

(** [ParallelCommand([A, B])] before its first run *)
Definition parallel_fresh : M unit :=
  a <- new_UserCommand 0 ;;
  b <- new_UserCommand 1 ;;
  p <- new_ParallelCommand [a; b] ;;
  ret tt.

Definition parallel_fresh_state : state := state_of (parallel_fresh live_boot) live_boot.

(** The time topic, and an object of class DelayCommand on which [__init__]
    has not run yet *)
Definition delay_fresh : M unit :=
  timer <- new_SystemTimeTopic false ;;
  d <- new DelayCommand ;;
  ret tt.

Definition delay_fresh_state : state := state_of (delay_fresh live_boot) live_boot.

(** The time topic and [DelayCommand(2, timer)] *)
Definition delay_ready : M unit :=
  timer <- new_SystemTimeTopic false ;;
  d <- new_DelayCommand 2 timer ;;
  ret tt.

Definition delay_ready_state : state := state_of (delay_ready live_boot) live_boot.

(** The dictionary a time topic keeps in [message] *)
Definition time_readings (unix delta : Z) : gmap dkey val :=
  <[KStr "Unix" := VNum unix]> (<[KStr "DeltaTimeSeconds" := VNum delta]> ∅).

Definition unix_only (unix : Z) : gmap dkey val := {[ KStr "Unix" := VNum unix ]}.

(** Three subscribers; the hardware of the second, "motor", fails to
    initialise (class 13). *)
Definition three_subscribers : M unit :=
  s1 <- new_UserSubscriber 7 "display" ;;
  s2 <- new_UserSubscriber 13 "motor" ;;
  s3 <- new_UserSubscriber 8 "logger" ;;
  Scheduler_add_subscribers [s1; s2; s3].

Definition three_subscribers_state : state :=
  state_of (three_subscribers live_boot) live_boot.

(** The same scheduler told not to raise when hardware fails *)
Definition lenient_state : state :=
  set_scheduler
    {| topics := []; subscribers := subscribers (scheduler three_subscribers_state);
       is_sim := false; throw_exception_on_init_failure := false;
       root_command := VNone; writing_file_name := None; file_reading_name := None;
       read_topics := None; time_stamps := None |} three_subscribers_state.

(** Two topics, "imu" and "gps", and the subscriber "display" *)
Definition two_topics (sim : bool) : M unit :=
  t1 <- new_UserTopic 0 "imu" ;;
  t2 <- new_UserTopic 1 "gps" ;;
  sub <- new_UserSubscriber 7 "display" ;;
  Topic_add_subscriber t1 sub ;;;
  Scheduler_add_topics [t1; t2] ;;;
  Scheduler_add_subscribers [sub].

Definition two_topics_state : state := state_of (two_topics false live_boot) live_boot.

(** The same in simulation mode, reading the log of the live run *)
Definition two_topics_replay_state : state :=
  state_of (two_topics true replay_boot) replay_boot.

(** The live scheduler of [two_topics], initialised *)
Definition two_topics_live_state : state :=
  state_of (Scheduler_initialize two_topics_state) two_topics_state.

(** The chain A -> B -> C installed as the root command, in a world where A
    is complete *)
Definition chain_ABC_A_complete_state : state := set_world [0] chain_ABC_state.

End Cases.

(** * Properties *)

Section Proofs.
Context `{PF : PyFloat} `{UC : !UserCode}.
Local Open Scope list_scope.

(** ** The monad and the heap *)

Lemma bind_Ret {A B} (m : M A) (k : A -> M B) s x s' :
  m s = Ret x s' -> bind m k s = k x s'.
Proof. intros E. unfold bind. by rewrite E. Qed.

Lemma bind_Raise {A B} (m : M A) (k : A -> M B) s e s' :
  m s = Raise e s' -> bind m k s = Raise e s'.
Proof. intros E. unfold bind. by rewrite E. Qed.

Lemma bind_NoFuel {A B} (m : M A) (k : A -> M B) s :
  m s = NoFuel -> bind m k s = NoFuel.
Proof. intros E. unfold bind. by rewrite E. Qed.

Lemma getattr_attr s a f x :
  attr s a f = Some x -> getattr (VRef a) f s = Ret x s.
Proof.
  unfold attr, getattr. destruct (heap s !! a) as [o|]; simpl; [|done].
  by intros ->.
Qed.

Lemma getattr_absent s a f o :
  heap s !! a = Some o -> attrs o !! f = None ->
  getattr (VRef a) f s = Raise (AttributeError f) s.
Proof. unfold getattr. by intros -> ->. Qed.

Lemma attr_is_Some_heap s a f x : attr s a f = Some x -> is_Some (heap s !! a).
Proof. unfold attr. destruct (heap s !! a); [eauto | done]. Qed.

Lemma setattr_update s a f x :
  is_Some (heap s !! a) -> setattr (VRef a) f x s = Ret tt (update_attr a f x s).
Proof. intros [o Ho]. unfold setattr, update_attr. by rewrite Ho. Qed.

Lemma attr_update_same s a f x :
  is_Some (heap s !! a) -> attr (update_attr a f x s) a f = Some x.
Proof.
  intros [o Ho]. unfold update_attr, attr. rewrite Ho. simpl.
  rewrite lookup_insert_eq. simpl. by rewrite lookup_insert_eq.
Qed.

Lemma attr_update_other s a f x b g :
  a ≠ b ∨ f ≠ g -> attr (update_attr a f x s) b g = attr s b g.
Proof.
  intros Hne. unfold update_attr, attr.
  destruct (heap s !! a) as [o|] eqn:Ho; [|done]. simpl.
  destruct (decide (a = b)) as [->|Hab].
  - rewrite lookup_insert_eq, Ho. simpl.
    destruct Hne as [?|Hfg]; [done|]. by rewrite lookup_insert_ne.
  - by rewrite lookup_insert_ne.
Qed.

Lemma class_of_update s a f x v :
  class_of (update_attr a f x s) v = class_of s v.
Proof.
  unfold update_attr. destruct (heap s !! a) as [o|] eqn:Ho; [|done].
  destruct v; simpl; try done.
  destruct (decide (a = a0)) as [->|Hne].
  - by rewrite lookup_insert_eq, Ho.
  - by rewrite lookup_insert_ne.
Qed.

Lemma heap_update_is_Some s a f x b :
  is_Some (heap (update_attr a f x s) !! b) <-> is_Some (heap s !! b).
Proof.
  unfold update_attr. destruct (heap s !! a) as [o|] eqn:Ho; [|done]. simpl.
  destruct (decide (a = b)) as [->|Hne].
  - rewrite lookup_insert_eq, Ho. split; eauto.
  - by rewrite lookup_insert_ne.
Qed.

(** ** Message *)

Lemma Message_run (p : val) (s : state) :
  Message p s =
    if type_is_dict p
    then Ret (VMessage p (VNum (clock s (reads s)))) (set_reads (S (reads s)) s)
    else Raise (TypeError "Message must be a dictionary") s.
Proof. unfold Message. by destruct (type_is_dict p). Qed.

(** C9, amended.  [Message(p)] fails, with a type error, exactly when
    [type(p)] is not [dict] itself; an instance of a subclass of [dict] is
    refused as well.  When [type(p)] is [dict] the construction succeeds and
    the message carries the payload and the clock reading taken then. *)
Theorem Message_fails_iff_not_exactly_dict (p : val) (s : state) :
  ((exists e s', Message p s = Raise e s') <-> type_is_dict p = false) /\
  Message p s =
    (if type_is_dict p
     then Ret (VMessage p (VNum (clock s (reads s)))) (set_reads (S (reads s)) s)
     else Raise (TypeError "Message must be a dictionary") s).
Proof.
  split; [|apply Message_run].
  rewrite Message_run. destruct (type_is_dict p); split.
  - intros (e & s' & E). discriminate.
  - discriminate.
  - done.
  - eauto.
Qed.

(** ** Chains of commands *)

Lemma chain_nonempty n s a l : chain n s a = Some l -> exists l', l = a :: l'.
Proof.
  destruct n; simpl; destruct (attr s a "next_command") as [[]|]; try done.
  - intros [= <-]. eauto.
  - intros [= <-]. eauto.
  - destruct (chain n s a0); simpl; [|done]. intros [= <-]. eauto.
Qed.

Lemma chain_step n s a b l :
  attr s a "next_command" = Some (VRef b) ->
  chain n s a = Some l ->
  exists n' l', n = S n' /\ l = a :: l' /\ chain n' s b = Some l'.
Proof.
  intros Ha. destruct n; simpl; rewrite Ha; [done|].
  destruct (chain n s b) as [l'|] eqn:E; simpl; [|done].
  intros [= <-]. eauto.
Qed.

Lemma chain_end n s a l :
  attr s a "next_command" = Some VNone -> chain n s a = Some l -> l = [a].
Proof. intros Ha. destruct n; simpl; rewrite Ha; by intros [= <-]. Qed.

Lemma chain_cases n s a l :
  chain n s a = Some l ->
  attr s a "next_command" = Some VNone \/
  exists b, attr s a "next_command" = Some (VRef b).
Proof.
  destruct n; simpl; destruct (attr s a "next_command") as [[]|]; try done; eauto.
Qed.

Lemma chain_last_is_tail n s a l t :
  chain n s a = Some l -> last l = Some t ->
  attr s t "next_command" = Some VNone.
Proof.
  revert a l. induction n as [|n IH]; intros a l Hc Hl.
  - destruct (chain_cases _ _ _ _ Hc) as [Ha|[b Hb]].
    + rewrite (chain_end _ _ _ _ Ha Hc) in Hl. by injection Hl as <-.
    + destruct (chain_step _ _ _ _ _ Hb Hc) as (? & ? & ? & _). done.
  - destruct (chain_cases _ _ _ _ Hc) as [Ha|[b Hb]].
    + rewrite (chain_end _ _ _ _ Ha Hc) in Hl. by injection Hl as <-.
    + destruct (chain_step _ _ _ _ _ Hb Hc) as (n' & l' & [= <-] & -> & Hc').
      destruct (chain_nonempty _ _ _ _ Hc') as [l'' ->].
      apply (IH b (b :: l'')); done.
Qed.

Lemma setNext_walk_reaches_tail n fuel s b l t next :
  chain n s b = Some l -> last l = Some t -> n < fuel ->
  setNext_walk fuel (VRef b) next s = Ret tt (update_attr t "next_command" next s).
Proof.
  revert fuel b l. induction n as [|n IH]; intros fuel b l Hc Hl Hf;
    (destruct fuel as [|fuel]; [lia|]); simpl;
    destruct (chain_cases _ _ _ _ Hc) as [Hb|[b' Hb]].
  - rewrite (chain_end _ _ _ _ Hb Hc) in Hl. injection Hl as <-.
    rewrite (bind_Ret _ _ _ _ _ (getattr_attr _ _ _ _ Hb)). simpl.
    apply setattr_update. by eapply attr_is_Some_heap.
  - destruct (chain_step _ _ _ _ _ Hb Hc) as (? & ? & ? & _). done.
  - rewrite (chain_end _ _ _ _ Hb Hc) in Hl. injection Hl as <-.
    rewrite (bind_Ret _ _ _ _ _ (getattr_attr _ _ _ _ Hb)). simpl.
    apply setattr_update. by eapply attr_is_Some_heap.
  - destruct (chain_step _ _ _ _ _ Hb Hc) as (n' & l' & [= <-] & -> & Hc').
    rewrite (bind_Ret _ _ _ _ _ (getattr_attr _ _ _ _ Hb)). simpl.
    destruct (chain_nonempty _ _ _ _ Hc') as [l'' ->].
    apply (IH fuel b' (b' :: l'')); [done|done|lia].
Qed.

Lemma isinstance_Command_run s v : isinstance_Command v s = Ret (is_Command s v) s.
Proof. done. Qed.

Lemma Command_setNext_run fuel n s c l t next :
  chain n s c = Some l -> last l = Some t -> n <= fuel ->
  Command_setNext fuel (VRef c) next s =
    if is_Command s next
    then Ret (VRef c) (update_attr t "next_command" next s)
    else Raise (TypeError "next_command must be an instance of Command") s.
Proof.
  intros Hc Hl Hf. unfold Command_setNext.
  rewrite (bind_Ret _ _ _ _ _ (isinstance_Command_run s next)).
  destruct (is_Command s next); simpl; [|done].
  destruct (chain_cases _ _ _ _ Hc) as [Ha|[b Hb]].
  - rewrite (chain_end _ _ _ _ Ha Hc) in Hl. injection Hl as <-.
    rewrite (bind_Ret _ _ _ _ _ (getattr_attr _ _ _ _ Ha)). simpl.
    erewrite bind_Ret; [done|].
    apply setattr_update. by eapply attr_is_Some_heap.
  - destruct (chain_step _ _ _ _ _ Hb Hc) as (n' & l' & -> & -> & Hc').
    rewrite (bind_Ret _ _ _ _ _ (getattr_attr _ _ _ _ Hb)). simpl.
    destruct (chain_nonempty _ _ _ _ Hc') as [l'' ->].
    erewrite bind_Ret; [done|].
    apply (setNext_walk_reaches_tail n' fuel s b (b :: l'')); [done|done|lia].
Qed.

(** C8, amended.  For a command [c] whose chain of successors is finite,
    ending in the command [t] that has no successor ([t] is [c] itself when
    [c] has none): [setNext(next)] raises a type error when [next] is not a
    Command, and otherwise returns [c] after linking [next] behind [t];
    the link it writes was None, so that every attribute that held a value,
    and every existing link, is as before. *)
Theorem Command_setNext_appends fuel n s c l t next :
  chain n s c = Some l -> last l = Some t -> n <= fuel ->
  Command_setNext fuel (VRef c) next s =
    (if is_Command s next
     then Ret (VRef c) (update_attr t "next_command" next s)
     else Raise (TypeError "next_command must be an instance of Command") s) /\
  (attr s c "next_command" = Some VNone -> t = c) /\
  attr (update_attr t "next_command" next s) t "next_command" = Some next /\
  (forall a f v, attr s a f = Some v -> (f = "next_command" -> v <> VNone) ->
                 attr (update_attr t "next_command" next s) a f = Some v).
Proof.
  intros Hc Hl Hf. pose proof (chain_last_is_tail _ _ _ _ _ Hc Hl) as Ht.
  split; [by eapply Command_setNext_run|]. split; [|split].
  - intros Ha. rewrite (chain_end _ _ _ _ Ha Hc) in Hl. by injection Hl as <-.
  - apply attr_update_same. by eapply attr_is_Some_heap.
  - intros a f v Hv Hlink.
    destruct (decide (t = a)) as [->|Hne]; [destruct (decide ("next_command" = f)) as [<-|Hnf]|].
    + rewrite Ht in Hv. injection Hv as <-. by destruct Hlink.
    + rewrite attr_update_other; [done | by right].
    + rewrite attr_update_other; [done | by left].
Qed.

Lemma chain_same_heap n s s' a : heap s = heap s' -> chain n s a = chain n s' a.
Proof.
  intros Hh. revert a. induction n as [|n IH]; intros a; simpl; unfold attr; rewrite Hh; [done|].
  destruct (heap s' !! a ≫= _) as [[]|]; try done. by rewrite IH.
Qed.

Lemma chain_more_fuel s a l n : chain n s a = Some l -> chain (S n) s a = Some l.
Proof.
  revert a l. induction n as [|n IH]; intros a l Hc;
    destruct (chain_cases _ _ _ _ Hc) as [Ha|[b Hb]].
  - rewrite (chain_end _ _ _ _ Ha Hc). simpl. by rewrite Ha.
  - destruct (chain_step _ _ _ _ _ Hb Hc) as (? & ? & ? & _). done.
  - rewrite (chain_end _ _ _ _ Ha Hc). simpl. by rewrite Ha.
  - destruct (chain_step _ _ _ _ _ Hb Hc) as (n' & l' & [= <-] & -> & Hc').
    change (chain (S (S n)) s a) with
      (match attr s a "next_command" with
       | Some VNone => Some [a]
       | Some (VRef b) => cons a <$> chain (S n) s b
       | _ => None
       end).
    rewrite Hb. by rewrite (IH _ _ Hc').
Qed.

(** Linking a command that is not on the chain, and has no successor,
    behind the tail makes the chain one longer. *)
Lemma chain_extend n s a l t x :
  chain n s a = Some l -> last l = Some t -> x ∉ l ->
  attr s x "next_command" = Some VNone ->
  chain (S n) (update_attr t "next_command" (VRef x) s) a = Some (l ++ [x]).
Proof.
  intros Hc Hl Hx Hxn. pose proof (chain_last_is_tail _ _ _ _ _ Hc Hl) as Ht.
  revert a l Hc Hl Hx.
  induction n as [|n IH]; intros a l Hc Hl Hx;
    destruct (chain_cases _ _ _ _ Hc) as [Ha|[b Hb]].
  - rewrite (chain_end _ _ _ _ Ha Hc) in *. injection Hl as <-.
    simpl. rewrite attr_update_same by (by eapply attr_is_Some_heap).
    rewrite attr_update_other by (left; set_solver). by rewrite Hxn.
  - destruct (chain_step _ _ _ _ _ Hb Hc) as (? & ? & ? & _). done.
  - rewrite (chain_end _ _ _ _ Ha Hc) in *. injection Hl as <-.
    change (chain (S (S n)) ?s' a) with
      (match attr s' a "next_command" with
       | Some VNone => Some [a]
       | Some (VRef b) => cons a <$> chain (S n) s' b
       | _ => None
       end).
    rewrite attr_update_same by (by eapply attr_is_Some_heap).
    simpl. rewrite attr_update_other by (left; set_solver). by rewrite Hxn.
  - destruct (chain_step _ _ _ _ _ Hb Hc) as (n' & l' & [= <-] & -> & Hc').
    destruct (chain_nonempty _ _ _ _ Hc') as [l'' ->].
    assert (t <> a) as Hta by (intros ->; congruence).
    change (chain (S (S n)) ?s' a) with
      (match attr s' a "next_command" with
       | Some VNone => Some [a]
       | Some (VRef b) => cons a <$> chain (S n) s' b
       | _ => None
       end).
    rewrite attr_update_other by (by left). rewrite Hb.
    rewrite (IH b (b :: l'')); [done|done|done|].
    by apply not_elem_of_cons in Hx as [_ ?].
Qed.

(** ** DynamicCommand *)

Lemma call_run c s :
  call (VFun c) s =
    Ret (call_u c (world s)).1
        (set_world (call_u c (world s)).2 (set_trace (trace s ++ [Called c]) s)).
Proof.
  unfold call, bind, emit, in_world. simpl. by destruct (call_u c (world s)).
Qed.

Lemma called_nil s : called [] (world s) s = s.
Proof. destruct s. unfold called, set_world, set_trace. simpl. by rewrite app_nil_r. Qed.

Lemma called_cons c cs w w' s :
  called cs w' (set_world w (set_trace (trace s ++ [Called c]) s)) = called (c :: cs) w' s.
Proof. unfold called, set_world, set_trace. simpl. by rewrite <- app_assoc. Qed.

Lemma is_Command_called cs w s v : is_Command (called cs w s) v = is_Command s v.
Proof. done. Qed.

Lemma attr_called cs w s a f : attr (called cs w s) a f = attr s a f.
Proof. done. Qed.

Lemma attr_set_trace t s a f : attr (set_trace t s) a f = attr s a f.
Proof. done. Qed.

(** The suppliers that return false are called in turn, and change nothing
    but the world. *)
Lemma DynamicCommand_conditions_skip fuel self pre rest s w' :
  calls_false pre (world s) = Some w' ->
  DynamicCommand_conditions fuel self ((VFun <$> pre) ++ rest) s =
  DynamicCommand_conditions fuel self rest (called pre w' s).
Proof.
  revert s. induction pre as [|c pre IH]; intros s; simpl.
  - intros [= <-]. by rewrite called_nil.
  - destruct (call_u c (world s)) as [b w1] eqn:E. destruct b; [done|]. intros Hrest.
    rewrite (bind_Ret _ _ _ _ _ (call_run c s)). rewrite E. simpl.
    rewrite IH by done. by rewrite called_cons.
Qed.

Lemma DynamicCommand_conditions_none fuel self cs s w' :
  calls_false cs (world s) = Some w' ->
  DynamicCommand_conditions fuel self (VFun <$> cs) s = Ret false (called cs w' s).
Proof.
  intros Hcs. rewrite <- (app_nil_r (VFun <$> cs)).
  by rewrite (DynamicCommand_conditions_skip _ _ _ _ _ _ Hcs).
Qed.

Lemma DynamicCommand_conditions_first fuel d pre c post s w1 w2 ty m chosen :
  calls_false pre (world s) = Some w1 -> call_u c w1 = (true, w2) ->
  attr s d "command_condition_pairs" = Some (VDict ty m) ->
  m !! KFun c = Some chosen ->
  DynamicCommand_conditions fuel (VRef d) (VFun <$> (pre ++ c :: post)) s =
  (Command_setNext fuel (VRef d) chosen ;;; ret true) (called (pre ++ [c]) w2 s).
Proof.
  intros Hpre Hc Hpairs Hm. rewrite fmap_app.
  rewrite (DynamicCommand_conditions_skip _ _ _ _ _ _ Hpre). simpl.
  rewrite (bind_Ret _ _ _ _ _ (call_run c _)). simpl. rewrite Hc. simpl.
  erewrite bind_Ret; [|by apply getattr_attr].
  unfold getitem, as_key. simpl. unfold bind at 1. simpl. unfold bind at 1. simpl.
  rewrite Hm. unfold called, set_world, set_trace, ret. simpl.
  by rewrite map_app, app_assoc.
Qed.

Lemma DynamicCommand_is_complete_loop fuel d conds s :
  attr s d "conditions" = Some (VList conds) ->
  DynamicCommand_is_complete fuel (VRef d) s = DynamicCommand_conditions fuel (VRef d) conds s.
Proof.
  intros Hc. unfold DynamicCommand_is_complete.
  by rewrite (bind_Ret _ _ _ _ _ (getattr_attr _ _ _ _ Hc)).
Qed.

Lemma DynamicCommand_is_complete_run fuel d pre c post s w1 w2 ty m chosen :
  attr s d "conditions" = Some (VList (VFun <$> pre ++ c :: post)) ->
  attr s d "command_condition_pairs" = Some (VDict ty m) ->
  calls_false pre (world s) = Some w1 -> call_u c w1 = (true, w2) ->
  m !! KFun c = Some chosen ->
  DynamicCommand_is_complete fuel (VRef d) s =
  (Command_setNext fuel (VRef d) chosen ;;; ret true) (called (pre ++ [c]) w2 s).
Proof.
  intros Hconds Hpairs Hpre Hc Hm.
  rewrite (DynamicCommand_is_complete_loop _ _ _ _ Hconds).
  by rewrite (DynamicCommand_conditions_first _ _ _ _ _ _ _ _ _ _ _ Hpre Hc Hpairs Hm).
Qed.

(** The same, when the chain of the command is finite and the chosen
    successor is a command: it is linked behind the tail. *)
Lemma DynamicCommand_is_complete_links fuel n d pre c post s w1 w2 ty m chosen l t :
  attr s d "conditions" = Some (VList (VFun <$> pre ++ c :: post)) ->
  attr s d "command_condition_pairs" = Some (VDict ty m) ->
  calls_false pre (world s) = Some w1 -> call_u c w1 = (true, w2) ->
  m !! KFun c = Some chosen -> is_Command s chosen = true ->
  chain n s d = Some l -> last l = Some t -> n <= fuel ->
  DynamicCommand_is_complete fuel (VRef d) s =
  Ret true (update_attr t "next_command" chosen (called (pre ++ [c]) w2 s)).
Proof.
  intros Hconds Hpairs Hpre Hc Hm Hcmd Hchain Hlast Hfuel.
  rewrite (DynamicCommand_is_complete_run _ _ _ _ _ _ _ _ _ _ _ Hconds Hpairs Hpre Hc Hm).
  erewrite bind_Ret; [done|].
  rewrite (Command_setNext_run fuel n _ d l t chosen); [|by rewrite <- Hchain; apply chain_same_heap|done|done].
  by rewrite is_Command_called, Hcmd.
Qed.


Lemma Command_is_complete_Dynamic fuel s d k :
  class_of s (VRef d) = Some (UserDynamicCommand k) ->
  Command_is_complete (S fuel) (VRef d) s = DynamicCommand_is_complete fuel (VRef d) s.
Proof. intros Hc. simpl. unfold bind at 1, method_of. by rewrite Hc. Qed.

Lemma world_update a f x s : world (update_attr a f x s) = world s.
Proof. unfold update_attr. by destruct (heap s !! a). Qed.

Lemma clock_update a f x s : clock (update_attr a f x s) = clock s.
Proof. unfold update_attr. by destruct (heap s !! a). Qed.

Lemma reads_update a f x s : reads (update_attr a f x s) = reads s.
Proof. unfold update_attr. by destruct (heap s !! a). Qed.


(** ** Scheduler.initialize *)

(** C7.  When the cycle check on the sorted topics answers true,
    [initialize()] raises TopicCircularDependency before it opened any file:
    the files, the heap, the clock and the output are as they were, and no
    log file name was chosen. *)
Theorem initialize_cycle_raises_before_log s :
  cycle_is_present_in_any (heap s) (dependecy_sort (heap s) (topics (scheduler s))) = true ->
  exists s', Scheduler_initialize s = Raise TopicCircularDependency s' /\
             files s' = files s /\ heap s' = heap s /\ reads s' = reads s /\
             trace s' = trace s /\
             writing_file_name (scheduler s') = writing_file_name (scheduler s).
Proof.
  intros Hcycle.
  exists (set_scheduler (with_topics (dependecy_sort (heap s) (topics (scheduler s))) (scheduler s)) s).
  split; [|done].
  unfold Scheduler_initialize, bind, get_scheduler, get_heap, modify_scheduler. simpl.
  by rewrite Hcycle.
Qed.

Lemma name_of_getattr s v n : name_of s v = Some n -> getattr v "name" s = Ret (VStr n) s.
Proof.
  destruct v; try done. simpl.
  destruct (attr s a "name") as [[]|] eqn:E; try done.
  intros [= <-]. by apply getattr_attr.
Qed.

Lemma names_exist s l :
  Forall (fun v => is_Some (name_of s v)) l ->
  exists ns, Forall2 (fun v n => name_of s v = Some n) l ns /\ name_of s <$> l = Some <$> ns.
Proof.
  induction 1 as [|v l [n Hn] _ (ns & Hf & He)].
  - by exists [].
  - exists (n :: ns). split; [by constructor|]. csimpl. by rewrite Hn, He.
Qed.

Lemma collides_with_visited_run s topic n visited vns :
  name_of s topic = Some n ->
  Forall2 (fun v m => name_of s v = Some m) visited vns ->
  collides_with_visited topic visited s =
    if bool_decide (n ∈ vns) then Raise (RuntimeError (TopicsSameName n)) s else Ret tt s.
Proof.
  intros Hn. unfold collides_with_visited. induction 1 as [|v m vs ms Hm _ IH]; simpl; [done|].
  unfold bind at 1. unfold bind at 1.
  rewrite (name_of_getattr _ _ _ Hn). unfold bind at 1.
  rewrite (name_of_getattr _ _ _ Hm). simpl.
  destruct (String.eqb_spec n m) as [->|Hne].
  - unfold bind at 1. rewrite (name_of_getattr _ _ _ Hn). simpl.
    rewrite bool_decide_eq_true_2; [done | by left].
  - change (ret tt s) with (Ret tt s). cbv iota.
    rewrite IH. apply (f_equal (fun b : bool => if b then _ else _)).
    apply bool_decide_ext. rewrite elem_of_cons.
    split; [by right | intros [?|?]; [by destruct Hne | done]].
Qed.

Lemma collides_with_subscribers_run s topic n subs sns :
  name_of s topic = Some n ->
  Forall2 (fun v m => name_of s v = Some m) subs sns ->
  collides_with_subscribers topic subs s =
    if bool_decide (n ∈ sns) then Raise (RuntimeError (TopicSubscriberSameName n)) s
    else Ret tt s.
Proof.
  intros Hn. unfold collides_with_subscribers.
  induction 1 as [|v m vs ms Hm _ IH]; simpl; [done|].
  unfold bind at 1. unfold bind at 1.
  rewrite (name_of_getattr _ _ _ Hn). unfold bind at 1.
  rewrite (name_of_getattr _ _ _ Hm). simpl.
  destruct (String.eqb_spec n m) as [->|Hne].
  - unfold bind at 1. rewrite (name_of_getattr _ _ _ Hn). simpl.
    rewrite bool_decide_eq_true_2; [done | by left].
  - change (ret tt s) with (Ret tt s). cbv iota.
    rewrite IH. apply (f_equal (fun b : bool => if b then _ else _)).
    apply bool_decide_ext. rewrite elem_of_cons.
    split; [by right | intros [?|?]; [by destruct Hne | done]].
Qed.

(** The name check reads the heap and changes nothing. *)
Lemma check_collision_loop_run s subs sns visited vns l lns :
  Forall2 (fun v m => name_of s v = Some m) subs sns ->
  Forall2 (fun v m => name_of s v = Some m) visited vns ->
  Forall2 (fun v m => name_of s v = Some m) l lns ->
  check_collision_loop subs visited l s =
    match first_collision sns vns lns with
    | Some e => Raise (RuntimeError e) s
    | None => Ret tt s
    end.
Proof.
  intros Hsubs Hvis Hl. revert visited vns Hvis.
  induction Hl as [|v n l lns Hn _ IH]; intros visited vns Hvis; simpl; [done|].
  unfold bind at 1. rewrite (collides_with_visited_run _ _ _ _ _ Hn Hvis).
  destruct (bool_decide (n ∈ vns)); [done|].
  unfold bind at 1. rewrite (collides_with_subscribers_run _ _ _ _ _ Hn Hsubs).
  destruct (bool_decide (n ∈ sns)); [done|].
  apply IH. apply Forall2_app; [done|]. by constructor.
Qed.

Lemma first_collision_is_collision sns vns lns e :
  first_collision sns vns lns = Some e -> is_collision e = true.
Proof.
  revert vns. induction lns as [|n rest IH]; intros vns; simpl; [done|].
  repeat case_bool_decide; try by intros [= <-]. apply IH.
Qed.

Lemma first_collision_finds sns vns lns :
  (exists n, n ∈ lns /\ n ∈ vns) \/ ~ NoDup lns \/ (exists n, n ∈ lns /\ n ∈ sns) ->
  is_Some (first_collision sns vns lns).
Proof.
  revert vns. induction lns as [|n rest IH]; intros vns H; simpl.
  - destruct H as [(n & Hn & _)|[H|(n & Hn & _)]].
    + by apply elem_of_nil in Hn.
    + destruct H. constructor.
    + by apply elem_of_nil in Hn.
  - case_bool_decide as Hv; [eauto|]. case_bool_decide as Hs; [eauto|].
    apply IH. destruct H as [(m & Hm & Hmv)|[H|(m & Hm & Hms)]].
    + apply elem_of_cons in Hm as [->|Hm]; [done|].
      left. exists m. split; [done|]. apply elem_of_app. by left.
    + destruct (decide (n ∈ rest)) as [Hin|Hnin].
      * left. exists n. split; [done|]. apply elem_of_app. right. by left.
      * right. left. intros Hnd. apply H. by constructor.
    + apply elem_of_cons in Hm as [->|Hm]; [done|].
      right. right. eauto.
Qed.

Lemma steady_refl s : steady s s.
Proof. by repeat split. Qed.

Lemma steady_trans s1 s2 s3 : steady s1 s2 -> steady s2 s3 -> steady s1 s3.
Proof.
  intros (Ha & Hc & Ht & Hs) (Ha' & Hc' & Ht' & Hs'). repeat split.
  - intros a f Hf. by rewrite Ha', Ha.
  - intros v. by rewrite Hc', Hc.
  - by rewrite Ht', Ht.
  - by rewrite Hs', Hs.
Qed.

Lemma steady_name_of s s' v : steady s s' -> name_of s' v = name_of s v.
Proof. intros (Ha & _). destruct v; try done. simpl. by rewrite Ha. Qed.

Lemma steady_hardware_ready s s' v : steady s s' -> hardware_ready s v -> hardware_ready s' v.
Proof.
  intros (_ & Hc & _) (c & Hcls & Hsub & Hok). exists c. by rewrite Hc.
Qed.

Lemma steady_update_is_sim s a x : steady s (update_attr a "is_sim" x s).
Proof.
  repeat split.
  - intros b f Hf. apply attr_update_other. right. congruence.
  - intros v. apply class_of_update.
  - unfold update_attr. by destruct (heap s !! a).
  - unfold update_attr. by destruct (heap s !! a).
Qed.

(** The loop of [initialize] that prints the topic names *)
Lemma print_names_run s l :
  Forall (fun v => is_Some (name_of s v)) l ->
  exists s', for_each l (fun topic =>
                name <- getattr topic "name" ;;
                print ("Topic name: " ++ str_of name)%string) s = Ret tt s' /\
             steady s s' /\ files s' = files s /\ scheduler s' = scheduler s.
Proof.
  revert s. induction l as [|v l IH]; intros s Hl; simpl.
  - exists s. split; [done|]. split; [apply steady_refl|done].
  - apply Forall_cons in Hl as [[n Hn] Hl].
    unfold bind at 1. unfold bind at 1. rewrite (name_of_getattr _ _ _ Hn).
    unfold print, emit. cbv iota beta.
    set (s1 := set_trace _ s).
    destruct (IH s1) as (s' & Hrun & Hst & Hf & Hsch); [done|].
    exists s'. split; [done|]. split; [|done].
    eapply steady_trans; [|exact Hst]. by repeat split.
Qed.

Lemma Scheduler_begin_log_run s :
  exists s', Scheduler_begin_log s = Ret tt s' /\ steady s s'.
Proof.
  unfold Scheduler_begin_log, bind, get_scheduler. simpl.
  destruct (is_sim (scheduler s)); simpl.
  - exists s. split; [done | apply steady_refl].
  - eexists. split; [done|]. by repeat split.
Qed.

Lemma Subscriber_initialize_hardware_ready s v :
  hardware_ready s v ->
  exists s', Subscriber_initialize_hardware v s = Ret true s' /\ steady s s'.
Proof.
  intros (c & Hcls & Hsub & Hok). destruct v as [| | | |a| | | |]; try done.
  unfold Subscriber_initialize_hardware, bind, method_of. rewrite Hcls, Hsub.
  destruct c as [| | | | | |k|]; try done; try (exists s; split; [done | apply steady_refl]).
  unfold emit_at, emit, in_world. simpl.
  specialize (Hok k eq_refl (world s)).
  destruct (initialize_hardware_u k (world s)) as [b w'].
  simpl in Hok. subst b. eexists. split; [done|]. by repeat split.
Qed.

(** The loop of [init_hardware] over subscribers that are all ready *)
Lemma init_hardware_loop_run (c : Scheduler) s l :
  Forall (hardware_ready s) l ->
  Forall (fun v => is_Some (name_of s v)) l ->
  exists s', for_each l (fun sub =>
                success <- Subscriber_initialize_hardware sub ;;
                (if throw_exception_on_init_failure c && negb success then
                   name <- getattr sub "name" ;;
                   raise (RuntimeError (HardwareFailed (str_of name)))
                 else ret tt) ;;;
                setattr sub "is_sim" (VBool (is_sim c))) s = Ret tt s' /\
             steady s s'.
Proof.
  revert s. induction l as [|v l IH]; intros s Hready Hnames; simpl.
  - exists s. split; [done | apply steady_refl].
  - apply Forall_cons in Hready as [Hv Hready].
    apply Forall_cons in Hnames as [[n Hn] Hnames].
    destruct (Subscriber_initialize_hardware_ready s v Hv) as (s1 & Hrun & Hst1).
    unfold bind at 1. unfold bind at 1. rewrite Hrun.
    rewrite andb_false_r. unfold bind at 1. change (ret tt s1) with (Ret tt s1). cbv iota.
    destruct v as [| | | |a| | | |]; try done.
    assert (is_Some (heap s1 !! a)) as Ha.
    { rewrite <- (steady_name_of _ _ (VRef a) Hst1) in Hn. simpl in Hn.
      destruct (attr s1 a "name") eqn:E; [|done]. by eapply attr_is_Some_heap. }
    rewrite (setattr_update _ _ _ _ Ha).
    pose proof (steady_trans _ _ _ Hst1 (steady_update_is_sim s1 a (VBool (is_sim c)))) as Hst2.
    destruct (IH (update_attr a "is_sim" (VBool (is_sim c)) s1)) as (s' & Hrun' & Hst').
    + eapply Forall_impl; [exact Hready|]. intros w. by apply steady_hardware_ready.
    + eapply Forall_impl; [exact Hnames|]. intros w. by rewrite (steady_name_of _ _ w Hst2).
    + exists s'. split; [done|]. by eapply steady_trans.
Qed.


(** ** Publishing *)

Lemma same_but_messages_refl s : same_but_messages s s.
Proof. by repeat split. Qed.

Lemma same_but_messages_trans s1 s2 s3 :
  same_but_messages s1 s2 -> same_but_messages s2 s3 -> same_but_messages s1 s3.
Proof.
  intros (Ha & Hc & Hs & Hsch & Hw & Hr & Hf & Ht) (Ha' & Hc' & Hs' & Hsch' & Hw' & Hr' & Hf' & Ht').
  split; [|split; [|split; [|repeat split; congruence]]].
  - intros a f Hf0. by rewrite Ha', Ha.
  - intros v. by rewrite Hc', Hc.
  - intros v Hv. by apply Hs', Hs.
Qed.

Lemma Subscriber_store_messages_run s a n msg :
  can_store s (VRef a) = true ->
  exists ty m,
    attr s a "messages" = Some (VDict ty m) /\
    Subscriber_store_messages (VRef a) (VStr n) msg s =
      Ret tt (update_attr a "messages" (VDict ty (<[KStr n := msg]> m)) s).
Proof.
  unfold can_store. destruct (class_of s (VRef a)) as [c|] eqn:Hc; [|done].
  destruct (attr s a "messages") as [[| | | | | | |ty m|]|] eqn:Hm; try done.
  intros Hsub. exists ty, m. split; [done|].
  unfold Subscriber_store_messages. unfold bind at 1. unfold method_of. rewrite Hc, Hsub.
  rewrite (bind_Ret _ _ _ _ _ (getattr_attr _ _ _ _ Hm)). simpl.
  unfold bind at 1. unfold bind at 1. simpl.
  apply setattr_update. by eapply attr_is_Some_heap.
Qed.

Lemma can_store_update_messages s a ty m v :
  can_store s v = true -> can_store (update_attr a "messages" (VDict ty m) s) v = true.
Proof.
  destruct v as [| | | |b| | | |]; try done. unfold can_store.
  rewrite class_of_update. destruct (class_of s (VRef b)) as [c|]; [|done].
  destruct (decide (a = b)) as [->|Hne].
  - destruct (attr s b "messages") as [x|] eqn:E; [|done].
    rewrite attr_update_same by (by eapply attr_is_Some_heap). by destruct x.
  - rewrite attr_update_other by (by left). done.
Qed.

Lemma same_but_messages_update s a ty m :
  same_but_messages s (update_attr a "messages" (VDict ty m) s).
Proof.
  split; [|split; [|split]].
  - intros b f Hf. apply attr_update_other. right. congruence.
  - intros v. apply class_of_update.
  - intros v. apply can_store_update_messages.
  - unfold update_attr. by destruct (heap s !! a).
Qed.

Lemma stored_message_update_same s a ty m n msg :
  is_Some (heap s !! a) ->
  stored_message (update_attr a "messages" (VDict ty (<[KStr n := msg]> m)) s) (VRef a) n
  = Some msg.
Proof. intros Ha. simpl. rewrite attr_update_same by done. apply lookup_insert_eq. Qed.

Lemma stored_message_update_keeps s a ty m n msg v :
  stored_message s v n = Some msg ->
  attr s a "messages" = Some (VDict ty m) ->
  stored_message (update_attr a "messages" (VDict ty (<[KStr n := msg]> m)) s) v n = Some msg.
Proof.
  destruct v as [| | | |b| | | |]; try done. intros Hv Ha.
  destruct (decide (a = b)) as [->|Hne].
  - apply stored_message_update_same. by eapply attr_is_Some_heap.
  - simpl. rewrite attr_update_other by (by left). done.
Qed.

(** [notify_subscribers]: every registered subscriber stores the message
    under the topic's name, and nothing else changes. *)
Lemma notify_loop_run s t n msg l :
  name_of s t = Some n ->
  Forall (fun v => can_store s v = true) l ->
  exists s', for_each l (fun sub =>
                name <- getattr t "name" ;;
                Subscriber_store_messages sub name msg) s = Ret tt s' /\
             same_but_messages s s' /\
             Forall (fun v => stored_message s' v n = Some msg) l /\
             (forall v, stored_message s v n = Some msg -> stored_message s' v n = Some msg).
Proof.
  intros Hn. revert s Hn. induction l as [|v l IH]; intros s Hn Hl; simpl.
  - exists s. split; [done|]. split; [apply same_but_messages_refl|]. by split.
  - apply Forall_cons in Hl as [Hv Hl].
    destruct v as [| | | |a| | | |]; try done.
    destruct (Subscriber_store_messages_run s a n msg Hv) as (ty & m & Hm & Hrun).
    unfold bind at 1. unfold bind at 1. rewrite (name_of_getattr _ _ _ Hn). rewrite Hrun.
    set (s1 := update_attr a "messages" _ s).
    pose proof (same_but_messages_update s a ty (<[KStr n := msg]> m)) as Hs1. fold s1 in Hs1.
    destruct (IH s1) as (s' & Hrun' & Hs' & Hall & Hkeep).
    + destruct t; try done. simpl in *. destruct Hs1 as (Ha & _). by rewrite Ha.
    + eapply Forall_impl; [exact Hl|]. intros w. by apply Hs1.
    + exists s'. split; [done|]. split; [by eapply same_but_messages_trans|]. split.
      * constructor; [|done]. apply Hkeep.
        apply stored_message_update_same. by eapply attr_is_Some_heap.
      * intros w Hw. apply Hkeep. by apply stored_message_update_keeps.
Qed.

Lemma Topic_notify_subscribers_run s ta n msg subs :
  name_of s (VRef ta) = Some n ->
  attr s ta "subscribers" = Some (VList subs) ->
  Forall (fun v => can_store s v = true) subs ->
  exists s', Topic_notify_subscribers (VRef ta) msg s = Ret tt s' /\
             same_but_messages s s' /\
             Forall (fun v => stored_message s' v n = Some msg) subs.
Proof.
  intros Hn Hsubs Hall. unfold Topic_notify_subscribers.
  rewrite (bind_Ret _ _ _ _ _ (getattr_attr _ _ _ _ Hsubs)). simpl.
  unfold bind at 1. simpl.
  destruct (notify_loop_run s (VRef ta) n msg subs Hn Hall) as (s' & Hrun & Hs & Hst & _).
  eauto.
Qed.

Lemma class_is_Some_heap s a c : class_of s (VRef a) = Some c -> is_Some (heap s !! a).
Proof. simpl. destruct (heap s !! a); [eauto | done]. Qed.

Lemma can_store_update_other s a f x v :
  f <> "messages" -> can_store (update_attr a f x s) v = can_store s v.
Proof.
  intros Hf. destruct v as [| | | |b| | | |]; try done. unfold can_store.
  rewrite class_of_update. rewrite attr_update_other by (right; done). done.
Qed.

(** [publish_periodic_from_log] writes the topic's times, stores the
    message it was given, as it is, in every registered subscriber, and
    returns what it was given. *)
Lemma Topic_publish_periodic_from_log_run s ta c n subs msg ct dt :
  class_of s (VRef ta) = Some c -> is_Topic_class c = true ->
  name_of s (VRef ta) = Some n ->
  attr s ta "subscribers" = Some (VList subs) ->
  Forall (fun v => can_store s v = true) subs ->
  exists s', Topic_publish_periodic_from_log (VRef ta) msg ct dt s = Ret (msg, ct, dt) s' /\
             Forall (fun v => stored_message s' v n = Some msg) subs /\
             (forall a f, f ∉ replay_writes -> attr s' a f = attr s a f) /\
             (forall v, class_of s' v = class_of s v) /\
             scheduler s' = scheduler s /\ world s' = world s /\ reads s' = reads s /\
             files s' = files s /\ trace s' = trace s.
Proof.
  intros Hc Htopic Hn Hsubs Hall.
  pose proof (class_is_Some_heap _ _ _ Hc) as Hheap.
  set (u1 := update_attr ta "_Topic__current_time" ct s).
  set (u2 := update_attr ta "delta_time_seconds" dt u1).
  set (u3 := update_attr ta "_Topic__previous_time" ct u2).
  assert (forall a f, f ∉ replay_writes -> attr u3 a f = attr s a f) as Hframe.
  { intros a f Hf. unfold u3, u2, u1, replay_writes in *.
    rewrite !attr_update_other; [done|right|right|right]; intros <-; apply Hf; set_solver. }
  assert (forall v, class_of u3 v = class_of s v) as Hcls.
  { intros v. unfold u3, u2, u1. by rewrite !class_of_update. }
  destruct (Topic_notify_subscribers_run u3 ta n msg subs) as (s' & Hrun & Hsame & Hstored).
  { simpl. rewrite Hframe by (unfold replay_writes; set_solver). exact Hn. }
  { rewrite Hframe by (unfold replay_writes; set_solver). exact Hsubs. }
  { eapply Forall_impl; [exact Hall|]. intros v Hv. unfold u3, u2, u1.
    by rewrite !can_store_update_other. }
  destruct Hsame as (Ha & Hc' & _ & Hsch & Hw & Hr & Hf & Ht).
  exists s'. split; [|split; [done|split; [|split]]].
  - unfold Topic_publish_periodic_from_log.
    unfold bind at 1. unfold method_of. rewrite Hc, Htopic.
    unfold bind at 1. rewrite (setattr_update _ _ _ _ Hheap). fold u1.
    unfold bind at 1. rewrite (setattr_update u1 _ _ _) by (by apply heap_update_is_Some). fold u2.
    unfold bind at 1. rewrite (getattr_attr u2 ta _ ct).
    2:{ unfold u2. rewrite attr_update_other by (by right). by apply attr_update_same. }
    unfold bind at 1.
    rewrite (setattr_update u2 _ _ _) by (by apply heap_update_is_Some, heap_update_is_Some).
    fold u3. unfold bind at 1. rewrite Hrun.
    unfold bind at 1. rewrite (getattr_attr s' ta _ ct).
    2:{ rewrite Ha by done. unfold u3. rewrite attr_update_other by (by right).
        unfold u2. rewrite attr_update_other by (by right). by apply attr_update_same. }
    unfold bind at 1. rewrite (getattr_attr s' ta _ dt).
    2:{ rewrite Ha by done. unfold u3. rewrite attr_update_other by (by right).
        apply attr_update_same. by apply heap_update_is_Some. }
    done.
  - intros a f Hf'. rewrite Ha; [by apply Hframe|]. intros ->. apply Hf'.
    unfold replay_writes. set_solver.
  - intros v. by rewrite Hc', Hcls.
  - unfold u3, u2, u1, update_attr in *.
    repeat match goal with H : context [match ?x with _ => _ end] |- _ => destruct x end.
    all: simpl in *; repeat split; congruence.
Qed.


(** ** DelayCommand *)

Lemma DelayCommand_first_run_behavior_run s d timer ty m u :
  attr s d "timer_subsystem" = Some (VRef timer) ->
  attr s timer "message" = Some (VDict ty m) ->
  m !! KStr "Unix" = Some u ->
  DelayCommand_first_run_behavior (VRef d) s =
    Ret tt (update_attr d "first_run_occurred" (VBool true) (update_attr d "start_time" u s)).
Proof.
  intros Ht Hm Hu. unfold DelayCommand_first_run_behavior.
  rewrite (bind_Ret _ _ _ _ _ (getattr_attr _ _ _ _ Ht)).
  rewrite (bind_Ret _ _ _ _ _ (getattr_attr _ _ _ _ Hm)).
  unfold bind at 1. unfold getitem, as_key. unfold bind at 1. unfold ret at 1. rewrite Hu.
  unfold ret at 1. pose proof (attr_is_Some_heap _ _ _ _ Ht) as Hd.
  unfold bind at 1. rewrite (setattr_update _ _ _ _ Hd).
  apply setattr_update. by apply heap_update_is_Some.
Qed.

(** [is_complete()] compares the reading of the injected topic, less the
    reading captured at the first run, with the delay; it reads nothing
    else and changes nothing. *)
Lemma DelayCommand_is_complete_run s d timer ty m u start delay :
  attr s d "timer_subsystem" = Some (VRef timer) ->
  attr s timer "message" = Some (VDict ty m) ->
  m !! KStr "Unix" = Some (VNum u) ->
  attr s d "start_time" = Some (VNum start) ->
  attr s d "delay_time" = Some (VNum delay) ->
  DelayCommand_is_complete (VRef d) s = Ret (fge (fsub u start) delay) s.
Proof.
  intros Ht Hm Hu Hs Hd. unfold DelayCommand_is_complete.
  rewrite (bind_Ret _ _ _ _ _ (getattr_attr _ _ _ _ Ht)).
  rewrite (bind_Ret _ _ _ _ _ (getattr_attr _ _ _ _ Hm)).
  unfold bind at 1. unfold getitem, as_key. unfold bind at 1. unfold ret at 1. rewrite Hu.
  unfold ret at 1.
  rewrite (bind_Ret _ _ _ _ _ (getattr_attr _ _ _ _ Hs)).
  unfold bind at 1. unfold py_sub, ret at 1.
  by rewrite (bind_Ret _ _ _ _ _ (getattr_attr _ _ _ _ Hd)).
Qed.

Lemma DelayCommand_periodic_does_nothing self s : DelayCommand_periodic self s = Ret tt s.
Proof. done. Qed.

(** A replayed publication of the time topic leaves the reading that a
    DelayCommand consults where it was: the command's answer is the same
    before and after, whatever time the log carried. *)
Lemma replay_does_not_advance_delay s d timer c n subs ty m u start delay msg ct dt :
  class_of s (VRef timer) = Some c -> is_Topic_class c = true ->
  name_of s (VRef timer) = Some n ->
  attr s timer "subscribers" = Some (VList subs) ->
  Forall (fun v => can_store s v = true) subs ->
  attr s d "timer_subsystem" = Some (VRef timer) ->
  attr s timer "message" = Some (VDict ty m) ->
  m !! KStr "Unix" = Some (VNum u) ->
  attr s d "start_time" = Some (VNum start) ->
  attr s d "delay_time" = Some (VNum delay) ->
  exists s', Topic_publish_periodic_from_log (VRef timer) msg ct dt s = Ret (msg, ct, dt) s' /\
             DelayCommand_is_complete (VRef d) s = Ret (fge (fsub u start) delay) s /\
             DelayCommand_is_complete (VRef d) s' = Ret (fge (fsub u start) delay) s'.
Proof.
  intros Hc Htopic Hn Hsubs Hall Ht Hm Hu Hs Hd.
  destruct (Topic_publish_periodic_from_log_run s timer c n subs msg ct dt Hc Htopic Hn Hsubs Hall)
    as (s' & Hrun & _ & Hframe & _).
  exists s'. split; [done|]. split.
  - by eapply DelayCommand_is_complete_run.
  - apply (DelayCommand_is_complete_run s' d timer ty m); try done;
      rewrite Hframe; try done; unfold replay_writes; set_solver.
Qed.

(** ** Scheduler.periodic *)

(** The scheduler reads [first_run_occured] of the root command, an
    attribute that no constructor sets ([Command.__init__] sets
    [first_run_occurred]): with such a root command a live tick ends there. *)
Lemma Scheduler_periodic_reads_misspelt_attribute fuel s a c :
  is_sim (scheduler s) = false ->
  root_command (scheduler s) = VRef a ->
  class_of s (VRef a) = Some c -> attr s a "first_run_occured" = None ->
  Scheduler_periodic fuel s =
    Raise (AttributeError "first_run_occured") (set_reads (S (reads s)) s).
Proof.
  intros Hsim Hroot Hc Hattr. unfold Scheduler_periodic.
  unfold bind at 1. unfold time_time at 1. cbv iota beta.
  unfold bind at 1. unfold get_scheduler at 1. cbv iota beta.
  change (scheduler (set_reads _ s)) with (scheduler s). rewrite Hsim, Hroot.
  unfold bind at 1. unfold ret at 1. cbv iota beta.
  unfold bind at 1. cbn [is_None negb].
  unfold bind at 1.
  destruct (class_is_Some_heap _ _ _ Hc) as [o Ho].
  rewrite (getattr_absent _ a _ o); [done | done |].
  unfold attr in Hattr. by rewrite Ho in Hattr.
Qed.

(** ** ParallelCommand *)

(** [is_complete()] is true exactly when every child held, asked in the
    order of the list, reports complete. *)
Lemma all_complete_true_iff is_complete l s s' :
  all_complete is_complete l s = Ret true s' <-> reports_all is_complete l s s'.
Proof.
  revert s. induction l as [|v l IH]; intros s; simpl.
  - split; [intros [= <-]; constructor | by inversion 1].
  - unfold bind. split.
    + destruct (is_complete v s) as [[] s1| |] eqn:E; try done.
      intros Hrest. econstructor; [done|]. by apply IH.
    + inversion 1 as [|? ? ? s1 ? Hv Hrest]; subst. rewrite Hv. by apply IH.
Qed.

Lemma ParallelCommand_is_complete_true_iff is_complete s p l s' :
  attr s p "commands" = Some (VList l) ->
  ParallelCommand_is_complete is_complete (VRef p) s = Ret true s' <->
  reports_all is_complete l s s'.
Proof.
  intros Hl. unfold ParallelCommand_is_complete.
  rewrite (bind_Ret _ _ _ _ _ (getattr_attr _ _ _ _ Hl)). simpl.
  unfold bind at 1. simpl. apply all_complete_true_iff.
Qed.

(** A child that reports complete and has a successor is replaced in place
    by the successor, whose [first_run()] is called at once. *)
Lemma ParallelCommand_step_replaces is_complete first_run periodic s s1 p i command nc l :
  is_complete command s = Ret true s1 ->
  getattr command "next_command" s1 = Ret nc s1 -> truthy nc = true ->
  attr s1 p "commands" = Some (VList l) -> i < length l ->
  ParallelCommand_step is_complete first_run periodic (VRef p) i command s =
    first_run nc (update_attr p "commands" (VList (<[i := nc]> l)) s1).
Proof.
  intros Hc Hnc Ht Hl Hi. unfold ParallelCommand_step.
  unfold bind at 1. rewrite Hc. unfold bind at 1. rewrite Hnc, Ht. cbn [andb].
  pose proof (attr_is_Some_heap _ _ _ _ Hl) as Hp.
  unfold bind at 1. unfold list_setitem.
  rewrite (bind_Ret _ _ _ _ _ (getattr_attr _ _ _ _ Hl)).
  rewrite bool_decide_eq_true_2 by done. rewrite (setattr_update _ _ _ _ Hp).
  unfold bind at 1. unfold list_getitem.
  rewrite (bind_Ret _ _ _ _ _ (getattr_attr _ _ _ _ (attr_update_same _ _ _ _ Hp))).
  by rewrite list_lookup_insert_eq.
Qed.

(** A child that does not report complete, or has no successor, has its
    [periodic()] run. *)
Lemma ParallelCommand_step_runs_periodic is_complete first_run periodic s s1 p i command b :
  is_complete command s = Ret b s1 ->
  (b = true -> getattr command "next_command" s1 = Ret VNone s1) ->
  ParallelCommand_step is_complete first_run periodic (VRef p) i command s =
    periodic command s1.
Proof.
  intros Hc Hnc. unfold ParallelCommand_step.
  unfold bind at 1. rewrite Hc. unfold bind at 1. destruct b.
  - by rewrite (Hnc eq_refl).
  - done.
Qed.

(** ** Topic.publish_periodic *)

Ltac attr_step :=
  first [ rewrite attr_update_same by (repeat apply heap_update_is_Some; eassumption)
        | rewrite attr_update_other by (right; discriminate) ].

(** A live publication of a user's topic: the time returned, and logged, is
    the clock reading taken first; the Message handed to the subscribers is
    stamped with the reading taken after the body was generated. *)
Lemma Topic_publish_periodic_user_run s ta k n subs prev msgs body w' :
  class_of s (VRef ta) = Some (UserTopic k) ->
  name_of s (VRef ta) = Some n ->
  attr s ta "subscribers" = Some (VList subs) ->
  Forall (fun v => can_store s v = true) subs ->
  attr s ta "_Topic__previous_time" = Some (VNum prev) ->
  attr s ta "messages" = Some msgs ->
  generate_messages_periodic_u k msgs (world s) = (body, w') ->
  type_is_dict body = true ->
  exists s',
    Topic_publish_periodic (VRef ta) s =
      Ret (VMessage body (VNum (clock s (S (reads s)))),
           VNum (clock s (reads s)),
           VNum (fsub (clock s (reads s)) prev)) s' /\
    Forall (fun v => stored_message s' v n =
                     Some (VMessage body (VNum (clock s (S (reads s)))))) subs.
Proof.
  intros Hc Hn Hsubs Hall Hprev Hmsgs Hgen Hdict.
  pose proof (class_is_Some_heap _ _ _ Hc) as Hheap.
  remember (clock s (reads s)) as now eqn:Enow.
  remember (clock s (S (reads s))) as stamp eqn:Estamp.
  remember (set_reads (S (reads s)) s) as s1 eqn:E1.
  remember (update_attr ta "_Topic__current_time" (VNum now) s1) as u1 eqn:Eu1.
  remember (update_attr ta "delta_time_seconds" (VNum (fsub now prev)) u1) as u2 eqn:Eu2.
  remember (set_world w' (set_trace (trace u2 ++ [Generate ta]) u2)) as g eqn:Eg.
  remember (update_attr ta "message_body" body g) as u3 eqn:Eu3.
  remember (update_attr ta "_Topic__previous_time" (VNum now) u3) as u4 eqn:Eu4.
  remember (set_reads (S (reads u4)) u4) as u5 eqn:Eu5.
  assert (forall a f, attr s1 a f = attr s a f) as A1 by (by subst s1).
  assert (forall a f, attr g a f = attr u2 a f) as Ag by (by subst g).
  assert (forall a f, attr u5 a f = attr u4 a f) as A5 by (by subst u5).
  assert (forall v, class_of s1 v = class_of s v) as C1 by (by subst s1).
  assert (forall v, class_of g v = class_of u2 v) as Cg by (by subst g).
  assert (forall v, class_of u5 v = class_of u4 v) as C5 by (by subst u5).
  assert (is_Some (heap s1 !! ta)) as H1 by (by subst s1).
  assert (is_Some (heap u1 !! ta)) as H2 by (subst u1; by apply heap_update_is_Some).
  assert (is_Some (heap u2 !! ta)) as H2' by (subst u2; by apply heap_update_is_Some).
  assert (is_Some (heap g !! ta)) as H3 by (by subst g).
  assert (is_Some (heap u3 !! ta)) as H4 by (subst u3; by apply heap_update_is_Some).
  assert (attr u2 ta "_Topic__current_time" = Some (VNum now)) as Hnow2.
  { subst u2. attr_step. subst u1. by apply attr_update_same. }
  assert (attr u2 ta "delta_time_seconds" = Some (VNum (fsub now prev))) as Hdelta2.
  { subst u2. by apply attr_update_same. }
  assert (attr u4 ta "_Topic__current_time" = Some (VNum now)) as Hnow4.
  { subst u4. attr_step. subst u3. attr_step. by rewrite Ag. }
  assert (attr u4 ta "delta_time_seconds" = Some (VNum (fsub now prev))) as Hdelta4.
  { subst u4. attr_step. subst u3. attr_step. by rewrite Ag. }
  assert (forall a f, f ∉ ["_Topic__current_time"; "delta_time_seconds"; "message_body";
                           "_Topic__previous_time"] -> attr u5 a f = attr s a f) as Hframe.
  { intros a f Hf. rewrite A5. subst u4 u3.
    rewrite !attr_update_other; [|right; intros <-; apply Hf; set_solver..].
    rewrite Ag. subst u2 u1.
    rewrite !attr_update_other; [by rewrite A1|right; intros <-; apply Hf; set_solver..]. }
  assert (forall v, class_of u5 v = class_of s v) as Hcls.
  { intros v. rewrite C5. subst u4 u3. rewrite !class_of_update, Cg. subst u2 u1.
    by rewrite !class_of_update, C1. }
  assert (forall v, can_store s v = true -> can_store u5 v = true) as Hstore.
  { intros v. destruct v as [| | | |b| | | |]; try done. unfold can_store.
    rewrite Hcls, Hframe; [done|set_solver]. }
  destruct (Topic_notify_subscribers_run u5 ta n (VMessage body (VNum stamp)) subs)
    as (s' & Hrun & Hsame & Hstored).
  { unfold name_of. rewrite Hframe by set_solver. exact Hn. }
  { rewrite Hframe by set_solver. exact Hsubs. }
  { eapply Forall_impl; [exact Hall|]. exact Hstore. }
  destruct Hsame as (Ha & _).
  exists s'. split; [|done].
  unfold Topic_publish_periodic.
  unfold bind at 1. unfold method_of. rewrite Hc. cbn [is_Topic_class].
  unfold bind at 1. unfold time_time at 1. rewrite <- Enow, <- E1.
  unfold bind at 1. rewrite (setattr_update s1 _ _ _ H1), <- Eu1.
  unfold bind at 1. rewrite (getattr_attr u1 ta _ (VNum prev)).
  2:{ subst u1. attr_step. by rewrite A1. }
  unfold bind at 1. unfold py_sub, ret at 1.
  unfold bind at 1. rewrite (setattr_update u1 _ _ _ H2), <- Eu2.
  unfold bind at 1. unfold Topic_generate_messages_periodic.
  unfold bind at 1. unfold method_of.
  replace (class_of u2 (VRef ta)) with (Some (UserTopic k))
    by (subst u2 u1; by rewrite !class_of_update, C1).
  cbn [is_Topic_class]. unfold bind at 1. unfold emit_at, emit.
  unfold bind at 1. rewrite (getattr_attr _ ta _ msgs).
  2:{ rewrite attr_set_trace, <- Hmsgs, <- A1. subst u2 u1. by do 2 attr_step. }
  unfold in_world. cbn [world set_trace set_world].
  replace (world u2) with (world s)
    by (subst u2 u1 s1; by rewrite !world_update).
  rewrite Hgen, <- Eg.
  unfold bind at 1. rewrite (setattr_update g _ _ _ H3), <- Eu3.
  unfold bind at 1. rewrite (getattr_attr u3 ta _ (VNum now)).
  2:{ subst u3. attr_step. by rewrite Ag. }
  unfold bind at 1. rewrite (setattr_update u3 _ _ _ H4), <- Eu4.
  unfold bind at 1. rewrite (getattr_attr u4 ta _ body).
  2:{ subst u4. attr_step. subst u3. by apply attr_update_same. }
  unfold bind at 1. rewrite Message_run, Hdict, <- Eu5.
  replace (clock u4 (reads u4)) with stamp.
  2:{ subst u4 u3. rewrite !clock_update, !reads_update. subst g. cbn [clock reads set_world set_trace].
      subst u2 u1. rewrite !clock_update, !reads_update. by subst s1. }
  unfold bind at 1. rewrite Hrun.
  unfold bind at 1. rewrite (getattr_attr s' ta _ (VNum now)).
  2:{ rewrite Ha by done. by rewrite A5. }
  unfold bind at 1. rewrite (getattr_attr s' ta _ (VNum (fsub now prev))).
  2:{ rewrite Ha by done. by rewrite A5. }
  done.
Qed.

End Proofs.

(** * Further properties *)

Section More.
Context `{PF : PyFloat} `{UC : !UserCode}.
Local Open Scope list_scope.

(** ** Command.first_run *)

Lemma Command_first_run_again fuel s v c x :
  class_of s v = Some c -> is_Command_class c = true ->
  getattr v "first_run_occurred" s = Ret x s -> truthy x = true ->
  Command_first_run (S fuel) v s = Ret tt s.
Proof.
  intros Hc Hcmd Hx Ht. simpl. unfold bind at 1. unfold method_of. rewrite Hc, Hcmd.
  unfold bind at 1. by rewrite Hx, Ht.
Qed.

Lemma Command_first_run_user fuel s a c k x :
  class_of s (VRef a) = Some c -> behavior_of c = Some k ->
  attr s a "first_run_occurred" = Some x -> truthy x = false ->
  Command_first_run (S fuel) (VRef a) s =
    Ret tt (update_attr a "first_run_occurred" (VBool true)
              (set_world (first_run_behavior_u k (world s))
                 (set_trace (trace s ++ [FirstRunBehavior a]) s))).
Proof.
  intros Hc Hk Hx Ht. pose proof (class_is_Some_heap _ _ _ Hc) as Hheap.
  simpl. unfold bind at 1. unfold method_of. rewrite Hc.
  destruct c; try discriminate; injection Hk as ->; cbn [is_Command_class];
    rewrite (bind_Ret _ _ _ _ _ (getattr_attr _ _ _ _ Hx)); rewrite Ht; cbn [negb];
    unfold bind at 1; unfold bind at 1; unfold emit_at, emit, in_world; cbn [world set_trace];
    by apply setattr_update.
Qed.

(** X1.  [Command.first_run] runs the user's [first_run_behavior] when the
    flag [first_run_occurred] is False, exactly once, and sets the flag: a
    second [first_run()] changes nothing. *)
Theorem Command_first_run_runs_behavior_once fuel s a c k :
  class_of s (VRef a) = Some c -> behavior_of c = Some k ->
  attr s a "first_run_occurred" = Some (VBool false) ->
  exists s1,
    Command_first_run (S fuel) (VRef a) s = Ret tt s1 /\
    trace s1 = trace s ++ [FirstRunBehavior a] /\
    world s1 = first_run_behavior_u k (world s) /\
    attr s1 a "first_run_occurred" = Some (VBool true) /\
    Command_first_run (S fuel) (VRef a) s1 = Ret tt s1.
Proof.
  intros Hc Hk Hflag. pose proof (class_is_Some_heap _ _ _ Hc) as Hheap.
  eexists. split; [by eapply Command_first_run_user|].
  assert (is_Command_class c = true) as Hcmd by (by destruct c).
  split; [|split; [|split]].
  - unfold update_attr. by destruct (heap _ !! a).
  - by rewrite world_update.
  - by apply attr_update_same.
  - eapply Command_first_run_again; [|exact Hcmd| |].
    + by rewrite class_of_update.
    + apply getattr_attr. by apply attr_update_same.
    + done.
Qed.

(** ** Command.setNext *)

Lemma chain_fuel_le s a l n n' : chain n s a = Some l -> n <= n' -> chain n' s a = Some l.
Proof.
  intros Hc Hle. induction Hle as [|n' _ IH]; [done|]. by apply chain_more_fuel.
Qed.

(** Writing the link of a command that is not on a chain leaves the chain. *)
Lemma chain_update_outside n s x lx t v :
  chain n s x = Some lx -> t ∉ lx ->
  chain n (update_attr t "next_command" v s) x = Some lx.
Proof.
  revert x lx. induction n as [|n IH]; intros x lx Hc Ht;
    destruct (chain_cases _ _ _ _ Hc) as [Hx|[b Hb]].
  - rewrite (chain_end _ _ _ _ Hx Hc) in *. simpl.
    rewrite attr_update_other by (left; set_solver). by rewrite Hx.
  - destruct (chain_step _ _ _ _ _ Hb Hc) as (? & ? & ? & _). done.
  - rewrite (chain_end _ _ _ _ Hx Hc) in *. simpl.
    rewrite attr_update_other by (left; set_solver). by rewrite Hx.
  - destruct (chain_step _ _ _ _ _ Hb Hc) as (n' & l' & [= <-] & -> & Hc').
    apply not_elem_of_cons in Ht as [Htx Ht]. simpl.
    rewrite attr_update_other by (by left). rewrite Hb.
    by rewrite (IH b l' Hc' Ht).
Qed.

(** Linking the head of a second chain behind the tail of a first one,
    the two having no command in common, gives the first chain followed by
    the second. *)
Lemma chain_append n m s a l t x lx :
  chain n s a = Some l -> last l = Some t ->
  chain m s x = Some lx -> (forall y, y ∈ l -> y ∉ lx) ->
  chain (n + S m) (update_attr t "next_command" (VRef x) s) a = Some (l ++ lx).
Proof.
  intros Hc Hl Hx Hdis. pose proof (chain_last_is_tail _ _ _ _ _ Hc Hl) as Ht.
  assert (t ∈ l) as Htl.
  { destruct l as [|y l'] using rev_ind; [done|].
    rewrite last_snoc in Hl. injection Hl as ->. set_solver. }
  pose proof (chain_update_outside m s x lx t (VRef x) Hx (Hdis t Htl)) as Hx'.
  clear Htl. revert a l Hc Hl Hdis.
  induction n as [|n IH]; intros a l Hc Hl Hdis;
    destruct (chain_cases _ _ _ _ Hc) as [Ha|[b Hb]].
  - rewrite (chain_end _ _ _ _ Ha Hc) in *. injection Hl as <-.
    cbn [Nat.add chain]. rewrite attr_update_same by (by eapply attr_is_Some_heap).
    by rewrite Hx'.
  - destruct (chain_step _ _ _ _ _ Hb Hc) as (? & ? & ? & _). done.
  - rewrite (chain_end _ _ _ _ Ha Hc) in *. injection Hl as <-.
    cbn [Nat.add chain]. rewrite attr_update_same by (by eapply attr_is_Some_heap).
    rewrite (chain_fuel_le _ _ _ m (n + S m) Hx') by lia. done.
  - destruct (chain_step _ _ _ _ _ Hb Hc) as (n' & l' & [= <-] & -> & Hc').
    destruct (chain_nonempty _ _ _ _ Hc') as [l'' ->].
    assert (t <> a) as Hta by (intros ->; congruence).
    cbn [Nat.add chain]. rewrite attr_update_other by (by left). rewrite Hb.
    rewrite (IH b (b :: l'')); [done|done|done|].
    intros y Hy. apply Hdis. by right.
Qed.

(** X2.  [c.setNext(x)], for a command [c] with a finite chain of
    successors and a command [x] that heads a finite chain of its own, the two
    chains having no command in common: afterwards the chain of [c] is its
    old chain followed by the whole chain of [x], in order. *)
Theorem Command_setNext_concatenates_chains fuel n m s c l t x lx :
  chain n s c = Some l -> last l = Some t ->
  chain m s x = Some lx -> (forall y, y ∈ l -> y ∉ lx) ->
  is_Command s (VRef x) = true -> n <= fuel ->
  exists s', Command_setNext fuel (VRef c) (VRef x) s = Ret (VRef c) s' /\
             chain (n + S m) s' c = Some (l ++ lx).
Proof.
  intros Hc Hl Hx Hdis Hcmd Hfuel.
  exists (update_attr t "next_command" (VRef x) s). split.
  - rewrite (Command_setNext_run fuel n s c l t (VRef x) Hc Hl Hfuel). by rewrite Hcmd.
  - by apply chain_append.
Qed.

(** ** DynamicCommand.setNextOption *)

Lemma DynamicCommand_setNextOption_run s d l ty m cmd c :
  attr s d "conditions" = Some (VList l) ->
  attr s d "command_condition_pairs" = Some (VDict ty m) ->
  DynamicCommand_setNextOption (VRef d) cmd (VFun c) s =
    Ret tt (update_attr d "command_condition_pairs" (VDict ty (<[KFun c := cmd]> m))
              (update_attr d "conditions" (VList (l ++ [VFun c])) s)).
Proof.
  intros Hl Hm. pose proof (attr_is_Some_heap _ _ _ _ Hl) as Hheap.
  unfold DynamicCommand_setNextOption.
  rewrite (bind_Ret _ _ _ _ _ (getattr_attr _ _ _ _ Hl)).
  unfold bind at 1. unfold iterate, ret at 1.
  unfold bind at 1. rewrite (setattr_update _ _ _ _ Hheap).
  unfold bind at 1. rewrite (getattr_attr _ d _ (VDict ty m)).
  2:{ rewrite attr_update_other by (by right). done. }
  unfold bind at 1. unfold setitem, as_key. unfold bind at 1. unfold ret at 1. unfold ret at 1.
  apply setattr_update. by apply heap_update_is_Some.
Qed.

(** X3.  [d.setNextOption(cmd, supplier)] on a DynamicCommand [d] without
    successor appends the supplier to the conditions; when the suppliers
    registered before all return False and the new one returns True, the next
    [is_complete()] calls all of them in registration order, returns True and
    leaves [cmd] as [d.next_command]. *)
Theorem setNextOption_then_is_complete_installs fuel s d cs ty m cmd c w1 w2 :
  attr s d "conditions" = Some (VList (VFun <$> cs)) ->
  attr s d "command_condition_pairs" = Some (VDict ty m) ->
  attr s d "next_command" = Some VNone ->
  is_Command s cmd = true ->
  calls_false cs (world s) = Some w1 -> call_u c w1 = (true, w2) ->
  exists s1 s2,
    DynamicCommand_setNextOption (VRef d) cmd (VFun c) s = Ret tt s1 /\
    attr s1 d "conditions" = Some (VList (VFun <$> (cs ++ [c]))) /\
    DynamicCommand_is_complete fuel (VRef d) s1 = Ret true s2 /\
    attr s2 d "next_command" = Some cmd /\
    trace s2 = trace s ++ (Called <$> (cs ++ [c])).
Proof.
  intros Hl Hm Hnext Hcmd Hcs Hc. pose proof (attr_is_Some_heap _ _ _ _ Hl) as Hheap.
  set (s1 := update_attr d "command_condition_pairs" (VDict ty (<[KFun c := cmd]> m))
               (update_attr d "conditions" (VList ((VFun <$> cs) ++ [VFun c])) s)).
  assert (attr s1 d "conditions" = Some (VList (VFun <$> (cs ++ [c])))) as Hl1.
  { unfold s1. rewrite attr_update_other by (by right). rewrite fmap_app.
    by apply attr_update_same. }
  assert (attr s1 d "command_condition_pairs" = Some (VDict ty (<[KFun c := cmd]> m))) as Hm1.
  { unfold s1. apply attr_update_same. by apply heap_update_is_Some. }
  assert (world s1 = world s) as Hw by (unfold s1; by rewrite !world_update).
  exists s1, (update_attr d "next_command" cmd (called (cs ++ [c]) w2 s1)).
  split; [by apply DynamicCommand_setNextOption_run|]. split; [done|]. split; [|split].
  - apply (DynamicCommand_is_complete_links fuel 0 d cs c [] s1 w1 w2 ty
             (<[KFun c := cmd]> m) cmd [d] d); try done.
    + by rewrite Hw.
    + apply lookup_insert_eq.
    + unfold is_Command, s1. by rewrite !class_of_update.
    + simpl. unfold s1. rewrite !attr_update_other by (by right). by rewrite Hnext.
    + lia.
  - apply attr_update_same. unfold s1. by apply heap_update_is_Some, heap_update_is_Some.
  - unfold update_attr. destruct (heap _ !! d); cbn [trace set_heap called set_world set_trace];
      unfold s1, update_attr; by repeat destruct (heap _ !! d).
Qed.

(** X4.  [setNextOption] does not check what it is given: with a
    [nextCommand] that is not a Command it returns normally, and the
    TypeError of [setNext] comes later, from the [is_complete()] in which the
    supplier first returns True, after the suppliers have been called. *)
Theorem setNextOption_accepts_what_is_complete_rejects fuel s d cs ty m cmd c w1 w2 :
  attr s d "conditions" = Some (VList (VFun <$> cs)) ->
  attr s d "command_condition_pairs" = Some (VDict ty m) ->
  is_Command s cmd = false ->
  calls_false cs (world s) = Some w1 -> call_u c w1 = (true, w2) ->
  exists s1,
    DynamicCommand_setNextOption (VRef d) cmd (VFun c) s = Ret tt s1 /\
    DynamicCommand_is_complete fuel (VRef d) s1 =
      Raise (TypeError "next_command must be an instance of Command")
            (called (cs ++ [c]) w2 s1).
Proof.
  intros Hl Hm Hcmd Hcs Hc. pose proof (attr_is_Some_heap _ _ _ _ Hl) as Hheap.
  set (s1 := update_attr d "command_condition_pairs" (VDict ty (<[KFun c := cmd]> m))
               (update_attr d "conditions" (VList ((VFun <$> cs) ++ [VFun c])) s)).
  assert (attr s1 d "conditions" = Some (VList (VFun <$> (cs ++ [c] ++ [])))) as Hl1.
  { unfold s1. rewrite attr_update_other by (by right). rewrite app_nil_r, fmap_app.
    by apply attr_update_same. }
  assert (attr s1 d "command_condition_pairs" = Some (VDict ty (<[KFun c := cmd]> m))) as Hm1.
  { unfold s1. apply attr_update_same. by apply heap_update_is_Some. }
  assert (world s1 = world s) as Hw by (unfold s1; by rewrite !world_update).
  exists s1. split; [by apply DynamicCommand_setNextOption_run|].
  rewrite (DynamicCommand_is_complete_run fuel d cs c [] s1 w1 w2 ty (<[KFun c := cmd]> m) cmd);
    try done; [|by rewrite Hw|apply lookup_insert_eq].
  unfold bind at 1. unfold Command_setNext.
  rewrite (bind_Ret _ _ _ _ _ (isinstance_Command_run _ _)).
  rewrite is_Command_called. unfold is_Command, s1. rewrite !class_of_update.
  unfold is_Command in Hcmd. by rewrite Hcmd.
Qed.

Ltac attr_go :=
  repeat first
    [ rewrite attr_update_same by (repeat apply heap_update_is_Some; eassumption)
    | rewrite attr_update_other by (right; discriminate) ].

Ltac setattr_go :=
  repeat first
    [ rewrite setattr_update by (repeat apply heap_update_is_Some; eassumption)
    | unfold bind at 1 ].

Lemma trace_update a f x s : trace (update_attr a f x s) = trace s.
Proof. unfold update_attr. by destruct (heap s !! a). Qed.

(** ** ParallelCommand *)

Lemma all_complete_false_iff is_complete l s s' :
  all_complete is_complete l s = Ret false s' <->
  exists pre v post s0,
    l = pre ++ v :: post /\ reports_all is_complete pre s s0 /\
    is_complete v s0 = Ret false s'.
Proof.
  revert s. induction l as [|v l IH]; intros s; simpl.
  - split; [done|]. intros (pre & v & post & s0 & Hl & _). by destruct pre.
  - unfold bind. split.
    + destruct (is_complete v s) as [[] s1| |] eqn:E; try done.
      * intros (pre & u & post & s0 & -> & Hpre & Hu)%IH.
        exists (v :: pre), u, post, s0. split; [done|]. split; [|done].
        by econstructor.
      * intros [= <-]. exists [], v, l, s. split; [done|]. split; [constructor|done].
    + intros (pre & u & post & s0 & Hl & Hpre & Hu). destruct pre as [|v' pre].
      * injection Hl as <- <-. inversion Hpre; subst. by rewrite Hu.
      * injection Hl as <- ->. inversion Hpre as [|? ? ? s1 ? Hv Hrest]; subst.
        rewrite Hv. apply IH. eauto 10.
Qed.

Lemma Command_is_complete_Parallel fuel s p l :
  class_of s (VRef p) = Some ParallelCommand ->
  attr s p "commands" = Some (VList l) ->
  Command_is_complete (S fuel) (VRef p) s = all_complete (Command_is_complete fuel) l s.
Proof.
  intros Hc Hl. simpl. unfold bind at 1. unfold method_of. rewrite Hc. cbn [is_Command_class].
  unfold ParallelCommand_is_complete.
  rewrite (bind_Ret _ _ _ _ _ (getattr_attr _ _ _ _ Hl)). by unfold bind at 1.
Qed.


Lemma for_each_cons {A} (x : A) l (body : A -> M unit) :
  for_each (x :: l) body = (body x ;;; for_each l body).
Proof. done. Qed.

Lemma first_run_loop fuel s addrs :
  NoDup addrs ->
  Forall (fun a => exists c k, class_of s (VRef a) = Some c /\ behavior_of c = Some k /\
                               attr s a "first_run_occurred" = Some (VBool false)) addrs ->
  exists s', for_each (VRef <$> addrs) (Command_first_run (S fuel)) s = Ret tt s' /\
             trace s' = trace s ++ (FirstRunBehavior <$> addrs) /\
             Forall (fun a => attr s' a "first_run_occurred" = Some (VBool true)) addrs /\
             (forall b f, b ∉ addrs -> attr s' b f = attr s b f) /\
             (forall v, class_of s' v = class_of s v).
Proof.
  revert s. induction addrs as [|a rest IH]; intros s Hnd Hall.
  - exists s. simpl. rewrite app_nil_r. by repeat split.
  - apply NoDup_cons in Hnd as [Ha Hnd].
    apply Forall_cons in Hall as [(c & k & Hc & Hk & Hf) Hall].
    pose proof (class_is_Some_heap _ _ _ Hc) as Hheap.
    set (s1 := update_attr a "first_run_occurred" (VBool true)
                 (set_world (first_run_behavior_u k (world s))
                    (set_trace (trace s ++ [FirstRunBehavior a]) s))).
    assert (forall v, class_of s1 v = class_of s v) as Hcls1
      by (intros v; unfold s1; by rewrite class_of_update).
    assert (forall b f, b <> a -> attr s1 b f = attr s b f) as Hframe1.
    { intros b f Hb. unfold s1. by rewrite attr_update_other by (left; congruence). }
    destruct (IH s1) as (s' & Hrun & Htr & Hflags & Hframe & Hcls); [done| |].
    { apply Forall_forall. intros b Hb.
      destruct (proj1 (Forall_forall _ _) Hall b Hb) as (cb & kb & Hcb & Hkb & Hfb).
      exists cb, kb. rewrite Hcls1, Hframe1; [done|]. intros ->. done. }
    exists s'. split; [|split; [|split; [|split]]].
    + rewrite fmap_cons, for_each_cons. unfold bind at 1.
      rewrite (Command_first_run_user fuel s a c k (VBool false) Hc Hk Hf eq_refl).
      fold s1. exact Hrun.
    + rewrite Htr. unfold s1. rewrite trace_update. cbn [trace set_world set_trace].
      csimpl. by rewrite <- app_assoc.
    + constructor; [|done]. rewrite Hframe by done. unfold s1. by apply attr_update_same.
    + intros b f Hb. apply not_elem_of_cons in Hb as [Hba Hb].
      rewrite Hframe by done. by apply Hframe1.
    + intros v. by rewrite Hcls, Hcls1.
Qed.

(** X6.  [first_run()] of a ParallelCommand whose children are distinct
    user commands that did not run yet: the [first_run_behavior] of every
    child runs once, in list order, the flag [first_run_occurred] of the
    parent and of every child is True afterwards, and a second [first_run()]
    of the parent changes nothing. *)
Theorem ParallelCommand_first_run_fans_out fuel s p addrs :
  class_of s (VRef p) = Some ParallelCommand ->
  attr s p "first_run_occurred" = Some (VBool false) ->
  attr s p "commands" = Some (VList (VRef <$> addrs)) ->
  NoDup addrs ->
  Forall (fun a => exists c k, class_of s (VRef a) = Some c /\ behavior_of c = Some k /\
                               attr s a "first_run_occurred" = Some (VBool false)) addrs ->
  exists s', Command_first_run (S (S fuel)) (VRef p) s = Ret tt s' /\
             trace s' = trace s ++ (FirstRunBehavior <$> addrs) /\
             Forall (fun a => attr s' a "first_run_occurred" = Some (VBool true)) (p :: addrs) /\
             Command_first_run (S (S fuel)) (VRef p) s' = Ret tt s'.
Proof.
  intros Hc Hflag Hl Hnd Hall.
  destruct (first_run_loop fuel s addrs Hnd Hall) as (s1 & Hrun & Htr & Hflags & Hframe & Hcls).
  assert (p ∉ addrs) as Hp.
  { intros Hin. destruct (proj1 (Forall_forall _ _) Hall p Hin) as (c & k & Hc' & Hk & _).
    rewrite Hc in Hc'. injection Hc' as <-. done. }
  assert (is_Some (heap s1 !! p)) as Hheap.
  { apply (class_is_Some_heap s1 p ParallelCommand). by rewrite Hcls. }
  set (s2 := update_attr p "first_run_occurred" (VBool true) s1).
  set (s3 := update_attr p "first_run_occurred" (VBool true) s2).
  exists s3. split; [|split; [|split]].
  - change (Command_first_run (S (S fuel)) (VRef p) s) with
      ((c <- method_of is_Command_class "first_run" (VRef p) ;;
        occurred <- getattr (VRef p) "first_run_occurred" ;;
        if negb (truthy occurred) then
          match c with
          | UserCommand k | UserDynamicCommand k =>
              emit_at FirstRunBehavior (VRef p) ;;;
              in_world (fun w => (tt, first_run_behavior_u k w))
          | ParallelCommand =>
              ParallelCommand_first_run_behavior (Command_first_run (S fuel)) (VRef p)
          | DelayCommand => DelayCommand_first_run_behavior (VRef p)
          | _ => ret tt
          end ;;;
          setattr (VRef p) "first_run_occurred" (VBool true)
        else ret tt) s).
    unfold bind at 1. unfold method_of. rewrite Hc. cbn [is_Command_class].
    rewrite (bind_Ret _ _ _ _ _ (getattr_attr _ _ _ _ Hflag)). cbn [truthy negb].
    unfold bind at 1. unfold ParallelCommand_first_run_behavior.
    rewrite (bind_Ret _ _ _ _ _ (getattr_attr _ _ _ _ Hl)).
    unfold bind at 1. unfold iterate, ret at 1.
    unfold bind at 1. rewrite Hrun.
    rewrite (setattr_update _ _ _ _ Hheap). fold s2.
    apply setattr_update. by apply heap_update_is_Some.
  - unfold s3, s2. by rewrite !trace_update.
  - constructor.
    + unfold s3. apply attr_update_same. by apply heap_update_is_Some.
    + eapply Forall_impl; [exact Hflags|]. intros a Ha. cbv beta in *.
      destruct (decide (a = p)) as [->|Hne].
      * unfold s3. apply attr_update_same. by apply heap_update_is_Some.
      * unfold s3, s2. by rewrite !attr_update_other by (left; congruence).
  - apply (Command_first_run_again (S fuel) s3 (VRef p) ParallelCommand (VBool true)); try done.
    + unfold s3, s2. by rewrite !class_of_update, Hcls.
    + apply getattr_attr. unfold s3. apply attr_update_same. by apply heap_update_is_Some.
Qed.

(** ** DelayCommand *)

Lemma Command_is_complete_Delay fuel s d :
  class_of s (VRef d) = Some DelayCommand ->
  Command_is_complete (S fuel) (VRef d) s = DelayCommand_is_complete (VRef d) s.
Proof. intros Hc. simpl. unfold bind at 1. unfold method_of. by rewrite Hc. Qed.

(** X7.  A DelayCommand just constructed has [start_time] None and
    [first_run_occurred] False; asked [is_complete()] before its first run it
    raises TypeError, the subtraction having None as operand, and changes
    nothing. *)
Theorem DelayCommand_is_complete_before_first_run_raises fuel s d delay ta name ty m u :
  class_of s (VRef d) = Some DelayCommand ->
  attr s ta "message" = Some (VDict ty m) -> m !! KStr "Unix" = Some u ->
  exists s1,
    DelayCommand_init (VRef d) delay (VRef ta) name s = Ret tt s1 /\
    attr s1 d "start_time" = Some VNone /\
    attr s1 d "first_run_occurred" = Some (VBool false) /\
    Command_is_complete (S fuel) (VRef d) s1 =
      Raise (TypeError "unsupported operand type(s) for -") s1.
Proof.
  intros Hc Hm Hu. pose proof (class_is_Some_heap _ _ _ Hc) as Hheap.
  eexists. split.
  { unfold DelayCommand_init, Command_init. setattr_go. done. }
  split; [by attr_go|]. split; [by attr_go|].
  rewrite Command_is_complete_Delay by (by rewrite !class_of_update).
  unfold DelayCommand_is_complete.
  unfold bind at 1. rewrite (getattr_attr _ d "timer_subsystem" (VRef ta)) by (by attr_go).
  unfold bind at 1. rewrite (getattr_attr _ ta "message" (VDict ty m)) by (by attr_go).
  unfold bind at 1. unfold getitem, as_key. unfold bind at 1. unfold ret at 1. rewrite Hu.
  unfold ret at 1.
  unfold bind at 1. rewrite (getattr_attr _ d "start_time" VNone) by (by attr_go).
  unfold bind at 1. unfold py_sub. by destruct u.
Qed.

(** X8.  [first_run()] of a DelayCommand captures the reading
    [timer.message["Unix"]] as [start_time].  When the topic's reading has
    moved on, another [first_run()] does not capture it again, and
    [is_complete()] answers whether the new reading less the captured one is
    at least the delay. *)
Theorem DelayCommand_measures_from_first_run fuel s d ta x ty m u delay ty' m' u' :
  class_of s (VRef d) = Some DelayCommand ->
  attr s d "first_run_occurred" = Some x -> truthy x = false ->
  attr s d "timer_subsystem" = Some (VRef ta) ->
  attr s d "delay_time" = Some (VNum delay) ->
  attr s ta "message" = Some (VDict ty m) -> m !! KStr "Unix" = Some (VNum u) ->
  m' !! KStr "Unix" = Some (VNum u') ->
  exists s1,
    Command_first_run (S fuel) (VRef d) s = Ret tt s1 /\
    attr s1 d "start_time" = Some (VNum u) /\
    Command_first_run (S fuel) (VRef d) (update_attr ta "message" (VDict ty' m') s1) =
      Ret tt (update_attr ta "message" (VDict ty' m') s1) /\
    Command_is_complete (S fuel) (VRef d) (update_attr ta "message" (VDict ty' m') s1) =
      Ret (fge (fsub u' u) delay) (update_attr ta "message" (VDict ty' m') s1).
Proof.
  intros Hc Hx Ht Htimer Hdelay Hm Hu Hu'.
  pose proof (class_is_Some_heap _ _ _ Hc) as Hheap.
  pose proof (attr_is_Some_heap _ _ _ _ Hm) as Hheapt.
  eexists. split.
  { simpl. unfold bind at 1. unfold method_of. rewrite Hc. cbn [is_Command_class].
    rewrite (bind_Ret _ _ _ _ _ (getattr_attr _ _ _ _ Hx)). rewrite Ht. cbn [negb].
    unfold bind at 1.
    rewrite (DelayCommand_first_run_behavior_run s d ta ty m (VNum u) Htimer Hm Hu).
    apply setattr_update. repeat apply heap_update_is_Some. done. }
  split; [by attr_go|]. split.
  - eapply (Command_first_run_again fuel _ (VRef d) DelayCommand (VBool true)); try done.
    + by rewrite !class_of_update.
    + apply getattr_attr. rewrite attr_update_other by (right; discriminate).
      apply attr_update_same. repeat apply heap_update_is_Some. done.
  - rewrite Command_is_complete_Delay by (by rewrite !class_of_update).
    apply (DelayCommand_is_complete_run _ d ta ty' m').
    + by attr_go.
    + apply attr_update_same. repeat apply heap_update_is_Some. done.
    + done.
    + by attr_go.
    + by attr_go.
Qed.


(** ** Subscriber *)

(** X9.  [store_messages] keeps one message per topic name: of two
    messages stored under the same name the later is the one held, what is
    held under every other name stays, and nothing but the subscriber's
    [messages] is written. *)
Theorem Subscriber_store_messages_last_wins s a n m1 m2 :
  can_store s (VRef a) = true ->
  exists s1 s2,
    Subscriber_store_messages (VRef a) (VStr n) m1 s = Ret tt s1 /\
    Subscriber_store_messages (VRef a) (VStr n) m2 s1 = Ret tt s2 /\
    stored_message s2 (VRef a) n = Some m2 /\
    (forall n', n' <> n -> stored_message s2 (VRef a) n' = stored_message s (VRef a) n') /\
    (forall b f, b <> a \/ f <> "messages" -> attr s2 b f = attr s b f).
Proof.
  intros Hs.
  destruct (Subscriber_store_messages_run s a n m1 Hs) as (ty & m & Hm & Hrun1).
  pose proof (attr_is_Some_heap _ _ _ _ Hm) as Hheap.
  set (s1 := update_attr a "messages" (VDict ty (<[KStr n := m1]> m)) s) in *.
  assert (can_store s1 (VRef a) = true) as Hs1 by (by apply can_store_update_messages).
  destruct (Subscriber_store_messages_run s1 a n m2 Hs1) as (ty' & m' & Hm' & Hrun2).
  unfold s1 in Hm'. rewrite attr_update_same in Hm' by done. injection Hm' as <- <-.
  eexists _, _. split; [exact Hrun1|]. split; [exact Hrun2|]. split; [|split].
  - apply stored_message_update_same. by apply heap_update_is_Some.
  - intros n' Hn'. simpl. rewrite attr_update_same by (by apply heap_update_is_Some).
    rewrite Hm. rewrite !lookup_insert_ne; [done|congruence..].
  - intros b f Hne. unfold s1. rewrite !attr_update_other; [done|..];
      destruct Hne; [by left|by right|by left|by right].
Qed.

(** X10.  [Subscriber.periodic] of a user subscriber that does not
    override [subscriber_periodic_sim]: whatever [is_sim] holds, what runs is
    the user's [subscriber_periodic], once, on the messages stored. *)
Theorem Subscriber_periodic_sim_defaults_to_live s a k sim msgs :
  class_of s (VRef a) = Some (UserSubscriber k) ->
  subscriber_periodic_sim_u k = None ->
  attr s a "is_sim" = Some sim -> attr s a "messages" = Some msgs ->
  Subscriber_periodic (VRef a) s =
    Ret tt (set_world (subscriber_periodic_u k msgs (world s))
              (set_trace (trace s ++ [SubscriberPeriodic a false]) s)).
Proof.
  intros Hc Hnone Hsim Hmsgs. unfold Subscriber_periodic.
  unfold bind at 1. unfold method_of. rewrite Hc. cbn [is_Subscriber_class].
  rewrite (bind_Ret _ _ _ _ _ (getattr_attr _ _ _ _ Hsim)).
  assert (Subscriber_subscriber_periodic (UserSubscriber k) (VRef a) s =
            Ret tt (set_world (subscriber_periodic_u k msgs (world s))
                      (set_trace (trace s ++ [SubscriberPeriodic a false]) s))) as Hlive.
  { unfold Subscriber_subscriber_periodic. unfold bind at 1. unfold emit_at, emit.
    unfold bind at 1. rewrite (getattr_attr _ a _ msgs) by (by rewrite attr_set_trace).
    done. }
  destruct (truthy sim); [|done].
  unfold Subscriber_subscriber_periodic_sim. by rewrite Hnone.
Qed.

(** ** Topic *)

Lemma Topic_add_subscriber_run s ta subs sub :
  attr s ta "subscribers" = Some (VList subs) ->
  Topic_add_subscriber (VRef ta) sub s =
    Ret tt (update_attr ta "subscribers" (VList (subs ++ [sub])) s).
Proof.
  intros Hsubs. unfold Topic_add_subscriber.
  rewrite (bind_Ret _ _ _ _ _ (getattr_attr _ _ _ _ Hsubs)).
  unfold bind at 1. unfold iterate, ret at 1.
  apply setattr_update. by eapply attr_is_Some_heap.
Qed.

(** X11.  [add_subscriber] appends to the topic's list without looking
    whether the subscriber is there already, and the next
    [notify_subscribers(msg)] stores [msg] under the topic's name in every
    subscriber of the list, the old ones and the new one. *)
Theorem add_subscriber_then_notify_reaches_all s ta n subs sub msg :
  name_of s (VRef ta) = Some n ->
  attr s ta "subscribers" = Some (VList subs) ->
  Forall (fun v => can_store s v = true) (subs ++ [sub]) ->
  exists s1 s2,
    Topic_add_subscriber (VRef ta) sub s = Ret tt s1 /\
    attr s1 ta "subscribers" = Some (VList (subs ++ [sub])) /\
    Topic_notify_subscribers (VRef ta) msg s1 = Ret tt s2 /\
    Forall (fun v => stored_message s2 v n = Some msg) (subs ++ [sub]) /\
    attr s2 ta "subscribers" = Some (VList (subs ++ [sub])).
Proof.
  intros Hn Hsubs Hall. pose proof (attr_is_Some_heap _ _ _ _ Hsubs) as Hheap.
  set (s1 := update_attr ta "subscribers" (VList (subs ++ [sub])) s).
  assert (attr s1 ta "subscribers" = Some (VList (subs ++ [sub]))) as Hsubs1
    by (by apply attr_update_same).
  destruct (Topic_notify_subscribers_run s1 ta n msg (subs ++ [sub])) as (s2 & Hrun & Hsame & Hst).
  - simpl. unfold s1. rewrite attr_update_other by (by right). exact Hn.
  - exact Hsubs1.
  - eapply Forall_impl; [exact Hall|]. intros v Hv. unfold s1.
    by rewrite can_store_update_other.
  - exists s1, s2. split; [by apply Topic_add_subscriber_run|]. split; [done|].
    split; [done|]. split; [done|]. destruct Hsame as (Ha & _). by rewrite Ha.
Qed.

(** X12.  [add_subscriber] does not check what it is given: with
    something that is not a Subscriber it returns normally, and the next
    [notify_subscribers] raises AttributeError for [store_messages]. *)
Theorem add_subscriber_accepts_what_notify_rejects s ta n sub msg :
  name_of s (VRef ta) = Some n ->
  attr s ta "subscribers" = Some (VList []) ->
  match class_of s sub with Some c => is_Subscriber_class c = false | None => True end ->
  exists s1,
    Topic_add_subscriber (VRef ta) sub s = Ret tt s1 /\
    Topic_notify_subscribers (VRef ta) msg s1 = Raise (AttributeError "store_messages") s1.
Proof.
  intros Hn Hsubs Hc. pose proof (attr_is_Some_heap _ _ _ _ Hsubs) as Hheap.
  set (s1 := update_attr ta "subscribers" (VList [sub]) s).
  exists s1. split; [by apply (Topic_add_subscriber_run s ta [] sub)|].
  unfold Topic_notify_subscribers.
  rewrite (bind_Ret _ _ _ _ _ (getattr_attr s1 ta _ _ (attr_update_same _ _ _ _ Hheap))).
  unfold bind at 1. unfold iterate, ret at 1. rewrite for_each_cons.
  unfold bind at 1. unfold bind at 1. rewrite (name_of_getattr s1 (VRef ta) n).
  2:{ simpl. unfold s1. rewrite attr_update_other by (by right). exact Hn. }
  unfold Subscriber_store_messages. unfold bind at 1. unfold method_of.
  unfold s1. rewrite class_of_update.
  destruct (class_of s sub) as [c|]; [by rewrite Hc|done].
Qed.

(** X13.  [publish_periodic] of a user topic whose
    [generate_messages_periodic] returns something that is not exactly a dict:
    the TypeError of [Message] is raised after the topic's times and
    [message_body] were written, and no subscriber was handed anything. *)
Theorem Topic_publish_periodic_refuses_other_bodies s ta k prev msgs body w' :
  class_of s (VRef ta) = Some (UserTopic k) ->
  attr s ta "_Topic__previous_time" = Some (VNum prev) ->
  attr s ta "messages" = Some msgs ->
  generate_messages_periodic_u k msgs (world s) = (body, w') ->
  type_is_dict body = false ->
  exists s',
    Topic_publish_periodic (VRef ta) s = Raise (TypeError "Message must be a dictionary") s' /\
    (forall a, attr s' a "messages" = attr s a "messages") /\
    attr s' ta "message_body" = Some body /\
    attr s' ta "_Topic__previous_time" = Some (VNum (clock s (reads s))) /\
    world s' = w' /\ reads s' = S (reads s).
Proof.
  intros Hc Hprev Hmsgs Hgen Hdict.
  pose proof (class_is_Some_heap _ _ _ Hc) as Hheap.
  remember (clock s (reads s)) as now eqn:Enow.
  remember (set_reads (S (reads s)) s) as s1 eqn:E1.
  remember (update_attr ta "_Topic__current_time" (VNum now) s1) as u1 eqn:Eu1.
  remember (update_attr ta "delta_time_seconds" (VNum (fsub now prev)) u1) as u2 eqn:Eu2.
  remember (set_world w' (set_trace (trace u2 ++ [Generate ta]) u2)) as g eqn:Eg.
  remember (update_attr ta "message_body" body g) as u3 eqn:Eu3.
  remember (update_attr ta "_Topic__previous_time" (VNum now) u3) as u4 eqn:Eu4.
  assert (forall a f, attr s1 a f = attr s a f) as A1 by (by subst s1).
  assert (forall a f, attr g a f = attr u2 a f) as Ag by (by subst g).
  assert (forall v, class_of s1 v = class_of s v) as C1 by (by subst s1).
  assert (is_Some (heap s1 !! ta)) as H1 by (by subst s1).
  assert (is_Some (heap u1 !! ta)) as H2 by (subst u1; by apply heap_update_is_Some).
  assert (is_Some (heap u2 !! ta)) as H2' by (subst u2; by apply heap_update_is_Some).
  assert (is_Some (heap g !! ta)) as H3 by (by subst g).
  assert (is_Some (heap u3 !! ta)) as H4 by (subst u3; by apply heap_update_is_Some).
  exists u4. split; [|split; [|split; [|split; [|split]]]].
  - unfold Topic_publish_periodic.
    unfold bind at 1. unfold method_of. rewrite Hc. cbn [is_Topic_class].
    unfold bind at 1. unfold time_time at 1. rewrite <- Enow, <- E1.
    unfold bind at 1. rewrite (setattr_update s1 _ _ _ H1), <- Eu1.
    unfold bind at 1. rewrite (getattr_attr u1 ta _ (VNum prev)).
    2:{ subst u1. attr_go. by rewrite A1. }
    unfold bind at 1. unfold py_sub, ret at 1.
    unfold bind at 1. rewrite (setattr_update u1 _ _ _ H2), <- Eu2.
    unfold bind at 1. unfold Topic_generate_messages_periodic.
    unfold bind at 1. unfold method_of.
    replace (class_of u2 (VRef ta)) with (Some (UserTopic k))
      by (subst u2 u1; by rewrite !class_of_update, C1).
    cbn [is_Topic_class]. unfold bind at 1. unfold emit_at, emit.
    unfold bind at 1. rewrite (getattr_attr _ ta _ msgs).
    2:{ rewrite attr_set_trace, <- Hmsgs, <- A1. subst u2 u1. by attr_go. }
    unfold in_world. cbn [world set_trace set_world].
    replace (world u2) with (world s)
      by (subst u2 u1 s1; by rewrite !world_update).
    rewrite Hgen, <- Eg.
    unfold bind at 1. rewrite (setattr_update g _ _ _ H3), <- Eu3.
    unfold bind at 1. rewrite (getattr_attr u3 ta _ (VNum now)).
    2:{ subst u3. attr_go. rewrite Ag. subst u2. attr_go. subst u1. by apply attr_update_same. }
    unfold bind at 1. rewrite (setattr_update u3 _ _ _ H4), <- Eu4.
    unfold bind at 1. rewrite (getattr_attr u4 ta _ body).
    2:{ subst u4. attr_go. subst u3. by apply attr_update_same. }
    unfold bind at 1. by rewrite Message_run, Hdict.
  - intros a. subst u4 u3. rewrite !attr_update_other by (right; discriminate).
    rewrite Ag. subst u2 u1. rewrite !attr_update_other by (right; discriminate). apply A1.
  - subst u4. attr_go. subst u3. by apply attr_update_same.
  - subst u4. by apply attr_update_same.
  - subst u4 u3. rewrite !world_update. by subst g.
  - subst u4 u3. rewrite !reads_update. subst g. cbn [reads set_world set_trace].
    subst u2 u1. rewrite !reads_update. by subst s1.
Qed.

(** ** SystemTimeTopic *)

Lemma setitem_run ty m k x s :
  setitem (VDict ty m) (VStr k) x s = Ret (VDict ty (<[KStr k := x]> m)) s.
Proof. done. Qed.

(** One call of [generate_messages_periodic]: the reading taken, the time
    the delta is measured from, and the dictionary kept in [message]. *)
Lemma SystemTimeTopic_generate_run s ta occurred ty m prev :
  attr s ta "has_periodic_call_occurred" = Some occurred ->
  attr s ta "message" = Some (VDict ty m) ->
  attr s ta "previous_time" = Some (VNum prev) ->
  let first := negb (truthy occurred) in
  let from := if first then clock s (reads s) else prev in
  let now := clock s (if first then S (reads s) else reads s) in
  let body := VDict ty (<[KStr "DeltaTimeSeconds" := VNum (fsub now from)]>
                          (<[KStr "Unix" := VNum now]> m)) in
  exists s',
    SystemTimeTopic_generate_messages_periodic (VRef ta) s = Ret body s' /\
    attr s' ta "message" = Some body /\
    attr s' ta "previous_time" = Some (VNum now) /\
    (exists x, attr s' ta "has_periodic_call_occurred" = Some x /\ truthy x = true) /\
    clock s' = clock s /\
    reads s' = (if first then S (S (reads s)) else S (reads s)).
Proof.
  intros Hocc Hmsg Hprev first from now body.
  pose proof (attr_is_Some_heap _ _ _ _ Hmsg) as Hheap.
  unfold SystemTimeTopic_generate_messages_periodic.
  rewrite (bind_Ret _ _ _ _ _ (getattr_attr _ _ _ _ Hocc)).
  destruct (truthy occurred) eqn:Ht; cbn [negb] in *.
  - unfold bind at 1. unfold ret at 1.
    unfold bind at 1. unfold time_time at 1.
    remember (set_reads (S (reads s)) s) as s1 eqn:E1.
    assert (forall a f, attr s1 a f = attr s a f) as A1 by (by subst s1).
    assert (is_Some (heap s1 !! ta)) as H1 by (by subst s1).
    unfold bind at 1. rewrite (getattr_attr s1 ta _ (VDict ty m)) by (by rewrite A1).
    unfold bind at 1. rewrite setitem_run.
    unfold bind at 1. rewrite setattr_update by done.
    unfold bind at 1.
    rewrite (getattr_attr _ ta "previous_time" (VNum prev)) by (attr_go; by rewrite A1).
    unfold bind at 1. unfold py_sub, ret at 1.
    unfold bind at 1. rewrite (getattr_attr _ ta "message" (VDict ty (<[KStr "Unix" := VNum now]> m)))
      by (by attr_go).
    unfold bind at 1. rewrite setitem_run.
    unfold bind at 1. rewrite setattr_update by (repeat apply heap_update_is_Some; done).
    unfold bind at 1. rewrite setattr_update by (repeat apply heap_update_is_Some; done).
    eexists. split; [apply getattr_attr; by attr_go|].
    split; [by attr_go|]. split; [by attr_go|]. split.
    { exists occurred. split; [|done]. attr_go. by rewrite A1. }
    rewrite !clock_update, !reads_update. by subst s1.
  - unfold bind at 1.
    assert (is_Some (heap s !! ta)) as H0 by done.
    unfold bind at 1. rewrite (setattr_update s _ _ _ H0).
    unfold bind at 1. unfold time_time at 1.
    remember (update_attr ta "has_periodic_call_occurred" (VBool true) s) as s0 eqn:E0.
    assert (is_Some (heap s0 !! ta)) as H0' by (subst s0; by apply heap_update_is_Some).
    remember (set_reads (S (reads s0)) s0) as s1 eqn:E1.
    assert (forall a f, attr s1 a f = attr s0 a f) as A1 by (by subst s1).
    assert (is_Some (heap s1 !! ta)) as H1 by (by subst s1).
    assert (clock s0 = clock s) as Hck by (subst s0; by rewrite clock_update).
    assert (reads s0 = reads s) as Hrd by (subst s0; by rewrite reads_update).
    rewrite (setattr_update s1 _ _ _ H1).
    remember (update_attr ta "previous_time" (VNum (clock s0 (reads s0))) s1) as s2 eqn:E2.
    assert (is_Some (heap s2 !! ta)) as H2 by (subst s2; by apply heap_update_is_Some).
    unfold bind at 1. unfold time_time at 1.
    remember (set_reads (S (reads s2)) s2) as s3 eqn:E3.
    assert (forall a f, attr s3 a f = attr s2 a f) as A3 by (by subst s3).
    assert (is_Some (heap s3 !! ta)) as H3 by (by subst s3).
    assert (clock s2 (reads s2) = now) as Hnow.
    { subst s2. rewrite clock_update, reads_update. subst s1. cbn [clock reads set_reads].
      by rewrite Hck, Hrd. }
    rewrite Hnow.
    unfold bind at 1. rewrite (getattr_attr s3 ta _ (VDict ty m)).
    2:{ rewrite A3. subst s2. attr_go. rewrite A1. subst s0. by attr_go. }
    unfold bind at 1. rewrite setitem_run.
    unfold bind at 1. rewrite setattr_update by done.
    unfold bind at 1.
    rewrite (getattr_attr _ ta "previous_time" (VNum from)).
    2:{ attr_go. rewrite A3. subst s2. unfold from. rewrite Hck, Hrd. by apply attr_update_same. }
    unfold bind at 1. unfold py_sub, ret at 1.
    unfold bind at 1. rewrite (getattr_attr _ ta "message" (VDict ty (<[KStr "Unix" := VNum now]> m)))
      by (by attr_go).
    unfold bind at 1. rewrite setitem_run.
    unfold bind at 1. rewrite setattr_update by (repeat apply heap_update_is_Some; done).
    unfold bind at 1. rewrite setattr_update by (repeat apply heap_update_is_Some; done).
    eexists. split; [apply getattr_attr; by attr_go|].
    split; [by attr_go|]. split; [by attr_go|]. split.
    { exists (VBool true). split; [|done]. attr_go. rewrite A3. subst s2. attr_go.
      rewrite A1. subst s0. by apply attr_update_same. }
    rewrite !clock_update, !reads_update. subst s3. cbn [clock reads set_reads].
    subst s2. rewrite !clock_update, !reads_update. subst s1. cbn [clock reads set_reads].
    by rewrite Hck, Hrd.
Qed.

(** X14.  Two calls in a row of
    [SystemTimeTopic.generate_messages_periodic]: the [DeltaTimeSeconds] that
    the second returns is its [Unix] reading less the [Unix] reading that the
    first returned, and the second call takes one clock reading. *)
Theorem SystemTimeTopic_delta_is_difference_of_readings s ta occurred ty m prev :
  attr s ta "has_periodic_call_occurred" = Some occurred ->
  attr s ta "message" = Some (VDict ty m) ->
  attr s ta "previous_time" = Some (VNum prev) ->
  exists m1 s1 m2 s2 u1 u2,
    SystemTimeTopic_generate_messages_periodic (VRef ta) s = Ret (VDict ty m1) s1 /\
    m1 !! KStr "Unix" = Some (VNum u1) /\
    SystemTimeTopic_generate_messages_periodic (VRef ta) s1 = Ret (VDict ty m2) s2 /\
    m2 !! KStr "Unix" = Some (VNum u2) /\
    m2 !! KStr "DeltaTimeSeconds" = Some (VNum (fsub u2 u1)) /\
    u2 = clock s (reads s1) /\ reads s2 = S (reads s1).
Proof.
  intros Hocc Hmsg Hprev.
  destruct (SystemTimeTopic_generate_run s ta occurred ty m prev Hocc Hmsg Hprev)
    as (s1 & Hrun1 & Hmsg1 & Hprev1 & (x & Hocc1 & Hx) & Hck1 & Hrd1).
  destruct (SystemTimeTopic_generate_run s1 ta x _ _ _ Hocc1 Hmsg1 Hprev1)
    as (s2 & Hrun2 & _ & _ & _ & _ & Hrd2).
  rewrite Hx in Hrun2, Hrd2. cbn [negb] in Hrun2, Hrd2.
  eexists _, s1, _, s2, _, _. split; [exact Hrun1|].
  split; [by rewrite lookup_insert_ne, lookup_insert_eq|].
  split; [exact Hrun2|].
  split; [by rewrite lookup_insert_ne, lookup_insert_eq|].
  split; [by rewrite lookup_insert_eq|]. by rewrite Hck1.
Qed.


(** ** Scheduler.check_topic_name_collision *)

Lemma first_collision_None_iff sns vns lns :
  first_collision sns vns lns = None <->
  NoDup lns /\ (forall n, n ∈ lns -> (n ∉ vns) /\ (n ∉ sns)).
Proof.
  revert vns. induction lns as [|n rest IH]; intros vns; simpl.
  - split; [|done]. intros _. split; [constructor|]. intros n Hn. by apply elem_of_nil in Hn.
  - case_bool_decide as Hv.
    { split; [done|]. intros [_ H]. destruct (H n) as [Hn _]; [by left|]. done. }
    case_bool_decide as Hs.
    { split; [done|]. intros [_ H]. destruct (H n) as [_ Hn]; [by left|]. done. }
    rewrite IH. split.
    + intros [Hnd H]. split.
      * constructor; [|done]. intros Hin. destruct (H n Hin) as [Hn _]. apply Hn.
        apply elem_of_app. right. by left.
      * intros x [-> | Hx]%elem_of_cons; [done|]. destruct (H x Hx) as [Hxv Hxs].
        split; [|done]. intros Hin. apply Hxv. apply elem_of_app. by left.
    + intros [Hnd H]. apply NoDup_cons in Hnd as [Hn Hnd]. split; [done|].
      intros x Hx. destruct (H x) as [Hxv Hxs]; [by right|]. split; [|done].
      rewrite elem_of_app, list_elem_of_singleton. intros [? | ->]; done.
Qed.

(** X15.  For topics and subscribers whose names are strings,
    [check_topic_name_collision] returns exactly when the names of the topics
    are pairwise different and none of them is the name of a subscriber;
    otherwise it raises a RuntimeError that reports a collision.  It changes
    nothing either way. *)
Theorem check_topic_name_collision_passes_iff s tns sns :
  Forall2 (fun v n => name_of s v = Some n) (topics (scheduler s)) tns ->
  Forall2 (fun v n => name_of s v = Some n) (subscribers (scheduler s)) sns ->
  (Scheduler_check_topic_name_collision s = Ret tt s <->
   NoDup tns /\ forall n, n ∈ tns -> n ∉ sns) /\
  (Scheduler_check_topic_name_collision s = Ret tt s \/
   exists e, Scheduler_check_topic_name_collision s = Raise (RuntimeError e) s /\
             is_collision e = true).
Proof.
  intros Ht Hs.
  assert (Scheduler_check_topic_name_collision s =
            match first_collision sns [] tns with
            | Some e => Raise (RuntimeError e) s
            | None => Ret tt s
            end) as ->.
  { unfold Scheduler_check_topic_name_collision. unfold bind at 1. unfold get_scheduler.
    cbv beta iota.
    apply (check_collision_loop_run s _ sns [] [] _ tns Hs (Forall2_nil_2 _ _ _) Ht). }
  destruct (first_collision sns [] tns) as [e|] eqn:E.
  - split.
    + split; [done|]. intros [Hnd Hdis].
      assert (first_collision sns [] tns = None) as E'; [|congruence].
      apply first_collision_None_iff. split; [done|]. intros n Hn. split; [|by apply Hdis].
      apply not_elem_of_nil.
    + right. exists e. split; [done|]. by eapply first_collision_is_collision.
  - split; [|by left]. split; [|done]. intros _.
    apply first_collision_None_iff in E as [Hnd H]. split; [done|]. intros n Hn.
    by destruct (H n Hn).
Qed.

(** ** Scheduler.add_topics *)

Lemma Scheduler_add_topics_run args s :
  Scheduler_add_topics args s =
    Ret tt (set_scheduler (with_topics (topics (scheduler s) ++ args) (scheduler s)) s).
Proof.
  unfold Scheduler_add_topics. revert s. induction args as [|t rest IH]; intros s.
  - simpl. rewrite app_nil_r. by destruct s as [[]].
  - rewrite for_each_cons. unfold bind at 1. unfold modify_scheduler at 1.
    rewrite IH. destruct s as [[]]. cbn. by rewrite <- app_assoc.
Qed.

(** X16.  [add_topics] appends its arguments in order and keeps
    duplicates; a topic that is in the scheduler's list twice collides with
    itself, so that [check_topic_name_collision] raises. *)
Theorem topic_added_twice_is_a_name_collision s args :
  Forall (fun v => is_Some (name_of s v)) (topics (scheduler s) ++ args) ->
  Forall (fun v => is_Some (name_of s v)) (subscribers (scheduler s)) ->
  ~ NoDup (topics (scheduler s) ++ args) ->
  exists e s1,
    Scheduler_add_topics args s = Ret tt s1 /\
    topics (scheduler s1) = topics (scheduler s) ++ args /\
    Scheduler_check_topic_name_collision s1 = Raise (RuntimeError e) s1 /\
    is_collision e = true.
Proof.
  intros Ht Hs Hdup.
  set (s1 := set_scheduler (with_topics (topics (scheduler s) ++ args) (scheduler s)) s).
  destruct (names_exist s1 (topics (scheduler s) ++ args) Ht) as (tns & Htns & Htns').
  destruct (names_exist s1 (subscribers (scheduler s)) Hs) as (sns & Hsns & _).
  destruct (first_collision_finds sns [] tns) as [e He].
  { right. left. intros Hnd. apply Hdup.
    apply (NoDup_fmap_1 (name_of s1)). rewrite Htns'. by apply (NoDup_fmap_2 _). }
  exists e, s1. split; [apply Scheduler_add_topics_run|]. split; [done|].
  split; [|by eapply first_collision_is_collision].
  unfold Scheduler_check_topic_name_collision. unfold bind at 1. unfold get_scheduler.
  cbv beta iota.
  rewrite (check_collision_loop_run s1 (subscribers (scheduler s1)) sns [] []
             (topics (scheduler s1)) tns Hsns (Forall2_nil_2 _ _ _) Htns).
  by rewrite He.
Qed.

(** ** Scheduler.periodic in simulation mode *)

(** X17.  In simulation mode a tick takes its time from the log: when
    [initialize()] did not run ([time_stamps] is None) [periodic()] raises
    AttributeError for [pop], and when the log is used up it raises
    IndexError; in both cases nothing happened but one clock reading. *)
Theorem replay_tick_without_time_stamp_raises fuel s :
  is_sim (scheduler s) = true ->
  time_stamps (scheduler s) = None \/ time_stamps (scheduler s) = Some [] ->
  Scheduler_periodic fuel s =
    Raise (match time_stamps (scheduler s) with
           | None => AttributeError "pop"
           | Some _ => IndexError
           end) (set_reads (S (reads s)) s).
Proof.
  intros Hsim Hstamps. unfold Scheduler_periodic.
  unfold bind at 1. unfold time_time at 1. cbv iota beta.
  unfold bind at 1. unfold get_scheduler at 1. cbv iota beta.
  change (scheduler (set_reads _ s)) with (scheduler s). rewrite Hsim.
  unfold bind at 1. unfold pop_time_stamp. unfold bind at 1. unfold get_scheduler at 1.
  cbv iota beta. change (scheduler (set_reads _ s)) with (scheduler s).
  by destruct Hstamps as [-> | ->].
Qed.

(** X18.  In simulation mode, for a topic marked
    [replace_message_with_log]: when the logged tick has no entry under the
    topic's name the scheduler raises KeyError, and when the logged body is
    not exactly a dict it raises the TypeError of [Message]; nothing was
    published and nothing changed. *)
Theorem replay_of_a_bad_log_entry_raises s ta n flag logged stored :
  is_sim (scheduler s) = true ->
  attr s ta "replace_message_with_log" = Some flag -> truthy flag = true ->
  name_of s (VRef ta) = Some n ->
  match logged !! KStr n with
  | None => True
  | Some (body, _, _) => type_is_dict body = false
  end ->
  Scheduler_publish (Some logged) (VRef ta) stored s =
    Raise (match logged !! KStr n with
           | None => KeyError (KStr n)
           | Some _ => TypeError "Message must be a dictionary"
           end) s.
Proof.
  intros Hsim Hflag Htruthy Hn Hentry. unfold Scheduler_publish.
  unfold bind at 1. unfold get_scheduler at 1. cbv iota beta. rewrite Hsim.
  unfold bind at 1. rewrite (getattr_attr _ _ _ _ Hflag). rewrite Htruthy. cbn [andb].
  unfold bind at 1. rewrite (name_of_getattr _ _ _ Hn).
  unfold bind at 1. unfold as_key at 1. unfold ret at 1. cbv iota beta.
  destruct (logged !! KStr n) as [[[body ct] dt]|]; [|done].
  unfold bind at 1. by rewrite Message_run, Hentry.
Qed.


(** ** What leaves the log alone *)

Lemma same_log_refl s : same_log s s.
Proof. by repeat split. Qed.

Lemma same_log_trans s1 s2 s3 : same_log s1 s2 -> same_log s2 s3 -> same_log s1 s3.
Proof.
  intros (? & ? & ? & ? & ? & ? & ?) (? & ? & ? & ? & ? & ? & ?).
  repeat split; congruence.
Qed.

Lemma same_log_update a f x s : same_log s (update_attr a f x s).
Proof. unfold update_attr. destruct (heap s !! a); by repeat split. Qed.

Lemma keeps_at_bind {A B} (m : M A) (k : A -> M B) s :
  keeps_at m s ->
  (forall x s1, m s = Ret x s1 -> same_log s s1 -> keeps_at (k x) s1) ->
  keeps_at (bind m k) s.
Proof.
  unfold keeps_at, bind. intros Hm Hk. destruct (m s) as [x s1|e s1|]; [|done..].
  specialize (Hk x s1 eq_refl Hm). destruct (k x s1); [| |done]; by eapply same_log_trans.
Qed.

Lemma keeps_bind {A B} (m : M A) (k : A -> M B) :
  keeps m -> (forall x, keeps (k x)) -> keeps (bind m k).
Proof. intros Hm Hk s. apply keeps_at_bind; [apply Hm|]. intros x s1 _ _. apply Hk. Qed.

Lemma keeps_ret {A} (x : A) : keeps (ret x).
Proof. intros s. apply same_log_refl. Qed.

Lemma keeps_raise {A} e : keeps (raise (A := A) e).
Proof. intros s. apply same_log_refl. Qed.

Lemma keeps_out_of_fuel {A} : keeps (out_of_fuel (A := A)).
Proof. by intros s. Qed.

Lemma keeps_emit e : keeps (emit e).
Proof. intros s. by repeat split. Qed.

Lemma keeps_emit_at mk v : keeps (emit_at mk v).
Proof. destruct v; first [apply keeps_emit | apply keeps_ret]. Qed.

Lemma keeps_time_time : keeps time_time.
Proof. intros s. by repeat split. Qed.

Lemma keeps_in_world {A} (f : W -> A * W) : keeps (in_world f).
Proof. intros s. unfold keeps_at, in_world. destruct (f (world s)). by repeat split. Qed.

Lemma keeps_getattr v f : keeps (getattr v f).
Proof.
  intros s. unfold keeps_at, getattr. repeat case_match; simplify_eq; first [done | apply same_log_refl].
Qed.

Lemma keeps_setattr v f x : keeps (setattr v f x).
Proof.
  intros s. unfold keeps_at, setattr. repeat case_match; simplify_eq; first [done | by repeat split].
Qed.

Lemma keeps_method_of has name v : keeps (method_of has name v).
Proof.
  intros s. unfold keeps_at, method_of. repeat case_match; simplify_eq; first [done | apply same_log_refl].
Qed.

Lemma keeps_isinstance_Command v : keeps (isinstance_Command v).
Proof. intros s. apply same_log_refl. Qed.

Lemma keeps_as_key v : keeps (as_key v).
Proof. destruct v; first [apply keeps_ret | apply keeps_raise]. Qed.

Lemma keeps_iterate v : keeps (iterate v).
Proof. destruct v; first [apply keeps_ret | apply keeps_raise]. Qed.

Lemma keeps_py_sub a b : keeps (py_sub a b).
Proof. destruct a, b; first [apply keeps_ret | apply keeps_raise]. Qed.

Lemma keeps_py_ge a b : keeps (py_ge a b).
Proof. destruct a, b; first [apply keeps_ret | apply keeps_raise]. Qed.

Lemma keeps_get_scheduler : keeps get_scheduler.
Proof. intros s. apply same_log_refl. Qed.

Lemma keeps_for_each {A} (l : list A) (body : A -> M unit) :
  (forall x, keeps (body x)) -> keeps (for_each l body).
Proof.
  intros Hbody. induction l as [|x l IH]; [apply keeps_ret|].
  rewrite for_each_cons. apply keeps_bind; [apply Hbody | by intros _].
Qed.

Create HintDb keeps.
#[local] Hint Resolve keeps_ret keeps_raise keeps_out_of_fuel keeps_emit keeps_emit_at
  keeps_time_time keeps_in_world keeps_getattr keeps_setattr keeps_method_of
  keeps_isinstance_Command keeps_as_key keeps_iterate keeps_py_sub keeps_py_ge
  keeps_get_scheduler : keeps.

Ltac keeps_go :=
  repeat first
    [ solve [auto with keeps]
    | apply keeps_bind; [|intros ?]
    | apply keeps_for_each; intros ?
    | match goal with
      | |- keeps (match ?x with _ => _ end) => destruct x
      | |- keeps (let (_, _) := ?x in _) => destruct x
      end ].

Lemma keeps_call f : keeps (call f).
Proof. unfold call. keeps_go. Qed.

Lemma keeps_getitem d k : keeps (getitem d k).
Proof. unfold getitem. keeps_go. Qed.

Lemma keeps_setitem d k x : keeps (setitem d k x).
Proof. unfold setitem. keeps_go. Qed.

Lemma keeps_list_setitem v f i x : keeps (list_setitem v f i x).
Proof. unfold list_setitem. keeps_go. Qed.

Lemma keeps_list_getitem v f i : keeps (list_getitem v f i).
Proof. unfold list_getitem. keeps_go. Qed.

Lemma keeps_Message p : keeps (Message p).
Proof. unfold Message. keeps_go. Qed.

#[local] Hint Resolve keeps_call keeps_getitem keeps_setitem keeps_list_setitem
  keeps_list_getitem keeps_Message : keeps.

Lemma keeps_setNext_walk fuel last next : keeps (setNext_walk fuel last next).
Proof. revert last. induction fuel as [|n IH]; intros last; simpl; keeps_go. Qed.

Lemma keeps_Command_setNext fuel self next : keeps (Command_setNext fuel self next).
Proof. unfold Command_setNext. pose proof (keeps_setNext_walk fuel). keeps_go. Qed.

Lemma keeps_DynamicCommand_conditions fuel self l :
  keeps (DynamicCommand_conditions fuel self l).
Proof.
  pose proof (keeps_Command_setNext fuel self).
  induction l as [|c rest IH]; simpl; keeps_go.
Qed.

Lemma keeps_DynamicCommand_is_complete fuel self : keeps (DynamicCommand_is_complete fuel self).
Proof.
  unfold DynamicCommand_is_complete. pose proof (keeps_DynamicCommand_conditions fuel self).
  keeps_go.
Qed.

Lemma keeps_all_complete is_complete l :
  (forall v, keeps (is_complete v)) -> keeps (all_complete is_complete l).
Proof. intros H. induction l as [|v l IH]; simpl; keeps_go. Qed.

Lemma keeps_DelayCommand_is_complete self : keeps (DelayCommand_is_complete self).
Proof. unfold DelayCommand_is_complete. keeps_go. Qed.

Lemma keeps_DelayCommand_first_run_behavior self : keeps (DelayCommand_first_run_behavior self).
Proof. unfold DelayCommand_first_run_behavior. keeps_go. Qed.

#[local] Hint Resolve keeps_DynamicCommand_is_complete keeps_DelayCommand_is_complete
  keeps_DelayCommand_first_run_behavior : keeps.

Lemma keeps_Command_is_complete fuel self : keeps (Command_is_complete fuel self).
Proof.
  revert self. induction fuel as [|n IH]; intros self; simpl; [apply keeps_out_of_fuel|].
  pose proof (fun l => keeps_all_complete (Command_is_complete n) l IH).
  unfold ParallelCommand_is_complete. keeps_go.
Qed.

Lemma keeps_Command_first_run fuel self : keeps (Command_first_run fuel self).
Proof.
  revert self. induction fuel as [|n IH]; intros self; simpl; [apply keeps_out_of_fuel|].
  unfold ParallelCommand_first_run_behavior. keeps_go.
Qed.

Lemma keeps_ParallelCommand_loop is_complete first_run periodic self i l :
  (forall v, keeps (is_complete v)) -> (forall v, keeps (first_run v)) ->
  (forall v, keeps (periodic v)) ->
  keeps (ParallelCommand_loop is_complete first_run periodic self i l).
Proof.
  intros Hc Hf Hp. revert i. induction l as [|v l IH]; intros i; simpl; [apply keeps_ret|].
  unfold ParallelCommand_step. keeps_go.
Qed.

Lemma keeps_Command_periodic fuel self : keeps (Command_periodic fuel self).
Proof.
  revert self. induction fuel as [|n IH]; intros self; simpl; [apply keeps_out_of_fuel|].
  pose proof (fun self i l => keeps_ParallelCommand_loop _ _ _ self i l
                (keeps_Command_is_complete n) (keeps_Command_first_run n) IH).
  unfold ParallelCommand_periodic, DelayCommand_periodic. keeps_go.
Qed.

Lemma keeps_Subscriber_periodic self : keeps (Subscriber_periodic self).
Proof.
  unfold Subscriber_periodic, Subscriber_subscriber_periodic_sim, Subscriber_subscriber_periodic.
  keeps_go.
Qed.

Lemma keeps_Subscriber_store_messages self n msg : keeps (Subscriber_store_messages self n msg).
Proof. unfold Subscriber_store_messages. keeps_go. Qed.

Lemma keeps_Subscriber_initialize_hardware self : keeps (Subscriber_initialize_hardware self).
Proof. unfold Subscriber_initialize_hardware. keeps_go. Qed.

#[local] Hint Resolve keeps_Subscriber_store_messages : keeps.

Lemma keeps_Topic_notify_subscribers self msg : keeps (Topic_notify_subscribers self msg).
Proof. unfold Topic_notify_subscribers. keeps_go. Qed.

#[local] Hint Resolve keeps_Topic_notify_subscribers : keeps.

Lemma keeps_Topic_generate_messages_periodic self : keeps (Topic_generate_messages_periodic self).
Proof.
  unfold Topic_generate_messages_periodic, SystemTimeTopic_generate_messages_periodic. keeps_go.
Qed.

#[local] Hint Resolve keeps_Topic_generate_messages_periodic : keeps.

Lemma keeps_Topic_publish_periodic self : keeps (Topic_publish_periodic self).
Proof. unfold Topic_publish_periodic. keeps_go. Qed.

Lemma keeps_Topic_publish_periodic_from_log self msg ct dt :
  keeps (Topic_publish_periodic_from_log self msg ct dt).
Proof. unfold Topic_publish_periodic_from_log. keeps_go. Qed.

#[local] Hint Resolve keeps_Topic_publish_periodic keeps_Topic_publish_periodic_from_log : keeps.

Lemma keeps_Scheduler_publish logged topic stored : keeps (Scheduler_publish logged topic stored).
Proof. unfold Scheduler_publish. keeps_go. Qed.

Lemma keeps_Scheduler_publish_all logged l stored : keeps (Scheduler_publish_all logged l stored).
Proof.
  revert stored. induction l as [|t l IH]; intros stored; simpl; [apply keeps_ret|].
  pose proof (keeps_Scheduler_publish logged t). keeps_go.
Qed.

Lemma keeps_modify_root nc : keeps (modify_scheduler (with_root_command nc)).
Proof. intros s. by repeat split. Qed.

Lemma keeps_Scheduler_advance_command fuel : keeps (Scheduler_advance_command fuel).
Proof.
  unfold Scheduler_advance_command.
  pose proof (keeps_Command_is_complete fuel). pose proof keeps_modify_root. keeps_go.
Qed.

Lemma keeps_pop_time_stamp : keeps pop_time_stamp.
Proof.
  unfold pop_time_stamp. keeps_go.
Qed.


(** ** Scheduler.periodic and the log *)

Lemma bind_Ret_inv {A B} (m : M A) (k : A -> M B) s y s' :
  bind m k s = Ret y s' -> exists x s1, m s = Ret x s1 /\ k x s1 = Ret y s'.
Proof. unfold bind. destruct (m s) as [x s1| |]; [eauto|done..]. Qed.

Lemma keeps_Ret {A} (m : M A) s x s' : keeps m -> m s = Ret x s' -> same_log s s'.
Proof. intros K E. specialize (K s). unfold keeps_at in K. by rewrite E in K. Qed.

Lemma returns_only_bind {A B} (Q : A -> Prop) (P : B -> Prop) (m : M A) (k : A -> M B) :
  returns_only Q m -> (forall x, Q x -> returns_only P (k x)) -> returns_only P (bind m k).
Proof.
  intros Hm Hk s y s' (x & s1 & E & E')%bind_Ret_inv. eapply Hk; [|exact E']. by eapply Hm.
Qed.

Lemma returns_only_any {A} (m : M A) : returns_only (fun _ => True) m.
Proof. by intros s x s' _. Qed.

Lemma returns_only_ret {A} (P : A -> Prop) x : P x -> returns_only P (ret x).
Proof. intros HP s y s' [= <- _]. exact HP. Qed.

Lemma returns_only_raise {A} (P : A -> Prop) e : returns_only P (raise e).
Proof. by intros s y s'. Qed.

(** Whatever a topic publishes is recorded: the record of the tick is not
    empty afterwards. *)
Lemma Scheduler_publish_records logged topic stored :
  returns_only (fun stored' => stored' <> ∅) (Scheduler_publish logged topic stored).
Proof.
  unfold Scheduler_publish.
  repeat first
    [ apply returns_only_ret; apply insert_non_empty
    | apply returns_only_raise
    | apply (returns_only_bind (fun _ => True)); [apply returns_only_any|intros ? _]
    | match goal with
      | |- returns_only _ (match ?x with _ => _ end) => destruct x
      | |- returns_only _ (let (_, _) := ?x in _) => destruct x
      end ].
Qed.

Lemma Scheduler_publish_all_records logged l stored :
  l <> [] \/ stored <> ∅ ->
  returns_only (fun stored' => stored' <> ∅) (Scheduler_publish_all logged l stored).
Proof.
  revert stored. induction l as [|t l IH]; intros stored Hne; simpl.
  - apply returns_only_ret. by destruct Hne.
  - eapply returns_only_bind; [apply Scheduler_publish_records|].
    intros stored' Hs. apply IH. by right.
Qed.

(** The part of a tick that comes before the topics are published *)
Lemma keeps_first_run_of_root fuel (c : Scheduler) :
  keeps (if negb (is_None (root_command c)) then
           occured <- getattr (root_command c) "first_run_occured" ;;
           if negb (truthy occured) then Command_first_run fuel (root_command c) else ret tt
         else ret tt).
Proof. pose proof (keeps_Command_first_run fuel). keeps_go. Qed.

Lemma keeps_periodic_of_root fuel (c : Scheduler) :
  keeps (if negb (is_None (root_command c))
         then Command_periodic fuel (root_command c)
         else print "No further command to execute").
Proof. pose proof (keeps_Command_periodic fuel). unfold print. keeps_go. Qed.

(** X19.  A tick of a live scheduler that returns has appended exactly
    one line to the log file when the scheduler has topics, stamped with the
    first clock reading of the tick and holding a non-empty record, the
    earlier lines and the other files being kept; without topics it has
    written nothing.  (The methods of the user's classes act on the user's
    world only.) *)
Theorem live_tick_appends_one_log_line fuel s s' name :
  is_sim (scheduler s) = false ->
  writing_file_name (scheduler s) = Some name ->
  Scheduler_periodic fuel s = Ret tt s' ->
  (topics (scheduler s) = [] /\ files s' = files s) \/
  (topics (scheduler s) <> [] /\
   exists stored, stored <> ∅ /\
     files s' = <[name := default [] (files s !! name) ++
                          [LogTick (clock s (reads s)) stored]]> (files s)).
Proof.
  intros Hsim Hname Hrun. unfold Scheduler_periodic in Hrun.
  apply bind_Ret_inv in Hrun as (now & s0 & E0 & Hrun).
  injection E0 as <- <-.
  apply bind_Ret_inv in Hrun as (c & ? & [= <- <-] & Hrun).
  change (scheduler (set_reads _ s)) with (scheduler s) in Hrun. rewrite Hsim in Hrun.
  apply bind_Ret_inv in Hrun as (? & ? & [= <- <-] & Hrun).
  apply bind_Ret_inv in Hrun as (? & sA & EA & Hrun).
  pose proof (keeps_Ret _ _ _ _ (keeps_first_run_of_root fuel (scheduler s)) EA) as KA.
  apply bind_Ret_inv in Hrun as (? & sB & EB & Hrun).
  pose proof (keeps_Ret _ _ _ _ (keeps_Scheduler_advance_command fuel) EB) as KB.
  apply bind_Ret_inv in Hrun as (c1 & ? & [= <- <-] & Hrun).
  apply bind_Ret_inv in Hrun as (? & sC & EC & Hrun).
  pose proof (keeps_Ret _ _ _ _ (keeps_periodic_of_root fuel (scheduler sB)) EC) as KC.
  pose proof (same_log_trans _ _ _ KA KB) as KAB.
  destruct KAB as (_ & _ & Htop & Hsub & Hsim' & Hname' & _). cbn in Htop, Hsub, Hsim', Hname'.
  rewrite Hsim', Hsim, Hname', Hname, Htop in Hrun.
  apply bind_Ret_inv in Hrun as (? & ? & [= <- <-] & Hrun).
  apply bind_Ret_inv in Hrun as (stored & sD & ED & Hrun).
  pose proof (keeps_Ret _ _ _ _ (keeps_Scheduler_publish_all _ _ _) ED) as KD.
  pose proof (same_log_trans _ _ _ (same_log_trans _ _ _ (same_log_trans _ _ _ KA KB) KC) KD)
    as (HfD & _).
  cbn in HfD.
  apply bind_Ret_inv in Hrun as (? & sE & EE & Hrun).
  apply bind_Ret_inv in Hrun as (? & sF & EF & Hrun).
  pose proof (keeps_Ret _ _ _ _
                (keeps_for_each _ _ keeps_Subscriber_periodic) EF) as (HfF & _).
  pose proof (keeps_Ret _ _ _ _
                (keeps_for_each _ _ keeps_Subscriber_periodic) Hrun) as (Hf' & _).
  cbn [negb andb] in EE.
  destruct (topics (scheduler s)) as [|t l] eqn:Htopics.
  - left. split; [done|]. simpl in ED. injection ED as <- <-.
    rewrite bool_decide_eq_true_2 in EE by done. injection EE as <- <-.
    by rewrite Hf', HfF.
  - right. split; [done|].
    assert (stored <> ∅) as Hne.
    { eapply (Scheduler_publish_all_records None (t :: l) ∅); [by left|exact ED]. }
    exists stored. split; [done|].
    rewrite bool_decide_eq_false_2 in EE by done. injection EE as <- <-.
    rewrite Hf', HfF. cbn [files set_files]. by rewrite HfD.
Qed.



(** ** Scheduler.init_hardware *)

Lemma Subscriber_initialize_hardware_run s a c :
  class_of s (VRef a) = Some c -> is_Subscriber_class c = true ->
  Subscriber_initialize_hardware (VRef a) s =
    match c with
    | UserSubscriber k =>
        Ret (initialize_hardware_u k (world s)).1
            (set_world (initialize_hardware_u k (world s)).2
               (set_trace (trace s ++ [InitializeHardware a]) s))
    | _ => Ret true s
    end.
Proof.
  intros Hc Hsub. unfold Subscriber_initialize_hardware, bind, method_of. rewrite Hc, Hsub.
  destruct c; try done. unfold emit_at, emit, in_world. cbn [world set_trace].
  by destruct (initialize_hardware_u k (world s)).
Qed.

(** The loop of [init_hardware] over subscribers none of which makes it
    raise: each has its [is_sim] set to that of the scheduler, and nothing
    else is written. *)
Lemma init_hardware_loop (c0 : Scheduler) s l :
  Forall (fun v => exists c, class_of s v = Some c /\ is_Subscriber_class c = true /\
            (throw_exception_on_init_failure c0 = true ->
             forall k, c = UserSubscriber k -> forall w, (initialize_hardware_u k w).1 = true)) l ->
  exists s', for_each l (fun sub =>
                success <- Subscriber_initialize_hardware sub ;;
                (if throw_exception_on_init_failure c0 && negb success then
                   name <- getattr sub "name" ;;
                   raise (RuntimeError (HardwareFailed (str_of name)))
                 else ret tt) ;;;
                setattr sub "is_sim" (VBool (is_sim c0))) s = Ret tt s' /\
    steady s s' /\ scheduler s' = scheduler s /\ files s' = files s /\
    (forall b, VRef b ∈ l \/ attr s b "is_sim" = Some (VBool (is_sim c0)) ->
               attr s' b "is_sim" = Some (VBool (is_sim c0))) /\
    (forall b, VRef b ∉ l -> attr s' b "is_sim" = attr s b "is_sim") /\
    (forall b, VRef b ∉ l -> InitializeHardware b ∈ trace s' -> InitializeHardware b ∈ trace s).
Proof.
  revert s. induction l as [|v l IH]; intros s Hl.
  - exists s. split; [done|]. split; [apply steady_refl|]. split; [done|]. split; [done|].
    split; [|done]. intros b [Hb|Hb]; [by apply elem_of_nil in Hb|done].
  - apply Forall_cons in Hl as [(c & Hc & Hsub & Hok) Hl].
    destruct v as [| | | |a| | | |]; try done.
    pose proof (class_is_Some_heap _ _ _ Hc) as Hheap.
    rewrite for_each_cons. unfold bind at 1. unfold bind at 1.
    rewrite (Subscriber_initialize_hardware_run s a c Hc Hsub).
    set (s1 := match c with
               | UserSubscriber k =>
                   set_world (initialize_hardware_u k (world s)).2
                     (set_trace (trace s ++ [InitializeHardware a]) s)
               | _ => s
               end).
    set (ok := match c with
               | UserSubscriber k => (initialize_hardware_u k (world s)).1
               | _ => true
               end).
    assert (throw_exception_on_init_failure c0 && negb ok = false) as Hthrow.
    { destruct (throw_exception_on_init_failure c0); [|done]. unfold ok.
      destruct c; try done. by rewrite (Hok eq_refl k eq_refl). }
    assert (heap s1 = heap s) as Hh1 by (unfold s1; by destruct c).
    assert (scheduler s1 = scheduler s) as Hsch1 by (unfold s1; by destruct c).
    assert (files s1 = files s) as Hf1 by (unfold s1; by destruct c).
    assert (forall b f, attr s1 b f = attr s b f) as Ha1 by (intros; unfold attr; by rewrite Hh1).
    assert (forall v, class_of s1 v = class_of s v) as Hc1
      by (intros []; simpl; by rewrite ?Hh1).
    assert (forall b, InitializeHardware b ∈ trace s1 -> b = a \/ InitializeHardware b ∈ trace s)
      as Ht1.
    { intros b. unfold s1. destruct c; try by right. cbn [trace set_world set_trace].
      rewrite elem_of_app, list_elem_of_singleton. intros [?|[= ->]]; [by right|by left]. }
    set (s2 := update_attr a "is_sim" (VBool (is_sim c0)) s1).
    assert ((match c with
             | UserSubscriber k =>
                 Ret (initialize_hardware_u k (world s)).1
                   (set_world (initialize_hardware_u k (world s)).2
                      (set_trace (trace s ++ [InitializeHardware a]) s))
             | _ => Ret true s
             end) = Ret ok s1) as -> by (unfold ok, s1; by destruct c).
    rewrite Hthrow. unfold bind at 1. unfold ret at 1.
    rewrite setattr_update by (by rewrite Hh1). fold s2.
    destruct (IH s2) as (s' & Hrun & Hst & Hsch & Hf & Hset & Hframe & Htr).
    { eapply Forall_impl; [exact Hl|]. intros v (c' & Hc' & Hrest). exists c'.
      split; [|done]. unfold s2. by rewrite class_of_update, Hc1. }
    exists s'. split; [exact Hrun|].
    assert (steady s s2) as Hst2.
    { eapply steady_trans; [|apply steady_update_is_sim].
      split; [by intros; apply Ha1|]. split; [done|]. by rewrite Hsch1. }
    split; [by eapply steady_trans|]. split.
    { rewrite Hsch. unfold s2, update_attr. by destruct (heap s1 !! a). }
    split.
    { rewrite Hf. unfold s2, update_attr. by destruct (heap s1 !! a). }
    split; [|split].
    + intros b Hb. apply Hset.
      destruct (decide (b = a)) as [->|Hne].
      * right. unfold s2. apply attr_update_same. by rewrite Hh1.
      * destruct Hb as [Hb|Hb].
        -- apply elem_of_cons in Hb as [[= ->]|Hb]; [done|by left].
        -- right. unfold s2. rewrite attr_update_other by (left; congruence). by rewrite Ha1.
    + intros b Hb. apply not_elem_of_cons in Hb as [Hba Hb].
      rewrite Hframe by done. unfold s2. rewrite attr_update_other by (left; congruence).
      apply Ha1.
    + intros b Hb Hin. apply not_elem_of_cons in Hb as [Hba Hb].
      specialize (Htr b Hb Hin). unfold s2 in Htr.
      rewrite trace_update in Htr. destruct (Ht1 b Htr) as [->|?]; done.
Qed.

Lemma for_each_app {A} (body : A -> M unit) l1 l2 s s' :
  for_each l1 body s = Ret tt s' -> for_each (l1 ++ l2) body s = for_each l2 body s'.
Proof.
  revert s. induction l1 as [|x l1 IH]; intros s; simpl.
  - by intros [= <-].
  - unfold bind. destruct (body x s) as [[] s1| |]; [|done..]. apply IH.
Qed.

(** X21.  [init_hardware] with [throw_exception_on_init_failure] set:
    at the first subscriber whose hardware fails it raises a RuntimeError
    naming that subscriber, whose [is_sim] is not set; the subscribers after
    it are not initialised and their [is_sim] is not set either. *)
Theorem init_hardware_stops_at_first_failure s pre a k n post :
  subscribers (scheduler s) = pre ++ VRef a :: post ->
  throw_exception_on_init_failure (scheduler s) = true ->
  Forall (hardware_ready s) pre ->
  class_of s (VRef a) = Some (UserSubscriber k) ->
  (forall w, (initialize_hardware_u k w).1 = false) ->
  name_of s (VRef a) = Some n ->
  exists s',
    Scheduler_init_hardware s = Raise (RuntimeError (HardwareFailed n)) s' /\
    InitializeHardware a ∈ trace s' /\
    (forall b, VRef b ∉ pre -> attr s' b "is_sim" = attr s b "is_sim") /\
    (forall b, VRef b ∉ pre -> b <> a ->
               InitializeHardware b ∈ trace s' -> InitializeHardware b ∈ trace s).
Proof.
  intros Hsubs Hthrow Hready Hc Hfail Hn.
  destruct (init_hardware_loop (scheduler s) s pre) as (s1 & Hrun & Hst & Hsch & Hf & _ & Hframe & Htr).
  { eapply Forall_impl; [exact Hready|]. intros v (c & Hcv & Hsub & Hok). exists c.
    split; [done|]. split; [done|]. intros _. exact Hok. }
  set (s2 := set_world (initialize_hardware_u k (world s1)).2
               (set_trace (trace s1 ++ [InitializeHardware a]) s1)).
  exists s2. split; [|split; [|split]].
  - unfold Scheduler_init_hardware. unfold bind at 1. unfold get_scheduler at 1. cbv beta iota.
    rewrite Hsubs.
    rewrite (for_each_app _ _ _ _ _ Hrun). rewrite for_each_cons.
    unfold bind at 1. unfold bind at 1.
    destruct Hst as (Hattr & Hcls & _).
    rewrite (Subscriber_initialize_hardware_run s1 a (UserSubscriber k)) by (by rewrite ?Hcls).
    rewrite Hfail, Hthrow. cbn [andb negb]. fold s2.
    unfold bind at 1. unfold bind at 1. rewrite (name_of_getattr s2 (VRef a) n); [done|].
    simpl. change (attr s2 a "name") with (attr s1 a "name"). rewrite Hattr by done. exact Hn.
  - unfold s2. cbn [trace set_world set_trace]. apply elem_of_app. right. by left.
  - intros b Hb. change (attr s2 b "is_sim") with (attr s1 b "is_sim"). by apply Hframe.
  - intros b Hb Hne. unfold s2. cbn [trace set_world set_trace].
    rewrite elem_of_app, list_elem_of_singleton. intros [Hin|[= ->]]; [|done]. by apply Htr.
Qed.

(** X22.  [init_hardware] with [throw_exception_on_init_failure]
    cleared: it returns whatever the hardware answers, every subscriber has
    its [is_sim] set to the scheduler's, and neither the files nor the
    scheduler change. *)
Theorem init_hardware_lenient_goes_on s :
  throw_exception_on_init_failure (scheduler s) = false ->
  Forall (fun v => exists c, class_of s v = Some c /\ is_Subscriber_class c = true)
         (subscribers (scheduler s)) ->
  exists s',
    Scheduler_init_hardware s = Ret tt s' /\
    Forall (fun v => exists b, v = VRef b /\
                     attr s' b "is_sim" = Some (VBool (is_sim (scheduler s))))
           (subscribers (scheduler s)) /\
    files s' = files s /\ scheduler s' = scheduler s.
Proof.
  intros Hthrow Hsubs.
  destruct (init_hardware_loop (scheduler s) s (subscribers (scheduler s)))
    as (s1 & Hrun & _ & Hsch & Hf & Hset & _).
  { eapply Forall_impl; [exact Hsubs|]. intros v (c & Hc & Hsub). exists c.
    split; [done|]. split; [done|]. by rewrite Hthrow. }
  exists s1. split; [|split; [|done]].
  - unfold Scheduler_init_hardware. unfold bind at 1. unfold get_scheduler at 1. exact Hrun.
  - apply Forall_forall. intros v Hv.
    destruct (proj1 (Forall_forall _ _) Hsubs v Hv) as (c & Hc & _).
    destruct v as [| | | |b| | | |]; try done. exists b. split; [done|]. apply Hset. by left.
Qed.


(** ** Scheduler.initialize *)

Lemma print_names_state s l ns :
  Forall2 (fun v n => name_of s v = Some n) l ns ->
  for_each l (fun topic =>
     name <- getattr topic "name" ;;
     print ("Topic name: " ++ str_of name)%string) s =
    Ret tt (set_trace (trace s ++ ((fun n => Print ("Topic name: " ++ n)%string) <$> ns)) s).
Proof.
  revert ns s. induction l as [|v l IH]; intros ns s Hl.
  - apply Forall2_nil_inv_l in Hl as ->. simpl. rewrite app_nil_r. by destruct s.
  - apply Forall2_cons_inv_l in Hl as (n & ns' & Hn & Hl & ->).
    rewrite for_each_cons. unfold bind at 1. unfold bind at 1.
    rewrite (name_of_getattr _ _ _ Hn). unfold print, emit. cbv iota beta.
    rewrite (IH ns' (set_trace (trace s ++ [Print ("Topic name: " ++ str_of (VStr n))%string]) s) Hl).
    cbn [trace set_trace]. unfold set_trace. cbn. by rewrite <- app_assoc.
Qed.

Lemma Scheduler_begin_log_state s :
  Scheduler_begin_log s =
    Ret tt (if is_sim (scheduler s) then s
            else set_files (<[log_file_name (clock s (reads s)) := [LogHeader]]> (files s))
                   (set_scheduler
                      (with_writing_file_name (Some (log_file_name (clock s (reads s))))
                         (scheduler s))
                      (set_reads (S (reads s)) s))).
Proof.
  unfold Scheduler_begin_log, bind, get_scheduler. cbv beta iota.
  by destruct (is_sim (scheduler s)).
Qed.

(** [initialize()] up to the name check, when nothing is wrong: the topics
    are sorted and their names printed in that order, a live scheduler opens
    its log with the header line, and every subscriber's hardware is
    initialised and its [is_sim] set to the scheduler's. *)
Lemma Scheduler_initialize_front s tns :
  cycle_is_present_in_any (heap s) (dependecy_sort (heap s) (topics (scheduler s))) = false ->
  Forall2 (fun v n => name_of s v = Some n) (dependecy_sort (heap s) (topics (scheduler s))) tns ->
  Forall (fun v => is_Some (name_of s v)) (subscribers (scheduler s)) ->
  Forall (hardware_ready s) (subscribers (scheduler s)) ->
  NoDup tns ->
  (forall n, n ∈ tns -> Some n ∉ (name_of s <$> subscribers (scheduler s))) ->
  let sorted := dependecy_sort (heap s) (topics (scheduler s)) in
  let fname := log_file_name (clock s (reads s)) in
  exists s3,
    Scheduler_initialize s =
      (if is_sim (scheduler s) then
         match file_reading_name (scheduler s) with
         | None => raise (Exception "Must provide file name to read from in simulation mode.")
         | Some name =>
             lines <- read_file name ;;
             let (stamps, contents) := dump_file_contents lines in
             modify_scheduler (with_time_stamps (Some stamps)) ;;;
             modify_scheduler
               (with_read_topics (Some (construct_dictionary_of_messages_vs_time stamps contents)))
         end
       else ret tt) s3 /\
    scheduler s3 =
      (if is_sim (scheduler s) then with_topics sorted (scheduler s)
       else with_writing_file_name (Some fname) (with_topics sorted (scheduler s))) /\
    files s3 = (if is_sim (scheduler s) then files s
                else <[fname := [LogHeader]]> (files s)) /\
    Forall (fun v => exists b, v = VRef b /\
                     attr s3 b "is_sim" = Some (VBool (is_sim (scheduler s))))
           (subscribers (scheduler s)).
Proof.
  intros Hcycle Htns Hsubs Hready Hnd Hdis sorted fname.
  change (cycle_is_present_in_any (heap s) sorted = false) in Hcycle.
  change (Forall2 (fun v n => name_of s v = Some n) sorted tns) in Htns.
  set (s0 := set_scheduler (with_topics sorted (scheduler s)) s).
  set (s1 := set_trace (trace s0 ++ ((fun n => Print ("Topic name: " ++ n)%string) <$> tns)) s0).
  set (s2 := if is_sim (scheduler s) then s1
             else set_files (<[fname := [LogHeader]]> (files s1))
                    (set_scheduler (with_writing_file_name (Some fname) (scheduler s1))
                       (set_reads (S (reads s1)) s1))).
  assert (heap s2 = heap s) as Hh2 by (unfold s2; by destruct (is_sim (scheduler s))).
  assert (forall v, class_of s2 v = class_of s v) as Hc2 by (intros []; simpl; by rewrite ?Hh2).
  assert (forall v, name_of s2 v = name_of s v) as Hn2
    by (intros []; simpl; unfold attr; by rewrite ?Hh2).
  assert (subscribers (scheduler s2) = subscribers (scheduler s)) as Hsubs2
    by (unfold s2; by destruct (is_sim (scheduler s))).
  assert (topics (scheduler s2) = sorted) as Htop2
    by (unfold s2; by destruct (is_sim (scheduler s))).
  assert (is_sim (scheduler s2) = is_sim (scheduler s)) as Hsim2
    by (unfold s2; destruct (is_sim (scheduler s)) eqn:E; cbn; by rewrite ?E).
  assert (throw_exception_on_init_failure (scheduler s2) =
          throw_exception_on_init_failure (scheduler s)) as Hthrow2
    by (unfold s2; by destruct (is_sim (scheduler s))).
  destruct (init_hardware_loop (scheduler s2) s2 (subscribers (scheduler s)))
    as (s3 & Hhw & Hst3 & Hsch3 & Hf3 & Hset & _ & Htr).
  { eapply Forall_impl; [exact Hready|]. intros v (c & Hc & Hsub & Hok). exists c.
    rewrite Hc2. split; [done|]. split; [done|]. intros _. exact Hok. }
  assert (forall v, name_of s3 v = name_of s v) as Hn3
    by (intros v; by rewrite (steady_name_of s2 s3 v Hst3), Hn2).
  destruct (names_exist s3 (subscribers (scheduler s))) as (sns & Hsns & Hsns').
  { eapply Forall_impl; [exact Hsubs|]. intros v. by rewrite Hn3. }
  exists s3. split; [|split; [|split]].
  - unfold Scheduler_initialize.
    unfold bind at 1. unfold get_scheduler at 1. cbv iota beta.
    unfold bind at 1. unfold get_heap at 1. cbv iota beta.
    unfold bind at 1. unfold modify_scheduler at 1. cbv iota beta.
    unfold bind at 1. unfold get_scheduler at 1. cbv iota beta.
    change (scheduler (set_scheduler _ s)) with (with_topics sorted (scheduler s)).
    change (topics (with_topics sorted (scheduler s))) with sorted.
    change (is_sim (with_topics sorted (scheduler s))) with (is_sim (scheduler s)).
    change (file_reading_name (with_topics sorted (scheduler s)))
      with (file_reading_name (scheduler s)).
    unfold bind at 1. rewrite Hcycle. unfold ret at 1.
    change (set_scheduler _ s) with s0.
    unfold bind at 1. rewrite (print_names_state s0 sorted tns Htns). fold s1.
    unfold bind at 1. rewrite (Scheduler_begin_log_state s1).
    change (if is_sim (scheduler s1) then s1 else _) with s2.
    unfold bind at 1. unfold Scheduler_init_hardware at 1.
    unfold bind at 1. unfold get_scheduler at 1. cbv iota beta.
    rewrite Hsubs2, Hhw.
    unfold bind at 1. unfold Scheduler_check_topic_name_collision at 1.
    unfold bind at 1. unfold get_scheduler at 1. cbv iota beta.
    rewrite (check_collision_loop_run s3 (subscribers (scheduler s3)) sns [] []
               (topics (scheduler s3)) tns).
    + assert (first_collision sns [] tns = None) as ->; [|done].
      apply first_collision_None_iff. split; [done|]. intros n Hn. split; [apply not_elem_of_nil|].
      intros Hin. apply (Hdis n Hn).
      replace (name_of s <$> subscribers (scheduler s)) with (Some <$> sns).
      * by apply list_elem_of_fmap_2.
      * rewrite <- Hsns'. apply list_fmap_ext. intros _ v _. by rewrite Hn3.
    + by rewrite Hsch3, Hsubs2.
    + apply Forall2_nil_2.
    + rewrite Hsch3, Htop2. eapply Forall2_impl; [exact Htns|]. intros v n. by rewrite Hn3.
  - rewrite Hsch3. unfold s2. by destruct (is_sim (scheduler s)).
  - rewrite Hf3. unfold s2. by destruct (is_sim (scheduler s)).
  - apply Forall_forall. intros v Hv.
    destruct (proj1 (Forall_forall _ _) Hready v Hv) as (c & Hc & _).
    destruct v as [| | | |b| | | |]; try done. exists b. split; [done|].
    rewrite <- Hsim2. apply Hset. by left.
Qed.


(** X23.  [initialize()] of a live scheduler without cycle, with
    hardware that initialises and names that do not collide: it returns,
    leaves the topics in the order of the dependency sort, names the log file
    after the clock reading taken, writes the header line as the only
    content of that file, and sets [is_sim] of every subscriber to False. *)
Theorem initialize_live_opens_the_log s tns :
  is_sim (scheduler s) = false ->
  cycle_is_present_in_any (heap s) (dependecy_sort (heap s) (topics (scheduler s))) = false ->
  Forall2 (fun v n => name_of s v = Some n) (dependecy_sort (heap s) (topics (scheduler s))) tns ->
  Forall (fun v => is_Some (name_of s v)) (subscribers (scheduler s)) ->
  Forall (hardware_ready s) (subscribers (scheduler s)) ->
  NoDup tns ->
  (forall n, n ∈ tns -> Some n ∉ (name_of s <$> subscribers (scheduler s))) ->
  exists s',
    Scheduler_initialize s = Ret tt s' /\
    topics (scheduler s') = dependecy_sort (heap s) (topics (scheduler s)) /\
    writing_file_name (scheduler s') = Some (log_file_name (clock s (reads s))) /\
    files s' = <[log_file_name (clock s (reads s)) := [LogHeader]]> (files s) /\
    Forall (fun v => exists b, v = VRef b /\ attr s' b "is_sim" = Some (VBool false))
           (subscribers (scheduler s)) /\
    time_stamps (scheduler s') = time_stamps (scheduler s) /\
    read_topics (scheduler s') = read_topics (scheduler s).
Proof.
  intros Hsim Hcycle Htns Hsubs Hready Hnd Hdis.
  destruct (Scheduler_initialize_front s tns Hcycle Htns Hsubs Hready Hnd Hdis)
    as (s3 & Hrun & Hsch & Hf & Hflags).
  rewrite Hsim in Hrun, Hsch, Hf, Hflags.
  exists s3. split; [exact Hrun|]. rewrite Hsch. by repeat split.
Qed.

(** X24.  [initialize()] in simulation mode, without cycle, with
    hardware that initialises and names that do not collide: no file is
    written and no log file is named, every subscriber has its [is_sim] set to
    True, and then the log named by [file_reading_name] is loaded into
    [time_stamps] and [read_topics]; without such a name the Exception is
    raised only then, and a file that does not exist gives FileNotFoundError. *)
Theorem initialize_sim_loads_the_log s tns :
  is_sim (scheduler s) = true ->
  cycle_is_present_in_any (heap s) (dependecy_sort (heap s) (topics (scheduler s))) = false ->
  Forall2 (fun v n => name_of s v = Some n) (dependecy_sort (heap s) (topics (scheduler s))) tns ->
  Forall (fun v => is_Some (name_of s v)) (subscribers (scheduler s)) ->
  Forall (hardware_ready s) (subscribers (scheduler s)) ->
  NoDup tns ->
  (forall n, n ∈ tns -> Some n ∉ (name_of s <$> subscribers (scheduler s))) ->
  exists s3,
    files s3 = files s /\
    writing_file_name (scheduler s3) = writing_file_name (scheduler s) /\
    Forall (fun v => exists b, v = VRef b /\ attr s3 b "is_sim" = Some (VBool true))
           (subscribers (scheduler s)) /\
    (file_reading_name (scheduler s) = None ->
     Scheduler_initialize s =
       Raise (Exception "Must provide file name to read from in simulation mode.") s3) /\
    (forall name lines,
       file_reading_name (scheduler s) = Some name -> files s !! name = Some lines ->
       Scheduler_initialize s =
         Ret tt (set_scheduler
                   (with_read_topics
                      (Some (construct_dictionary_of_messages_vs_time
                               (dump_file_contents lines).1 (dump_file_contents lines).2))
                      (with_time_stamps (Some (dump_file_contents lines).1) (scheduler s3)))
                   s3)).
Proof.
  intros Hsim Hcycle Htns Hsubs Hready Hnd Hdis.
  destruct (Scheduler_initialize_front s tns Hcycle Htns Hsubs Hready Hnd Hdis)
    as (s3 & Hrun & Hsch & Hf & Hflags).
  rewrite Hsim in Hrun, Hsch, Hf, Hflags.
  exists s3. split; [done|]. split; [by rewrite Hsch|]. split; [done|].
  rewrite Hrun. split.
  - by intros ->.
  - intros name lines -> Hlines. unfold bind at 1. unfold read_file. rewrite Hf, Hlines.
    by destruct (dump_file_contents lines).
Qed.


(** ** Scheduler.advance_command *)

(** X25.  [advance_command] with a user command as root: the command is
    asked [is_complete()] once; when it answers True the root becomes its
    [next_command], which is neither asked nor started, and otherwise the
    root stays.  When the successor taken is None the scheduler idles: a
    further [advance_command] changes nothing. *)
Theorem Scheduler_advance_command_moves_one_link fuel s a k nc b w' :
  root_command (scheduler s) = VRef a ->
  class_of s (VRef a) = Some (UserCommand k) ->
  attr s a "next_command" = Some nc ->
  is_complete_u k (world s) = (b, w') ->
  exists s',
    Scheduler_advance_command (S fuel) s = Ret tt s' /\
    root_command (scheduler s') = (if b then nc else VRef a) /\
    trace s' = trace s ++ [IsComplete a] /\ world s' = w' /\ heap s' = heap s /\
    (b = true -> nc = VNone -> Scheduler_advance_command (S fuel) s' = Ret tt s').
Proof.
  intros Hroot Hc Hnc Hdone.
  set (s1 := set_world w' (set_trace (trace s ++ [IsComplete a]) s)).
  assert (Command_is_complete (S fuel) (VRef a) s = Ret b s1) as Hrun.
  { simpl. unfold bind at 1. unfold method_of. rewrite Hc. cbn [is_Command_class].
    unfold bind at 1. unfold emit_at, emit, in_world. cbn [world set_trace].
    by rewrite Hdone. }
  exists (if b then set_scheduler (with_root_command nc (scheduler s1)) s1 else s1).
  split; [|split; [|split; [|split; [|split]]]].
  - unfold Scheduler_advance_command. unfold bind at 1. unfold get_scheduler at 1.
    cbv beta iota. rewrite Hroot. cbn [truthy]. unfold bind at 1. rewrite Hrun.
    destruct b; [|done].
    unfold bind at 1. unfold get_scheduler at 1. cbv beta iota.
    change (scheduler s1) with (scheduler s). rewrite Hroot.
    by rewrite (bind_Ret _ _ _ _ _ (getattr_attr s1 a _ nc Hnc)).
  - by destruct b.
  - by destruct b.
  - by destruct b.
  - by destruct b.
  - intros -> ->. by cbn.
Qed.

End More.

(** * The code on concrete inputs *)

Import Demo.

(** C1, as the code runs.  With the chain A -> B -> C installed as the root
    command, the first tick of a live scheduler raises AttributeError for
    [first_run_occured] before A's [first_run()]: nothing of A has run, A
    is still the root command and its [first_run_occurred] is still False. *)
Theorem chain_ABC_tick_raises_AttributeError (fuel : nat) :
  let tick := Scheduler_periodic fuel chain_ABC_state in
  error_of tick = Some (AttributeError "first_run_occured") /\
  trace (state_of tick chain_ABC_state) = [] /\
  root_command (scheduler (state_of tick chain_ABC_state)) = VRef 0 /\
  attr (state_of tick chain_ABC_state) 0 "first_run_occurred" = Some (VBool false) /\
  attr (state_of tick chain_ABC_state) 0 "first_run_occured" = None.
Proof.
  cbv zeta.
  rewrite (Scheduler_periodic_reads_misspelt_attribute fuel chain_ABC_state 0 (UserCommand 0));
    [|vm_compute; reflexivity..].
  cbn [error_of state_of]. repeat split; vm_compute; reflexivity.
Qed.

(** C4, as the code runs.  A ParallelCommand whose child is a
    ParallelCommand that reports complete: [periodic()] raises
    AttributeError, the child having no [next_command] attribute, where
    the child's [periodic()] should have run. *)
Theorem nested_ParallelCommand_periodic_raises :
  attr nested_parallel_state 2 "commands" = Some (VList [VRef 1]) /\
  class_of nested_parallel_state (VRef 1) = Some ParallelCommand /\
  value_of (Command_is_complete 9 (VRef 1) nested_parallel_state) = Some true /\
  attr nested_parallel_state 1 "next_command" = None /\
  error_of (Command_periodic 9 (VRef 2) nested_parallel_state) =
    Some (AttributeError "next_command").
Proof. repeat split; vm_compute; reflexivity. Qed.

(** For children that are not ParallelCommands the tick is as described:
    A, complete and with the successor A2, is replaced in place by A2, whose
    one-time setup runs in the same tick, while [periodic()] runs for B. *)
Example ParallelCommand_replaces_a_complete_child :
  let tick := Command_periodic 9 (VRef 3) parallel_AB_state in
  attr parallel_AB_state 3 "commands" = Some (VList [VRef 0; VRef 1]) /\
  value_of tick = Some tt /\
  attr (state_of tick parallel_AB_state) 3 "commands" = Some (VList [VRef 2; VRef 1]) /\
  trace (state_of tick parallel_AB_state) =
    (trace parallel_AB_state ++
     [IsComplete 0; FirstRunBehavior 2; IsComplete 1; Periodic 1])%list.
Proof. repeat split; vm_compute; reflexivity. Qed.

(** C5, as the code runs.  In the live run the DelayCommand of 2 seconds,
    started at reading 102, is complete after a tick that brought the
    reading to 108.  In the replay of the log of that run the same tick
    leaves the reading of the time topic at 102, and the command is not
    complete. *)
Theorem replayed_DelayCommand_does_not_complete :
  completed live_run = Some true /\ reading live_run = Some (VNum 108%Z) /\
  completed replay_run = Some false /\ reading replay_run = Some (VNum 102%Z).
Proof. repeat split; vm_compute; reflexivity. Qed.




(** C8 fails as stated: on a command that is its own successor [setNext]
    walks the links for ever. *)
Lemma setNext_on_a_cycle_does_not_return :
  attr self_successor_state 0 "next_command" = Some (VRef 0) /\
  is_Command self_successor_state (VRef 1) = true /\
  forall fuel, Command_setNext fuel (VRef 0) (VRef 1) self_successor_state = NoFuel.
Proof.
  assert (attr self_successor_state 0 "next_command" = Some (VRef 0)) as Hloop by by vm_compute.
  split; [done|]. split; [by vm_compute|]. intros fuel.
  unfold Command_setNext.
  rewrite (bind_Ret _ _ _ _ _ (isinstance_Command_run _ _)).
  replace (is_Command self_successor_state (VRef 1)) with true by by vm_compute.
  cbn [negb]. rewrite (bind_Ret _ _ _ _ _ (getattr_attr _ _ _ _ Hloop)). cbn [is_None].
  apply bind_NoFuel. induction fuel as [|fuel IH]; [done|]. simpl.
  by rewrite (bind_Ret _ _ _ _ _ (getattr_attr _ _ _ _ Hloop)).
Qed.

(** C9 fails as stated: an OrderedDict is a mapping, and [Message] refuses
    it. *)
Lemma Message_refuses_a_dict_subclass :
  is_mapping an_OrderedDict = true /\
  Message an_OrderedDict live_boot =
    Raise (TypeError "Message must be a dictionary") live_boot.
Proof. done. Qed.

(** * The theorems at concrete inputs *)




Lemma initialize_cycle_raises_before_log_for_two_topics :
  exists s', Scheduler_initialize cyclic_topics_state = Raise TopicCircularDependency s' /\
             files s' = files cyclic_topics_state /\ heap s' = heap cyclic_topics_state /\
             reads s' = reads cyclic_topics_state /\ trace s' = trace cyclic_topics_state /\
             writing_file_name (scheduler s') = writing_file_name (scheduler cyclic_topics_state).
Proof. apply initialize_cycle_raises_before_log. by vm_compute. Defined.

Lemma Command_setNext_appends_behind_B :
  Command_setNext 9 (VRef 0) (VRef 2) chain_AB_state =
    Ret (VRef 0) (update_attr 1 "next_command" (VRef 2) chain_AB_state) /\
  attr (update_attr 1 "next_command" (VRef 2) chain_AB_state) 0 "next_command" = Some (VRef 1).
Proof.
  destruct (Command_setNext_appends 9 1 chain_AB_state 0 [0; 1] 1 (VRef 2))
    as (Hrun & _ & _ & Hkept); [by vm_compute | done | lia |].
  split.
  - rewrite Hrun. by vm_compute.
  - apply Hkept; [by vm_compute | done].
Defined.


(** * The further properties at concrete inputs *)

Import Cases.
Local Open Scope list_scope.

Lemma Command_first_run_runs_behavior_once_on_A :
  exists s1,
    Command_first_run 3 (VRef 0) chain_AB_state = Ret tt s1 /\
    trace s1 = trace chain_AB_state ++ [FirstRunBehavior 0] /\
    world s1 = first_run_behavior_u 0 (world chain_AB_state) /\
    attr s1 0 "first_run_occurred" = Some (VBool true) /\
    Command_first_run 3 (VRef 0) s1 = Ret tt s1.
Proof.
  apply (Command_first_run_runs_behavior_once 2 chain_AB_state 0 (UserCommand 0) 0);
    vm_compute; reflexivity.
Defined.

Lemma Command_setNext_concatenates_chains_AB_and_C :
  exists s', Command_setNext 9 (VRef 0) (VRef 2) chain_AB_state = Ret (VRef 0) s' /\
             chain 2 s' 0 = Some [0; 1; 2].
Proof.
  apply (Command_setNext_concatenates_chains 9 1 0 chain_AB_state 0 [0; 1] 1 2 [2]);
    try (vm_compute; reflexivity); [|lia].
  intros y Hy Hy'. apply list_elem_of_singleton in Hy' as ->.
  apply elem_of_cons in Hy as [?|Hy]; [done|]. by apply list_elem_of_singleton in Hy.
Defined.

Lemma setNextOption_then_is_complete_installs_X :
  exists s1 s2,
    DynamicCommand_setNextOption (VRef 0) (VRef 1) (VFun 5) dynamic_fresh_state = Ret tt s1 /\
    attr s1 0 "conditions" = Some (VList [VFun 5]) /\
    DynamicCommand_is_complete 9 (VRef 0) s1 = Ret true s2 /\
    attr s2 0 "next_command" = Some (VRef 1) /\
    trace s2 = trace dynamic_fresh_state ++ [Called 5].
Proof.
  apply (setNextOption_then_is_complete_installs 9 dynamic_fresh_state 0 [] ExactDict ∅
           (VRef 1) 5 [5] [5]); vm_compute; reflexivity.
Defined.

Lemma setNextOption_accepts_a_string :
  exists s1,
    DynamicCommand_setNextOption (VRef 0) (VStr "stop") (VFun 5) dynamic_fresh_state = Ret tt s1 /\
    DynamicCommand_is_complete 9 (VRef 0) s1 =
      Raise (TypeError "next_command must be an instance of Command") (called [5] [5] s1).
Proof.
  apply (setNextOption_accepts_what_is_complete_rejects 9 dynamic_fresh_state 0 [] ExactDict ∅
           (VStr "stop") 5 [5] [5]); vm_compute; reflexivity.
Defined.


Lemma ParallelCommand_first_run_fans_out_to_A_and_B :
  exists s', Command_first_run 3 (VRef 2) parallel_fresh_state = Ret tt s' /\
             trace s' = trace parallel_fresh_state ++ [FirstRunBehavior 0; FirstRunBehavior 1] /\
             Forall (fun a => attr s' a "first_run_occurred" = Some (VBool true)) [2; 0; 1] /\
             Command_first_run 3 (VRef 2) s' = Ret tt s'.
Proof.
  apply (ParallelCommand_first_run_fans_out 1 parallel_fresh_state 2 [0; 1]);
    try (vm_compute; reflexivity).
  - apply NoDup_cons. split; [by intros ?%list_elem_of_singleton|].
    apply NoDup_singleton.
  - repeat constructor.
    + exists (UserCommand 0), 0. repeat split; vm_compute; reflexivity.
    + exists (UserCommand 1), 1. repeat split; vm_compute; reflexivity.
Defined.

Lemma DelayCommand_is_complete_before_first_run_raises_on_the_time_topic :
  exists s1,
    DelayCommand_init (VRef 1) (VNum 2%Z) (VRef 0) (VStr "Delay Command") delay_fresh_state
      = Ret tt s1 /\
    attr s1 1 "start_time" = Some VNone /\
    attr s1 1 "first_run_occurred" = Some (VBool false) /\
    Command_is_complete 3 (VRef 1) s1 =
      Raise (TypeError "unsupported operand type(s) for -") s1.
Proof.
  apply (DelayCommand_is_complete_before_first_run_raises (PF := seconds) 2 delay_fresh_state 1 (@VNum seconds 2%Z) 0
           (VStr "Delay Command") ExactDict
           (time_readings 102 0)
           (@VNum seconds 102%Z)); vm_compute; reflexivity.
Defined.

Lemma DelayCommand_measures_from_first_run_two_seconds :
  exists s1,
    Command_first_run 3 (VRef 1) delay_ready_state = Ret tt s1 /\
    attr s1 1 "start_time" = Some (VNum 102%Z) /\
    Command_first_run 3 (VRef 1)
      (update_attr 0 "message" (VDict ExactDict (unix_only 110)) s1) =
      Ret tt (update_attr 0 "message" (VDict ExactDict (unix_only 110)) s1) /\
    Command_is_complete 3 (VRef 1)
      (update_attr 0 "message" (VDict ExactDict (unix_only 110)) s1) =
      Ret true
        (update_attr 0 "message" (VDict ExactDict (unix_only 110)) s1).
Proof.
  apply (DelayCommand_measures_from_first_run (PF := seconds) 2 delay_ready_state 1 0 (VBool false) ExactDict
           (time_readings 102 0)
           102%Z 2%Z ExactDict (unix_only 110) 110%Z);
    vm_compute; reflexivity.
Defined.

Lemma Subscriber_store_messages_last_wins_on_display :
  exists s1 s2,
    Subscriber_store_messages (VRef 1) (VStr "SystemTime") (VStr "first") replay_ready_state
      = Ret tt s1 /\
    Subscriber_store_messages (VRef 1) (VStr "SystemTime") (VStr "second") s1 = Ret tt s2 /\
    stored_message s2 (VRef 1) "SystemTime" = Some (VStr "second") /\
    (forall n', n' <> "SystemTime" ->
                stored_message s2 (VRef 1) n' = stored_message replay_ready_state (VRef 1) n') /\
    (forall b f, b <> 1 \/ f <> "messages" -> attr s2 b f = attr replay_ready_state b f).
Proof.
  apply (Subscriber_store_messages_last_wins replay_ready_state 1 "SystemTime").
  vm_compute; reflexivity.
Defined.

Lemma Subscriber_periodic_sim_defaults_to_live_on_display :
  Subscriber_periodic (VRef 1) replay_ready_state =
    Ret tt (set_world (subscriber_periodic_u 7 (VDict ExactDict ∅) (world replay_ready_state))
              (set_trace (trace replay_ready_state ++ [SubscriberPeriodic 1 false])
                 replay_ready_state)).
Proof.
  apply (Subscriber_periodic_sim_defaults_to_live replay_ready_state 1 7 (VBool false));
    vm_compute; reflexivity.
Defined.

Lemma add_subscriber_then_notify_reaches_display_twice :
  exists s1 s2,
    Topic_add_subscriber (VRef 0) (VRef 1) replay_ready_state = Ret tt s1 /\
    attr s1 0 "subscribers" = Some (VList [VRef 1; VRef 1]) /\
    Topic_notify_subscribers (VRef 0) (VStr "tick") s1 = Ret tt s2 /\
    Forall (fun v => stored_message s2 v "SystemTime" = Some (VStr "tick")) [VRef 1; VRef 1] /\
    attr s2 0 "subscribers" = Some (VList [VRef 1; VRef 1]).
Proof.
  apply (add_subscriber_then_notify_reaches_all replay_ready_state 0 "SystemTime" [VRef 1]
           (VRef 1) (VStr "tick")); try (vm_compute; reflexivity).
  repeat constructor.
Defined.

Lemma add_subscriber_accepts_None :
  exists s1,
    Topic_add_subscriber (VRef 0) VNone (same_names_state 7) = Ret tt s1 /\
    Topic_notify_subscribers (VRef 0) (VStr "tick") s1 =
      Raise (AttributeError "store_messages") s1.
Proof.
  apply (add_subscriber_accepts_what_notify_rejects (same_names_state 7) 0 "imu" VNone);
    vm_compute; done.
Defined.

Lemma Topic_publish_periodic_refuses_None :
  exists s',
    Topic_publish_periodic (UC := Forgetful.forgetful) (VRef 0) Forgetful.topic_state =
      Raise (TypeError "Message must be a dictionary") s' /\
    (forall a, attr s' a "messages" = attr Forgetful.topic_state a "messages") /\
    attr s' 0 "message_body" = Some VNone /\
    attr s' 0 "_Topic__previous_time" = Some (VNum 102%Z) /\
    world s' = [] /\ reads s' = 3.
Proof.
  apply (Topic_publish_periodic_refuses_other_bodies (PF := seconds) (UC := Forgetful.forgetful)
           Forgetful.topic_state
           0 0 101%Z (VDict ExactDict ∅) VNone []); vm_compute; reflexivity.
Defined.

Lemma SystemTimeTopic_delta_is_difference_of_readings_live :
  exists m1 s1 m2 s2 u1 u2,
    SystemTimeTopic_generate_messages_periodic (VRef 0) delay_ready_state
      = Ret (VDict ExactDict m1) s1 /\
    m1 !! KStr "Unix" = Some (VNum u1) /\
    SystemTimeTopic_generate_messages_periodic (VRef 0) s1 = Ret (VDict ExactDict m2) s2 /\
    m2 !! KStr "Unix" = Some (VNum u2) /\
    m2 !! KStr "DeltaTimeSeconds" = Some (VNum (fsub u2 u1)) /\
    u2 = clock delay_ready_state (reads s1) /\ reads s2 = S (reads s1).
Proof.
  apply (SystemTimeTopic_delta_is_difference_of_readings (PF := seconds) delay_ready_state 0 (VBool false)
           ExactDict
           (time_readings 102 0)
           103%Z); vm_compute; reflexivity.
Defined.

Lemma check_topic_name_collision_passes_iff_for_two_imu_topics :
  (Scheduler_check_topic_name_collision (same_names_state 7) = Ret tt (same_names_state 7) <->
   NoDup ["imu"; "imu"] /\ forall n, n ∈ ["imu"; "imu"] -> n ∉ ["display"]) /\
  (Scheduler_check_topic_name_collision (same_names_state 7) = Ret tt (same_names_state 7) \/
   exists e, Scheduler_check_topic_name_collision (same_names_state 7) =
               Raise (RuntimeError e) (same_names_state 7) /\
             is_collision e = true).
Proof.
  apply (check_topic_name_collision_passes_iff (same_names_state 7)).
  - replace (topics (scheduler (same_names_state 7))) with [VRef 0; VRef 1] by by vm_compute.
    repeat constructor.
  - replace (subscribers (scheduler (same_names_state 7))) with [VRef 2] by by vm_compute.
    repeat constructor.
Defined.

Lemma topic_added_twice_is_a_name_collision_for_gps :
  exists e s1,
    Scheduler_add_topics [VRef 1] two_topics_state = Ret tt s1 /\
    topics (scheduler s1) = topics (scheduler two_topics_state) ++ [VRef 1] /\
    Scheduler_check_topic_name_collision s1 = Raise (RuntimeError e) s1 /\
    is_collision e = true.
Proof.
  assert (topics (scheduler two_topics_state) = [VRef 0; VRef 1]) as Ht by by vm_compute.
  assert (subscribers (scheduler two_topics_state) = [VRef 2]) as Hs by by vm_compute.
  apply (topic_added_twice_is_a_name_collision two_topics_state [VRef 1]).
  - rewrite Ht. repeat constructor; by vm_compute; eexists.
  - rewrite Hs. repeat constructor; by vm_compute; eexists.
  - rewrite Ht. intros Hnd. apply NoDup_cons in Hnd as [_ Hnd].
    apply NoDup_cons in Hnd as [Hnotin _]. apply Hnotin. by left.
Defined.

Lemma replay_tick_without_time_stamp_raises_before_initialize :
  Scheduler_periodic 5 replay_ready_state =
    Raise (match time_stamps (scheduler replay_ready_state) with
           | None => AttributeError "pop"
           | Some _ => IndexError
           end) (set_reads (S (reads replay_ready_state)) replay_ready_state).
Proof.
  apply (replay_tick_without_time_stamp_raises 5 replay_ready_state); [reflexivity|].
  left. reflexivity.
Defined.

Lemma replay_of_a_bad_log_entry_raises_for_an_empty_log :
  Scheduler_publish (Some ∅) (VRef 0) ∅ replay_ready_state =
    Raise (match (∅ : gmap dkey (val * val * val)) !! KStr "SystemTime" with
           | None => KeyError (KStr "SystemTime")
           | Some _ => TypeError "Message must be a dictionary"
           end) replay_ready_state.
Proof.
  apply (replay_of_a_bad_log_entry_raises replay_ready_state 0 "SystemTime" (VBool true) ∅ ∅);
    vm_compute; done.
Defined.

Lemma live_tick_appends_one_log_line_for_two_topics :
  let tick := Scheduler_periodic 5 two_topics_live_state in
  (topics (scheduler two_topics_live_state) = [] /\
   files (state_of tick two_topics_live_state) = files two_topics_live_state) \/
  (topics (scheduler two_topics_live_state) <> [] /\
   exists stored, stored <> ∅ /\
     files (state_of tick two_topics_live_state) =
       <["log.csv" := default [] (files two_topics_live_state !! "log.csv") ++
                      [LogTick (clock two_topics_live_state (reads two_topics_live_state)) stored]]>
         (files two_topics_live_state)).
Proof.
  apply (live_tick_appends_one_log_line 5 two_topics_live_state
           (state_of (Scheduler_periodic 5 two_topics_live_state) two_topics_live_state)
           "log.csv"); vm_compute; reflexivity.
Defined.


Lemma init_hardware_stops_at_first_failure_of_the_motor :
  exists s',
    Scheduler_init_hardware three_subscribers_state =
      Raise (RuntimeError (HardwareFailed "motor")) s' /\
    InitializeHardware 1 ∈ trace s' /\
    (forall b, VRef b ∉ [VRef 0] ->
               attr s' b "is_sim" = attr three_subscribers_state b "is_sim") /\
    (forall b, VRef b ∉ [VRef 0] -> b <> 1 ->
               InitializeHardware b ∈ trace s' ->
               InitializeHardware b ∈ trace three_subscribers_state).
Proof.
  apply (init_hardware_stops_at_first_failure three_subscribers_state [VRef 0] 1 13 "motor"
           [VRef 2]); try (vm_compute; reflexivity).
  repeat constructor. exists (UserSubscriber 7).
  split; [by vm_compute|]. split; [done|]. by intros k [= <-] w.
Defined.

Lemma init_hardware_lenient_goes_on_past_the_motor :
  exists s',
    Scheduler_init_hardware lenient_state = Ret tt s' /\
    Forall (fun v => exists b, v = VRef b /\
                     attr s' b "is_sim" = Some (VBool (is_sim (scheduler lenient_state))))
           (subscribers (scheduler lenient_state)) /\
    files s' = files lenient_state /\ scheduler s' = scheduler lenient_state.
Proof.
  apply (init_hardware_lenient_goes_on lenient_state); [reflexivity|].
  replace (subscribers (scheduler lenient_state)) with [VRef 0; VRef 1; VRef 2]
    by by vm_compute.
  repeat constructor.
  - exists (UserSubscriber 7). split; by vm_compute.
  - exists (UserSubscriber 13). split; by vm_compute.
  - exists (UserSubscriber 8). split; by vm_compute.
Defined.

Lemma initialize_live_opens_the_log_for_two_topics :
  exists s',
    Scheduler_initialize two_topics_state = Ret tt s' /\
    topics (scheduler s') =
      dependecy_sort (heap two_topics_state) (topics (scheduler two_topics_state)) /\
    writing_file_name (scheduler s') =
      Some (log_file_name (clock two_topics_state (reads two_topics_state))) /\
    files s' = <[log_file_name (clock two_topics_state (reads two_topics_state)) := [LogHeader]]>
                 (files two_topics_state) /\
    Forall (fun v => exists b, v = VRef b /\ attr s' b "is_sim" = Some (VBool false))
           (subscribers (scheduler two_topics_state)) /\
    time_stamps (scheduler s') = time_stamps (scheduler two_topics_state) /\
    read_topics (scheduler s') = read_topics (scheduler two_topics_state).
Proof.
  assert (subscribers (scheduler two_topics_state) = [VRef 2]) as Hs by by vm_compute.
  apply (initialize_live_opens_the_log two_topics_state ["imu"; "gps"]).
  - reflexivity.
  - by vm_compute.
  - replace (dependecy_sort (heap two_topics_state) (topics (scheduler two_topics_state)))
      with [VRef 0; VRef 1] by by vm_compute.
    repeat constructor.
  - rewrite Hs. repeat constructor; by vm_compute; eexists.
  - rewrite Hs. repeat constructor. exists (UserSubscriber 7).
    split; [by vm_compute|]. split; [done|]. by intros k [= <-] w.
  - apply NoDup_cons. split; [by intros ?%list_elem_of_singleton|]. apply NoDup_singleton.
  - rewrite Hs. intros n Hn Hin.
    replace (name_of two_topics_state <$> [VRef 2]) with [Some "display"] in Hin by by vm_compute.
    apply list_elem_of_singleton in Hin as [= ->].
    apply elem_of_cons in Hn as [?|Hn]; [done|]. by apply list_elem_of_singleton in Hn.
Defined.

Lemma initialize_sim_loads_the_log_of_the_live_run :
  exists s3,
    files s3 = files two_topics_replay_state /\
    writing_file_name (scheduler s3) = writing_file_name (scheduler two_topics_replay_state) /\
    Forall (fun v => exists b, v = VRef b /\ attr s3 b "is_sim" = Some (VBool true))
           (subscribers (scheduler two_topics_replay_state)) /\
    (file_reading_name (scheduler two_topics_replay_state) = None ->
     Scheduler_initialize two_topics_replay_state =
       Raise (Exception "Must provide file name to read from in simulation mode.") s3) /\
    (forall name lines,
       file_reading_name (scheduler two_topics_replay_state) = Some name ->
       files two_topics_replay_state !! name = Some lines ->
       Scheduler_initialize two_topics_replay_state =
         Ret tt (set_scheduler
                   (with_read_topics
                      (Some (construct_dictionary_of_messages_vs_time
                               (dump_file_contents lines).1 (dump_file_contents lines).2))
                      (with_time_stamps (Some (dump_file_contents lines).1) (scheduler s3)))
                   s3)).
Proof.
  assert (subscribers (scheduler two_topics_replay_state) = [VRef 2]) as Hs by by vm_compute.
  apply (initialize_sim_loads_the_log two_topics_replay_state ["imu"; "gps"]).
  - reflexivity.
  - by vm_compute.
  - replace (dependecy_sort (heap two_topics_replay_state)
               (topics (scheduler two_topics_replay_state)))
      with [VRef 0; VRef 1] by by vm_compute.
    repeat constructor.
  - rewrite Hs. repeat constructor; by vm_compute; eexists.
  - rewrite Hs. repeat constructor. exists (UserSubscriber 7).
    split; [by vm_compute|]. split; [done|]. by intros k [= <-] w.
  - apply NoDup_cons. split; [by intros ?%list_elem_of_singleton|]. apply NoDup_singleton.
  - rewrite Hs. intros n Hn Hin.
    replace (name_of two_topics_replay_state <$> [VRef 2]) with [Some "display"] in Hin
      by by vm_compute.
    apply list_elem_of_singleton in Hin as [= ->].
    apply elem_of_cons in Hn as [?|Hn]; [done|]. by apply list_elem_of_singleton in Hn.
Defined.

Lemma Scheduler_advance_command_moves_one_link_from_A :
  exists s',
    Scheduler_advance_command 3 chain_ABC_A_complete_state = Ret tt s' /\
    root_command (scheduler s') = VRef 1 /\
    trace s' = trace chain_ABC_A_complete_state ++ [IsComplete 0] /\
    world s' = world chain_ABC_A_complete_state /\
    heap s' = heap chain_ABC_A_complete_state /\
    (true = true -> VRef 1 = VNone -> Scheduler_advance_command 3 s' = Ret tt s').
Proof.
  apply (Scheduler_advance_command_moves_one_link 2 chain_ABC_A_complete_state 0 0
           (VRef 1) true (world chain_ABC_A_complete_state)); vm_compute; reflexivity.
Defined.
